(** * Raster Vision: learner configuration and the classification task

    A shallow embedding of
      - rastervision_pytorch_learner/rastervision/pytorch_learner/learner_config.py
      - src/rastervision/ml_tasks/classification.py
    and the properties of the configuration objects that the design document
    states about them.

    Conventions.
      - A Python call that may raise is a value of [res]: [OK v] or [Raise e].
      - A method that mutates its receiver, and code that reads or writes the
        process-global generator of the [random] module, is a state
        transformer that may raise, [ST].
      - Optional fields are [option]; Python [int] is [Z]; Python [float] is
        the binary64 type [float] of the kernel.
      - Collaborators that live outside the two files (the file system, the
        transforms, [Box.get_windows], the generator behind [random]) are
        type class fields, instantiated where a statement is evaluated. *)

From Stdlib Require Import ZArith Ascii.
From Stdlib Require Import Floats.PrimFloat Floats.SpecFloat Floats.FloatOps.
From stdpp Require Import base option list gmap strings pretty.

#[local] Set Warnings "-register-all".

Open Scope Z_scope.

(** ** Exceptions and results *)

Inductive exn : Type :=
| ConfigError (msg : string)
| ValueError (msg : string)
| KeyError (key : string)
| AttributeError (name : string)
| TypeError (msg : string)
| AssertionError (msg : string)
| OverflowError (msg : string)
| FileNotFoundError (uri : string).

Inductive res (A : Type) : Type :=
| OK (a : A)
| Raise (e : exn).
Arguments OK {A} a.
Arguments Raise {A} e.

Definition res_bind {A B : Type} (r : res A) (k : A -> res B) : res B :=
  match r with
  | OK a => k a
  | Raise e => Raise e
  end.

Declare Scope res_scope.
Delimit Scope res_scope with res.
Notation "'do' x <- r ; k" := (res_bind r (fun x => k))
  (at level 10, x pattern, r at level 100, k at level 200) : res_scope.

Definition is_OK {A : Type} (r : res A) : Prop := exists a, r = OK a.
Definition raises {A : Type} (r : res A) : Prop := exists e, r = Raise e.

(** ** Values of a serialized configuration *)

(** The entries of a [cfg_dict] that the upgraders touch. *)
Inductive value : Type :=
| VNone
| VBool (b : bool)
| VInt (z : Z)
| VStr (s : string).

(** [repr] of a dictionary key, as it appears in a [KeyError]. *)
Definition repr_value (v : value) : string :=
  match v with
  | VNone => "None"
  | VBool true => "True"
  | VBool false => "False"
  | VInt z => pretty z
  | VStr s => "'" +:+ s +:+ "'"
  end.

(** [d[k]] on a [dict] with string keys. *)
Definition getitem (d : gmap string value) (k : string) : res value :=
  match d !! k with
  | Some v => OK v
  | None => Raise (KeyError (repr_value (VStr k)))
  end.

(** ** Backbone *)

Module Backbone.

(** The members of the enumeration; the value of each is its name. *)
Inductive t : Type :=
| alexnet | densenet121 | densenet169 | densenet201 | densenet161
| googlenet | inception_v3 | mnasnet0_5 | mnasnet0_75 | mnasnet1_0
| mnasnet1_3 | mobilenet_v2 | resnet18 | resnet34 | resnet50 | resnet101
| resnet152 | resnext50_32x4d | resnext101_32x8d | wide_resnet50_2
| wide_resnet101_2 | shufflenet_v2_x0_5 | shufflenet_v2_x1_0
| shufflenet_v2_x1_5 | shufflenet_v2_x2_0 | squeezenet1_0 | squeezenet1_1
| vgg11 | vgg11_bn | vgg13 | vgg13_bn | vgg16 | vgg16_bn | vgg19_bn | vgg19.

Definition members : list t :=
  [ alexnet; densenet121; densenet169; densenet201; densenet161;
    googlenet; inception_v3; mnasnet0_5; mnasnet0_75; mnasnet1_0;
    mnasnet1_3; mobilenet_v2; resnet18; resnet34; resnet50; resnet101;
    resnet152; resnext50_32x4d; resnext101_32x8d; wide_resnet50_2;
    wide_resnet101_2; shufflenet_v2_x0_5; shufflenet_v2_x1_0;
    shufflenet_v2_x1_5; shufflenet_v2_x2_0; squeezenet1_0; squeezenet1_1;
    vgg11; vgg11_bn; vgg13; vgg13_bn; vgg16; vgg16_bn; vgg19_bn; vgg19 ].

Definition name (b : t) : string :=
  match b with
  | alexnet => "alexnet" | densenet121 => "densenet121"
  | densenet169 => "densenet169" | densenet201 => "densenet201"
  | densenet161 => "densenet161" | googlenet => "googlenet"
  | inception_v3 => "inception_v3" | mnasnet0_5 => "mnasnet0_5"
  | mnasnet0_75 => "mnasnet0_75" | mnasnet1_0 => "mnasnet1_0"
  | mnasnet1_3 => "mnasnet1_3" | mobilenet_v2 => "mobilenet_v2"
  | resnet18 => "resnet18" | resnet34 => "resnet34" | resnet50 => "resnet50"
  | resnet101 => "resnet101" | resnet152 => "resnet152"
  | resnext50_32x4d => "resnext50_32x4d"
  | resnext101_32x8d => "resnext101_32x8d"
  | wide_resnet50_2 => "wide_resnet50_2"
  | wide_resnet101_2 => "wide_resnet101_2"
  | shufflenet_v2_x0_5 => "shufflenet_v2_x0_5"
  | shufflenet_v2_x1_0 => "shufflenet_v2_x1_0"
  | shufflenet_v2_x1_5 => "shufflenet_v2_x1_5"
  | shufflenet_v2_x2_0 => "shufflenet_v2_x2_0"
  | squeezenet1_0 => "squeezenet1_0" | squeezenet1_1 => "squeezenet1_1"
  | vgg11 => "vgg11" | vgg11_bn => "vgg11_bn" | vgg13 => "vgg13"
  | vgg13_bn => "vgg13_bn" | vgg16 => "vgg16" | vgg16_bn => "vgg16_bn"
  | vgg19_bn => "vgg19_bn" | vgg19 => "vgg19"
  end.

(** The literal of [Backbone.int_to_str], in source order. *)
Definition mapping_items : list (Z * string) :=
  [ (1, "alexnet"); (2, "densenet121"); (3, "densenet169");
    (4, "densenet201"); (5, "densenet161"); (6, "googlenet");
    (7, "inception_v3"); (8, "mnasnet0_5"); (9, "mnasnet0_75");
    (10, "mnasnet1_0"); (11, "mnasnet1_3"); (12, "mobilenet_v2");
    (13, "resnet18"); (14, "resnet34"); (15, "resnet50");
    (16, "resnet101"); (17, "resnet152"); (18, "resnext50_32x4d");
    (19, "resnext101_32x8d"); (20, "wide_resnet50_2");
    (21, "wide_resnet101_2"); (22, "shufflenet_v2_x0_5");
    (23, "shufflenet_v2_x1_0"); (24, "shufflenet_v2_x1_5");
    (25, "shufflenet_v2_x2_0"); (26, "squeezenet1_0");
    (27, "squeezenet1_1"); (28, "vgg11"); (29, "vgg11_bn");
    (30, "vgg13"); (31, "vgg13_bn"); (32, "vgg16"); (33, "vgg16_bn");
    (34, "vgg19_bn"); (35, "vgg19") ]%string.

Definition mapping : gmap Z string := list_to_map mapping_items.

(** The integer a key hashes and compares as: [True == 1], [False == 0];
    [None] and strings equal no integer key. *)
Definition as_int_key (x : value) : option Z :=
  match x with
  | VInt z => Some z
  | VBool b => Some (if b then 1 else 0)
  | VNone | VStr _ => None
  end.

(** [Backbone.int_to_str(x)]: [mapping[x]]. *)
Definition int_to_str (x : value) : res string :=
  match as_int_key x ≫= (mapping !!.) with
  | Some s => OK s
  | None => Raise (KeyError (repr_value x))
  end.

End Backbone.

(** [model_config_upgrader(cfg_dict, version)]. *)
Definition model_config_upgrader (cfg_dict : gmap string value) (version : Z)
  : res (gmap string value) :=
  if version =? 0 then
    (do b <- getitem cfg_dict "backbone";
     do s <- Backbone.int_to_str b;
     OK (<["backbone" := VStr s]> cfg_dict))%res
  else OK cfg_dict.

(** [data_config_upgrader(cfg_dict, version)]; [cfg_dict.get(k)] is [None]
    for a missing key. *)
Definition data_config_upgrader (cfg_dict : gmap string value) (version : Z)
  : res (gmap string value) :=
  if version <? 2 then OK (<["type_hint" := VStr "image_data"]> cfg_dict)
  else if version <? 3
  then OK (<["img_channels" := default VNone (cfg_dict !! "img_channels")]> cfg_dict)
  else OK cfg_dict.

(** ** Mutable objects and the global generator *)

(** A method that may mutate its receiver (or a function that may advance the
    global generator) and may raise.  What was written before a raise stays
    written. *)
Definition ST (S A : Type) : Type := S -> res A * S.

Definition st_ret {S A : Type} (a : A) : ST S A := fun s => (OK a, s).
Definition st_raise {S A : Type} (e : exn) : ST S A := fun s => (Raise e, s).
Definition st_bind {S A B : Type} (m : ST S A) (k : A -> ST S B) : ST S B :=
  fun s => match m s with
           | (OK a, s') => k a s'
           | (Raise e, s') => (Raise e, s')
           end.
Definition st_lift {S A : Type} (r : res A) : ST S A := fun s => (r, s).
Definition st_get {S : Type} : ST S S := fun s => (OK s, s).
Definition st_put {S : Type} (s : S) : ST S unit := fun _ => (OK tt, s).
Definition st_modify {S : Type} (f : S -> S) : ST S unit := fun s => (OK tt, f s).

Declare Scope st_scope.
Delimit Scope st_scope with st.
Notation "'do' x <- m ; k" := (st_bind m (fun x => k)) : st_scope.

(** [for x in xs: body(x)], collecting what each iteration yields. *)
Fixpoint st_for {S A B : Type} (xs : list A) (body : A -> ST S B) : ST S (list B) :=
  match xs with
  | [] => st_ret []
  | x :: xs' => (do y <- body x; do ys <- st_for xs' body; st_ret (y :: ys))%st
  end.

(** The same loop for code that only raises. *)
Fixpoint res_for {A B : Type} (xs : list A) (body : A -> res B) : res (list B) :=
  match xs with
  | [] => OK []
  | x :: xs' => (do y <- body x; do ys <- res_for xs' body; OK (y :: ys))%res
  end.

(** Modelled from the spec: [Config.update] of the base class, which is
    outside the two files.  The design gives the base class no update of its
    own, so [super().update()] does nothing. *)
Definition Config_update {S : Type} : ST S unit := st_ret tt.

(** ** Python built-ins *)

(** [list(range(n))]. *)
Definition range (n : Z) : list Z := Z.of_nat <$> seq 0 (Z.to_nat n).

(** [xs[:stop]]: a negative [stop] counts from the end, and the slice is
    clipped to the list. *)
Definition slice_to {A : Type} (xs : list A) (stop : Z) : list A :=
  if 0 <=? stop then take (Z.to_nat stop) xs
  else take (length xs - Z.to_nat (- stop))%nat xs.

(** [repr] of a list of integers: ['[0, 1, 2]']. *)
Fixpoint join_with (sep : string) (ss : list string) : string :=
  match ss with
  | [] => ""
  | [s] => s
  | s :: ss' => s +:+ sep +:+ join_with sep ss'
  end.

Definition repr_int_list (l : list Z) : string :=
  "[" +:+ join_with ", " (pretty <$> l) +:+ "]".

(** A [dict] with string keys, in insertion order. *)
Definition dict (V : Type) : Type := list (string * V).

(** [d[k] = v]: a present key keeps its place and takes the new value, a new
    key goes last. *)
Fixpoint dict_setitem {V : Type} (k : string) (v : V) (d : dict V) : dict V :=
  match d with
  | [] => [(k, v)]
  | (k', v') :: d' =>
      if decide (k' = k) then (k', v) :: d' else (k', v') :: dict_setitem k v d'
  end.

(** [{key(x): val(x) for x in xs}]. *)
Definition dict_comprehension {A V : Type} (key : A -> string) (val : A -> V)
    (xs : list A) : dict V :=
  foldl (fun d x => dict_setitem (key x) (val x) d) [] xs.

(** [float(n)] for a Python [int]: rounded to nearest, ties to even; an
    [int] beyond the range of [float] raises. *)
Definition float_of_int (z : Z) : res float :=
  let f := SF2Prim (binary_normalize prec emax z 0 false) in
  if is_infinity f
  then Raise (OverflowError "int too large to convert to float")
  else OK f.

(** [int(x)] for a [float]: truncation toward zero. *)
Definition int_of_float (x : float) : res Z :=
  match Prim2SF x with
  | S754_zero _ => OK 0
  | S754_finite s m e =>
      let a := match e with
               | Z0 => Zpos m
               | Zpos p => Z.shiftl (Zpos m) (Zpos p)
               | Zneg p => Z.shiftr (Zpos m) (Zpos p)
               end in
      OK (if s then - a else a)
  | S754_infinity _ =>
      Raise (OverflowError "cannot convert float infinity to integer")
  | S754_nan => Raise (ValueError "cannot convert float NaN to integer")
  end.

(** The integer part of the number [(-1)^s * m * 2^e] that a finite [float]
    stands for: the quotient rounded toward zero. *)
Definition integer_part (s : bool) (m : positive) (e : Z) : Z :=
  Z.quot ((if s then - Zpos m else Zpos m) * 2 ^ Z.max e 0) (2 ^ Z.max (- e) 0).

(** [n * x] for an [int] [n] and a [float] [x]. *)
Definition int_mul_float (n : Z) (x : float) : res float :=
  (do nf <- float_of_int n; OK (PrimFloat.mul nf x))%res.

(** [x is not None]. *)
Definition is_not_None {A : Type} (x : option A) : bool :=
  match x with
  | Some _ => true
  | None => false
  end.

(** ** ExternalModuleConfig *)

Record ExternalModuleConfig : Type := {
  ext_uri : option string;
  github_repo : option string;
  ext_name : option string;
  entrypoint : string;
  entrypoint_args : list value;
  entrypoint_kwargs : dict value;
  force_reload : bool
}.

(** [ExternalModuleConfig.validate_config]. *)
Definition ExternalModuleConfig_validate_config (self : ExternalModuleConfig)
  : res unit :=
  let has_uri := is_not_None (ext_uri self) in
  let has_repo := is_not_None (github_repo self) in
  if Bool.eqb has_uri has_repo
  then Raise (ConfigError "Must specify one of github_repo and uri.")
  else OK tt.

(** ** ModelConfig *)

Record ModelConfig : Type := {
  backbone : Backbone.t;
  pretrained : bool;
  init_weights : option string;
  load_strict : bool;
  external_def : option ExternalModuleConfig
}.

(** [ModelConfig.get_backbone_str]. *)
Definition get_backbone_str (self : ModelConfig) : string :=
  Backbone.name (backbone self).

(** ** SolverConfig *)

(** [Union[bool, Literal['force']]]. *)
Inductive ignore_last_class_t : Type :=
| IgnoreBool (b : bool)
| IgnoreForce.

(** [x is True]. *)
Definition is_True (x : ignore_last_class_t) : bool :=
  match x with
  | IgnoreBool true => true
  | IgnoreBool false | IgnoreForce => false
  end.

Record SolverConfig : Type := {
  lr : float;
  num_epochs : Z;
  test_num_epochs : Z;
  test_batch_sz : Z;
  overfit_num_steps : Z;
  sync_interval : Z;
  batch_sz : Z;
  one_cycle : bool;
  multi_stage : list Z;
  class_loss_weights : option (list float);
  ignore_last_class : ignore_last_class_t;
  external_loss_def : option ExternalModuleConfig
}.

Definition msg_ignore_last_class : string :=
  "ignore_last_class=True is not supported with external_loss_def.  " +:+
  "Please carefully considering using ignore_last_class='force' " +:+
  "and setting the external loss function to ignore the last index.".

Definition msg_class_loss_weights : string :=
  "class_loss_weights is not supported with external_loss_def.".

(** [SolverConfig.validate_config]. *)
Definition SolverConfig_validate_config (self : SolverConfig) : res unit :=
  let has_weights := is_not_None (class_loss_weights self) in
  let has_external_loss_def := is_not_None (external_loss_def self) in
  if is_True (ignore_last_class self) && has_external_loss_def
  then Raise (ConfigError msg_ignore_last_class)
  else if has_weights && has_external_loss_def
  then Raise (ConfigError msg_class_loss_weights)
  else OK tt.

(** What an attribute of a [SolverConfig] can hold. *)
Inductive solver_attr : Type :=
| AFloat (x : float)
| AInt (z : Z)
| ABool (b : bool)
| AIntList (l : list Z)
| AWeights (w : option (list float))
| AIgnore (i : ignore_last_class_t)
| AExternal (e : option ExternalModuleConfig).

(** [getattr(self, name)] on a [SolverConfig]: the declared fields, and
    [AttributeError] for any other name. *)
Definition SolverConfig_getattr (self : SolverConfig) (name : string)
  : res solver_attr :=
  if decide (name = "lr") then OK (AFloat (lr self))
  else if decide (name = "num_epochs") then OK (AInt (num_epochs self))
  else if decide (name = "test_num_epochs") then OK (AInt (test_num_epochs self))
  else if decide (name = "test_batch_sz") then OK (AInt (test_batch_sz self))
  else if decide (name = "overfit_num_steps") then OK (AInt (overfit_num_steps self))
  else if decide (name = "sync_interval") then OK (AInt (sync_interval self))
  else if decide (name = "batch_sz") then OK (AInt (batch_sz self))
  else if decide (name = "one_cycle") then OK (ABool (one_cycle self))
  else if decide (name = "multi_stage") then OK (AIntList (multi_stage self))
  else if decide (name = "class_loss_weights")
       then OK (AWeights (class_loss_weights self))
  else if decide (name = "ignore_last_class")
       then OK (AIgnore (ignore_last_class self))
  else if decide (name = "external_loss_def")
       then OK (AExternal (external_loss_def self))
  else Raise (AttributeError name).

Definition set_overfit_num_steps (v : Z) (s : SolverConfig) : SolverConfig :=
  {| lr := lr s; num_epochs := num_epochs s;
     test_num_epochs := test_num_epochs s; test_batch_sz := test_batch_sz s;
     overfit_num_steps := v; sync_interval := sync_interval s;
     batch_sz := batch_sz s; one_cycle := one_cycle s;
     multi_stage := multi_stage s; class_loss_weights := class_loss_weights s;
     ignore_last_class := ignore_last_class s;
     external_loss_def := external_loss_def s |}.

Definition set_num_epochs (v : Z) (s : SolverConfig) : SolverConfig :=
  {| lr := lr s; num_epochs := v;
     test_num_epochs := test_num_epochs s; test_batch_sz := test_batch_sz s;
     overfit_num_steps := overfit_num_steps s; sync_interval := sync_interval s;
     batch_sz := batch_sz s; one_cycle := one_cycle s;
     multi_stage := multi_stage s; class_loss_weights := class_loss_weights s;
     ignore_last_class := ignore_last_class s;
     external_loss_def := external_loss_def s |}.

Definition set_batch_sz (v : Z) (s : SolverConfig) : SolverConfig :=
  {| lr := lr s; num_epochs := num_epochs s;
     test_num_epochs := test_num_epochs s; test_batch_sz := test_batch_sz s;
     overfit_num_steps := overfit_num_steps s; sync_interval := sync_interval s;
     batch_sz := v; one_cycle := one_cycle s;
     multi_stage := multi_stage s; class_loss_weights := class_loss_weights s;
     ignore_last_class := ignore_last_class s;
     external_loss_def := external_loss_def s |}.

(** ** PlotOptions *)

(** [channel_display_groups]: a title-to-group [dict], or a list or tuple of
    groups. *)
Inductive channel_groups : Type :=
| GroupsDict (d : dict (list Z))
| GroupsSeq (l : list (list Z)).

Definition channel_groups_len (g : channel_groups) : nat :=
  match g with
  | GroupsDict d => length d
  | GroupsSeq l => length l
  end.

Record PlotOptions : Type := {
  transform : option (dict value);
  channel_display_groups : option channel_groups
}.

Definition msg_groups_empty : string :=
  "channel_display_groups cannot be empty. Set to None instead.".

Definition msg_group_len (k : string) : string :=
  "channel_display_groups[" +:+ k +:+ "]: " +:+ "len(group) must be 1, 2, or 3".

Definition msg_group_indices (k : string) : string :=
  "Invalid channel indices in " +:+ "channel_display_groups[" +:+ k +:+ "].".

(** The body of the loop over [groups.items()]. *)
Definition check_group (img_channels : Z) (kv : string * list Z) : res unit :=
  let '(k, v) := kv in
  if negb (bool_decide (0 < length v <= 3)%nat)
  then Raise (ConfigError (msg_group_len k))
  else if negb (forallb (fun i => (0 <=? i) && (i <? img_channels)) v)
  then Raise (ConfigError (msg_group_indices k))
  else OK tt.

(** [f'Channels: {[*chs]}']. *)
Definition channels_label (chs : list Z) : string :=
  "Channels: " +:+ repr_int_list chs.

(** The first branch chain: which [dict] the groups become. *)
Definition groups_to_dict (groups : option channel_groups) (img_channels : Z)
  : res (dict (list Z)) :=
  match groups with
  | None =>
      let num_display_channels := Z.min 3 img_channels in
      OK [("Input"%string, range num_display_channels)]
  | Some g =>
      if bool_decide (channel_groups_len g = 0%nat)
      then Raise (ConfigError msg_groups_empty)
      else match g with
           | GroupsSeq l =>
               OK (dict_comprehension channels_label (fun chs => chs) l)
           | GroupsDict d =>
               OK (dict_comprehension fst snd d)
           end
  end.

(** [PlotOptions.validate_and_update_channel_display_groups(img_channels)]. *)
Definition validate_and_update_channel_display_groups (self : PlotOptions)
    (img_channels : Z) : res (dict (list Z)) :=
  (do groups <- groups_to_dict (channel_display_groups self) img_channels;
   do _ <- res_for groups (check_group img_channels);
   OK groups)%res.

(** [PlotOptions.update(data_cfg)], given [data_cfg.img_channels]. *)
Definition PlotOptions_update (data_img_channels : option Z)
  : ST PlotOptions unit :=
  (do _ <- Config_update;
   match data_img_channels with
   | Some img_channels =>
       do self <- st_get;
       do groups <- st_lift (validate_and_update_channel_display_groups
                               self img_channels);
       st_put {| transform := transform self;
                 channel_display_groups := Some (GroupsDict groups) |}
   | None => st_ret tt
   end)%st.

(** ** The generator of the [random] module *)

(** The generator behind [random.seed] and [random.shuffle].  [seed a] is the
    state that [random.seed(a)] installs, whatever the state was before;
    [randbelow n] draws an integer below [n] and advances the state. *)
Class PyRandom : Type := {
  rng : Type;
  seed : Z -> rng;
  randbelow : nat -> rng -> nat * rng
}.

(** [x[i], x[j] = x[j], x[i]]. *)
Definition swap {A : Type} (x : list A) (i j : nat) : list A :=
  match x !! i, x !! j with
  | Some xi, Some xj => <[j := xi]> (<[i := xj]> x)
  | _, _ => x
  end.

(** The loop of [random.shuffle(x)]:
    [for i in reversed(range(1, len(x))): j = randbelow(i + 1); swap],
    with [n] iterations left, the next one at [i = n]. *)
Fixpoint shuffle_from `{PyRandom} {A : Type} (n : nat) (x : list A) (g : rng)
  : list A * rng :=
  match n with
  | O => (x, g)
  | S n' =>
      let '(j, g') := randbelow (S n) g in
      shuffle_from n' (swap x n j) g'
  end.

Definition shuffle `{PyRandom} {A : Type} (x : list A) : ST rng (list A) :=
  fun g => let '(x', g') := shuffle_from (length x - 1)%nat x g in (OK x', g').

(** [random.seed(a)]. *)
Definition random_seed `{PyRandom} (a : Z) : ST rng unit := st_put (seed a).

(** ** Datasets *)

(** The datasets the configurations assemble: what [dir_to_dataset] or
    [scene_to_dataset] yields ([SourceDataset], known by a name and a
    length), the bare [[]] that [make_datasets] puts into an empty list, and
    the two wrappers of [torch.utils.data]. *)
Inductive Dataset : Type :=
| SourceDataset (name : string) (n : nat)
| EmptyList
| ConcatDataset (datasets : list Dataset)
| Subset (dataset : Dataset) (indices : list Z).

(** [len(ds)]. *)
Fixpoint len (ds : Dataset) : Z :=
  match ds with
  | SourceDataset _ n => Z.of_nat n
  | EmptyList => 0
  | ConcatDataset datasets => foldr (fun d acc => len d + acc) 0 datasets
  | Subset _ indices => Z.of_nat (length indices)
  end.

(** [ConcatDataset(datasets)]: the constructor asserts that the list is not
    empty. *)
Definition new_ConcatDataset (datasets : list Dataset) : res Dataset :=
  match datasets with
  | [] => Raise (AssertionError "datasets should not be an empty iterable")
  | _ => OK (ConcatDataset datasets)
  end.

(** ** DataConfig *)

Inductive color : Type :=
| ColorName (s : string)
| ColorTriple (r g b : Z).

Record DataConfig : Type := {
  class_names : list string;
  class_colors : option (list color);
  img_channels : option Z;
  img_sz : Z;
  train_sz : option Z;
  train_sz_rel : option float;
  num_workers : Z;
  augmentors : list string;
  base_transform : option (dict value);
  aug_transform : option (dict value);
  plot_options : option PlotOptions;
  preview_batch_limit : option Z
}.

Definition num_classes (self : DataConfig) : Z :=
  Z.of_nat (length (class_names self)).

Definition set_img_sz (v : Z) (d : DataConfig) : DataConfig :=
  {| class_names := class_names d; class_colors := class_colors d;
     img_channels := img_channels d; img_sz := v; train_sz := train_sz d;
     train_sz_rel := train_sz_rel d; num_workers := num_workers d;
     augmentors := augmentors d; base_transform := base_transform d;
     aug_transform := aug_transform d; plot_options := plot_options d;
     preview_batch_limit := preview_batch_limit d |}.

Definition set_num_workers (v : Z) (d : DataConfig) : DataConfig :=
  {| class_names := class_names d; class_colors := class_colors d;
     img_channels := img_channels d; img_sz := img_sz d; train_sz := train_sz d;
     train_sz_rel := train_sz_rel d; num_workers := v;
     augmentors := augmentors d; base_transform := base_transform d;
     aug_transform := aug_transform d; plot_options := plot_options d;
     preview_batch_limit := preview_batch_limit d |}.

Definition msg_size_or_fraction : string :=
  "Specify either size or fraction but not both.".

(** [DataConfig.random_subset_dataset(ds, size, fraction)].  The method reads
    no field of [self]. *)
Definition random_subset_dataset `{PyRandom} (ds : Dataset) (size : option Z)
    (fraction : option float) : ST rng Dataset :=
  if negb (is_not_None size) && negb (is_not_None fraction) then st_ret ds
  else if is_not_None size && is_not_None fraction
  then st_raise (ValueError msg_size_or_fraction)
  else
    (do size <- match fraction with
                | Some fr =>
                    st_lift (do x <- int_mul_float (len ds) fr;
                             do n <- int_of_float x;
                             OK (Some n))%res
                | None => st_ret size
                end;
     do _ <- random_seed 1234;
     let inds := range (len ds) in
     do inds <- shuffle inds;
     st_ret (Subset ds (match size with
                        | Some n => slice_to inds n
                        | None => inds
                        end)))%st.

(** The indices a call has selected, when it returned a [Subset]. *)
Definition selected_indices (r : res Dataset) : option (list Z) :=
  match r with
  | OK (Subset _ indices) => Some indices
  | _ => None
  end.

(** ** ImageDataConfig *)

(** [Union[str, List[str]]]. *)
Inductive uri_t : Type :=
| UriStr (s : string)
| UriList (l : list string).

(** [Union[T, List[T]]]. *)
Inductive one_or_many (T : Type) : Type :=
| One (x : T)
| Many (l : list T).
Arguments One {T} x.
Arguments Many {T} l.

Record ImageDataConfig : Type := {
  data : DataConfig;
  data_format : option string;
  uri : option uri_t;
  group_uris : option (list uri_t);
  group_train_sz : option (one_or_many Z);
  group_train_sz_rel : option (one_or_many float)
}.

(** [pydantic.utils.sequence_like] on what the two fields can hold. *)
Definition sequence_like {T : Type} (x : one_or_many T) : bool :=
  match x with
  | One _ => false
  | Many _ => true
  end.

Definition one_or_many_len {T : Type} (x : one_or_many T) : nat :=
  match x with
  | One _ => 0
  | Many l => length l
  end.

(** [ImageDataConfig.validate_group_uris]. *)
Definition validate_group_uris (self : ImageDataConfig) : res unit :=
  let has_group_train_sz := is_not_None (group_train_sz self) in
  let has_group_train_sz_rel := is_not_None (group_train_sz_rel self) in
  let has_group_uris := is_not_None (group_uris self) in
  let len_group_uris := length (default [] (group_uris self)) in
  if has_group_train_sz && has_group_train_sz_rel
  then Raise (ConfigError
         "Only one of group_train_sz and group_train_sz_rel should be specified.")
  else if has_group_train_sz && negb has_group_uris
  then Raise (ConfigError "group_train_sz specified without group_uris.")
  else if has_group_train_sz_rel && negb has_group_uris
  then Raise (ConfigError "group_train_sz_rel specified without group_uris.")
  else if match group_train_sz self with
          | Some g => sequence_like g
                      && negb (one_or_many_len g =? len_group_uris)%nat
          | None => false
          end
  then Raise (ConfigError "len(group_train_sz) != len(group_uris).")
  else if match group_train_sz_rel self with
          | Some g => sequence_like g
                      && negb (one_or_many_len g =? len_group_uris)%nat
          | None => false
          end
  then Raise (ConfigError "len(group_train_sz_rel) != len(group_uris).")
  else OK tt.

(** [os.path.join(a, b)] on POSIX paths. *)
Definition ends_with_slash (a : string) : bool :=
  match last (String.list_ascii_of_string a) with
  | Some c => bool_decide (c = "/"%char)
  | None => false
  end.

Definition join (a b : string) : string :=
  match b with
  | String "/" _ => b
  | _ => if bool_decide (a = ""%string) || ends_with_slash a
         then a +:+ b
         else a +:+ "/" +:+ b
  end.

(** What an [ImageDataConfig] needs from outside the file: the file system
    behind [get_data_dirs] and [isdir], the transforms that
    [get_data_transforms] builds, and the [dir_to_dataset] of the concrete
    subclass. *)
Class ImageDataEnv : Type := {
  Transform : Type;
  get_data_dirs : ImageDataConfig -> option uri_t -> string -> res (list string);
  isdir : string -> bool;
  get_data_transforms : ImageDataConfig -> res (Transform * Transform);
  dir_to_dataset : ImageDataConfig -> string -> Transform -> res Dataset
}.

(** The loop over the three lists of [make_datasets]:
    [if len(ds_list) == 0: ds_list.append([])]. *)
Definition pad_empty (ds_list : list Dataset) : list Dataset :=
  if bool_decide (length ds_list = 0%nat) then ds_list ++ [EmptyList] else ds_list.

(** [ImageDataConfig.make_datasets]. *)
Definition ImageDataConfig_make_datasets `{ImageDataEnv} (self : ImageDataConfig)
    (train_dirs val_dirs test_dirs : list string)
    (train_tf val_tf test_tf : Transform) : res (Dataset * Dataset * Dataset) :=
  (do train_ds_list <- res_for train_dirs (fun d => dir_to_dataset self d train_tf);
   do val_ds_list <- res_for val_dirs (fun d => dir_to_dataset self d val_tf);
   do test_ds_list <- res_for test_dirs (fun d => dir_to_dataset self d test_tf);
   do train_ds <- new_ConcatDataset (pad_empty train_ds_list);
   do val_ds <- new_ConcatDataset (pad_empty val_ds_list);
   do test_ds <- new_ConcatDataset (pad_empty test_ds_list);
   OK (train_ds, val_ds, test_ds))%res.

(** [ImageDataConfig.get_datasets_from_uri]. *)
Definition get_datasets_from_uri `{ImageDataEnv} (self : ImageDataConfig)
    (uri : option uri_t) (tmp_dir : string) (overfit_mode test_mode : bool)
  : res (Dataset * Dataset * Dataset) :=
  (do data_dirs <- get_data_dirs self uri tmp_dir;
   let train_dirs := (fun d => join d "train") <$> filter (fun d => isdir d) data_dirs in
   let val_dirs := (fun d => join d "valid") <$> filter (fun d => isdir d) data_dirs in
   let test_dirs := (fun d => join d "test") <$> filter (fun d => isdir d) data_dirs in
   let train_dirs := filter (fun d => isdir d) train_dirs in
   let val_dirs := filter (fun d => isdir d) val_dirs in
   let test_dirs := filter (fun d => isdir d) test_dirs in
   do tfs <- get_data_transforms self;
   let '(base_transform, aug_transform) := tfs in
   let train_tf := if negb overfit_mode then aug_transform else base_transform in
   let '(val_tf, test_tf) := (base_transform, base_transform) in
   ImageDataConfig_make_datasets self train_dirs val_dirs test_dirs
     train_tf val_tf test_tf)%res.

(** One entry of [group_sizes]: [None], an [int] or a [float]. *)
Inductive group_size : Type :=
| SizeNone
| SizeInt (n : Z)
| SizeFloat (x : float).

(** The head of [get_datasets_from_group_uris]: [group_sizes] from the two
    keyword arguments, repeated [len(uris)] times unless it is a sequence. *)
Definition group_sizes_of (n_uris : nat) (group_train_sz : option (one_or_many Z))
    (group_train_sz_rel : option (one_or_many float)) : list group_size :=
  match group_train_sz with
  | Some (One n) => replicate n_uris (SizeInt n)
  | Some (Many l) => SizeInt <$> l
  | None =>
      match group_train_sz_rel with
      | Some (One x) => replicate n_uris (SizeFloat x)
      | Some (Many l) => SizeFloat <$> l
      | None => replicate n_uris SizeNone
      end
  end.

(** The cap on one group inside the loop. *)
Definition cap_group `{PyRandom} (train_ds : Dataset) (size : group_size)
  : ST rng Dataset :=
  match size with
  | SizeNone => st_ret train_ds
  | SizeFloat x => random_subset_dataset train_ds None (Some x)
  | SizeInt n => random_subset_dataset train_ds (Some n) None
  end.

(** The body of the loop over [zip(uris, group_sizes)]. *)
Definition group_datasets `{PyRandom} `{ImageDataEnv} (self : ImageDataConfig)
    (tmp_dir : string) (overfit_mode test_mode : bool)
    (us : uri_t * group_size) : ST rng (Dataset * Dataset * Dataset) :=
  let '(uri, size) := us in
  (do dss <- st_lift (get_datasets_from_uri self (Some uri) tmp_dir
                        overfit_mode test_mode);
   let '(train_ds, valid_ds, test_ds) := dss in
   do train_ds <- cap_group train_ds size;
   st_ret (train_ds, valid_ds, test_ds))%st.

(** [ImageDataConfig.get_datasets_from_group_uris]. *)
Definition get_datasets_from_group_uris `{PyRandom} `{ImageDataEnv}
    (self : ImageDataConfig) (uris : list uri_t) (tmp_dir : string)
    (group_train_sz : option (one_or_many Z))
    (group_train_sz_rel : option (one_or_many float))
    (overfit_mode test_mode : bool) : ST rng (Dataset * Dataset * Dataset) :=
  let group_sizes := group_sizes_of (length uris) group_train_sz group_train_sz_rel in
  (do per_group <- st_for (zip uris group_sizes)
                     (group_datasets self tmp_dir overfit_mode test_mode);
   let train_ds_lst := (fun t => t.1.1) <$> per_group in
   let valid_ds_lst := (fun t => t.1.2) <$> per_group in
   let test_ds_lst := snd <$> per_group in
   do train_ds <- st_lift (new_ConcatDataset train_ds_lst);
   do valid_ds <- st_lift (new_ConcatDataset valid_ds_lst);
   do test_ds <- st_lift (new_ConcatDataset test_ds_lst);
   st_ret (train_ds, valid_ds, test_ds))%st.

(** [ImageDataConfig.build]. *)
Definition ImageDataConfig_build `{PyRandom} `{ImageDataEnv}
    (self : ImageDataConfig) (tmp_dir : string) (overfit_mode test_mode : bool)
  : ST rng (Dataset * Dataset * Dataset) :=
  match group_uris self with
  | None =>
      st_lift (get_datasets_from_uri self (uri self) tmp_dir overfit_mode test_mode)
  | Some uris =>
      (do dss <- get_datasets_from_group_uris self uris tmp_dir None None
                   overfit_mode test_mode;
       let '(train_ds, valid_ds, test_ds) := dss in
       do train_ds <-
         (if is_not_None (train_sz (data self))
             || is_not_None (train_sz_rel (data self))
          then random_subset_dataset train_ds (train_sz (data self))
                 (train_sz_rel (data self))
          else st_ret train_ds);
       st_ret (train_ds, valid_ds, test_ds))%st
  end.

(** The same method with the guard of the grouped path taken away. *)
Definition ImageDataConfig_build_unguarded `{PyRandom} `{ImageDataEnv}
    (self : ImageDataConfig) (tmp_dir : string) (overfit_mode test_mode : bool)
  : ST rng (Dataset * Dataset * Dataset) :=
  match group_uris self with
  | None =>
      st_lift (get_datasets_from_uri self (uri self) tmp_dir overfit_mode test_mode)
  | Some uris =>
      (do dss <- get_datasets_from_group_uris self uris tmp_dir None None
                   overfit_mode test_mode;
       let '(train_ds, valid_ds, test_ds) := dss in
       do train_ds <- random_subset_dataset train_ds (train_sz (data self))
                        (train_sz_rel (data self));
       st_ret (train_ds, valid_ds, test_ds))%st
  end.

(** ** GeoDataWindowConfig *)

Inductive GeoDataWindowMethod : Type :=
| sliding
| random.

(** [Union[int, Tuple[int, int]]]. *)
Inductive int_or_pair : Type :=
| IntVal (n : Z)
| PairVal (a b : Z).

Record GeoDataWindowConfig : Type := {
  method : GeoDataWindowMethod;
  size : int_or_pair;
  stride : option int_or_pair;
  padding : option int_or_pair;
  size_lims : option (Z * Z);
  h_lims : option (Z * Z);
  w_lims : option (Z * Z);
  max_windows : Z;
  max_sample_attempts : Z;
  efficient_aoi_sampling : bool
}.

Definition set_size_lims (v : option (Z * Z)) (c : GeoDataWindowConfig)
  : GeoDataWindowConfig :=
  {| method := method c; size := size c; stride := stride c;
     padding := padding c; size_lims := v; h_lims := h_lims c;
     w_lims := w_lims c; max_windows := max_windows c;
     max_sample_attempts := max_sample_attempts c;
     efficient_aoi_sampling := efficient_aoi_sampling c |}.

Definition is_random (m : GeoDataWindowMethod) : bool :=
  match m with
  | random => true
  | sliding => false
  end.

Definition is_sliding (m : GeoDataWindowMethod) : bool :=
  match m with
  | sliding => true
  | random => false
  end.

(** [GeoDataWindowConfig.update].  [self.size + 1] is defined for an [int]
    only; on a tuple it is a [TypeError]. *)
Definition GeoDataWindowConfig_update : ST GeoDataWindowConfig unit :=
  (do self <- st_get;
   if is_random (method self) then
     let has_size_lims := is_not_None (size_lims self) in
     let has_h_lims := is_not_None (h_lims self) in
     if negb (has_size_lims || has_h_lims) then
       match size self with
       | IntVal n => st_modify (set_size_lims (Some (n, n + 1)))
       | PairVal _ _ =>
           st_raise (TypeError "can only concatenate tuple (not 'int') to tuple")
       end
     else st_ret tt
   else st_ret tt)%st.

Definition msg_stride : string :=
  "stride must be specified if using " +:+ "GeoDataWindowMethod.sliding".
Definition msg_either_lims : string := "Specify either size_lims or h and w lims.".
Definition msg_both_lims : string := "h_lims and w_lims must both be specified".

(** [GeoDataWindowConfig.validate_config]. *)
Definition GeoDataWindowConfig_validate_config : ST GeoDataWindowConfig unit :=
  (do _ <- GeoDataWindowConfig_update;
   do self <- st_get;
   if is_sliding (method self) then
     if negb (is_not_None (stride self))
     then st_raise (ConfigError msg_stride)
     else st_ret tt
   else if is_random (method self) then
     let has_size_lims := is_not_None (size_lims self) in
     let has_h_lims := is_not_None (h_lims self) in
     let has_w_lims := is_not_None (w_lims self) in
     if Bool.eqb has_size_lims (has_w_lims || has_h_lims)
     then st_raise (ConfigError msg_either_lims)
     else if negb (Bool.eqb has_h_lims has_w_lims)
     then st_raise (ConfigError msg_both_lims)
     else st_ret tt
   else st_ret tt)%st.

(** ** GeoDataConfig *)

(** The scene abstractions of [rastervision.core.data], which the file only
    passes around. *)
Class SceneTypes : Type := {
  SceneConfig : Type;
  Scene : Type;
  ClassConfig : Type;
  GeoTransform : Type
}.

Record SceneDatasetConfig `{SceneTypes} : Type := {
  class_config : ClassConfig;
  train_scenes : list SceneConfig;
  validation_scenes : list SceneConfig;
  test_scenes : list SceneConfig
}.

Record GeoDataConfig `{SceneTypes} : Type := {
  geo_data : DataConfig;
  scene_dataset : SceneDatasetConfig;
  window_opts : GeoDataWindowConfig + dict GeoDataWindowConfig
}.

(** What a [GeoDataConfig] needs from outside the file: [SceneConfig.build],
    the transforms of [get_data_transforms], and the [scene_to_dataset] of the
    concrete subclass. *)
Class GeoDataEnv `{SceneTypes} : Type := {
  scene_build : SceneConfig -> ClassConfig -> string -> bool -> res Scene;
  geo_get_data_transforms : GeoDataConfig -> res (GeoTransform * GeoTransform);
  scene_to_dataset : GeoDataConfig -> Scene -> GeoTransform -> res Dataset
}.

(** [GeoDataConfig.build_scenes]. *)
Definition build_scenes `{GeoDataEnv} (self : GeoDataConfig) (tmp_dir : string)
  : res (list Scene * list Scene * list Scene) :=
  let class_cfg := class_config (scene_dataset self) in
  (do train_scenes <- res_for (train_scenes (scene_dataset self))
                        (fun s => scene_build s class_cfg tmp_dir true);
   do val_scenes <- res_for (validation_scenes (scene_dataset self))
                      (fun s => scene_build s class_cfg tmp_dir true);
   do test_scenes <- res_for (test_scenes (scene_dataset self))
                       (fun s => scene_build s class_cfg tmp_dir true);
   OK (train_scenes, val_scenes, test_scenes))%res.

(** [GeoDataConfig.make_datasets]. *)
Definition GeoDataConfig_make_datasets `{GeoDataEnv} (self : GeoDataConfig)
    (tmp_dir : string) (train_tf val_tf test_tf : GeoTransform)
  : res (Dataset * Dataset * Dataset) :=
  (do scenes <- build_scenes self tmp_dir;
   let '(train_scenes, val_scenes, test_scenes) := scenes in
   do train_ds_list <- res_for train_scenes (fun s => scene_to_dataset self s train_tf);
   do val_ds_list <- res_for val_scenes (fun s => scene_to_dataset self s val_tf);
   do test_ds_list <- res_for test_scenes (fun s => scene_to_dataset self s test_tf);
   do train_ds <- new_ConcatDataset (pad_empty train_ds_list);
   do val_ds <- new_ConcatDataset (pad_empty val_ds_list);
   do test_ds <- new_ConcatDataset (pad_empty test_ds_list);
   OK (train_ds, val_ds, test_ds))%res.

(** [GeoDataConfig.build]. *)
Definition GeoDataConfig_build `{PyRandom} `{GeoDataEnv} (self : GeoDataConfig)
    (tmp_dir : string) (overfit_mode test_mode : bool)
  : ST rng (Dataset * Dataset * Dataset) :=
  (do tfs <- st_lift (geo_get_data_transforms self);
   let '(base_transform, aug_transform) := tfs in
   let train_tf := if negb overfit_mode then aug_transform else base_transform in
   let '(val_tf, test_tf) := (base_transform, base_transform) in
   do dss <- st_lift (GeoDataConfig_make_datasets self tmp_dir train_tf val_tf test_tf);
   let '(train_ds, val_ds, test_ds) := dss in
   do train_ds <-
     (if is_not_None (train_sz (geo_data self))
         || is_not_None (train_sz_rel (geo_data self))
      then random_subset_dataset train_ds (train_sz (geo_data self))
             (train_sz_rel (geo_data self))
      else st_ret train_ds);
   st_ret (train_ds, val_ds, test_ds))%st.

(** The same method with the guard taken away: the cap is asked for on
    every build. *)
Definition GeoDataConfig_build_unguarded `{PyRandom} `{GeoDataEnv}
    (self : GeoDataConfig) (tmp_dir : string) (overfit_mode test_mode : bool)
  : ST rng (Dataset * Dataset * Dataset) :=
  (do tfs <- st_lift (geo_get_data_transforms self);
   let '(base_transform, aug_transform) := tfs in
   let train_tf := if negb overfit_mode then aug_transform else base_transform in
   let '(val_tf, test_tf) := (base_transform, base_transform) in
   do dss <- st_lift (GeoDataConfig_make_datasets self tmp_dir train_tf val_tf test_tf);
   let '(train_ds, val_ds, test_ds) := dss in
   do train_ds <- random_subset_dataset train_ds (train_sz (geo_data self))
                    (train_sz_rel (geo_data self));
   st_ret (train_ds, val_ds, test_ds))%st.

(** ** LearnerConfig *)

Record LearnerConfig : Type := {
  model : ModelConfig;
  solver : SolverConfig;
  learner_data : DataConfig;
  predict_mode : bool;
  test_mode : bool;
  overfit_mode : bool;
  eval_train : bool;
  save_model_bundle : bool;
  log_tensorboard : bool;
  run_tensorboard : bool;
  output_uri : option string
}.

Definition set_solver (f : SolverConfig -> SolverConfig) (c : LearnerConfig)
  : LearnerConfig :=
  {| model := model c; solver := f (solver c); learner_data := learner_data c;
     predict_mode := predict_mode c; test_mode := test_mode c;
     overfit_mode := overfit_mode c; eval_train := eval_train c;
     save_model_bundle := save_model_bundle c;
     log_tensorboard := log_tensorboard c; run_tensorboard := run_tensorboard c;
     output_uri := output_uri c |}.

Definition set_data (f : DataConfig -> DataConfig) (c : LearnerConfig)
  : LearnerConfig :=
  {| model := model c; solver := solver c; learner_data := f (learner_data c);
     predict_mode := predict_mode c; test_mode := test_mode c;
     overfit_mode := overfit_mode c; eval_train := eval_train c;
     save_model_bundle := save_model_bundle c;
     log_tensorboard := log_tensorboard c; run_tensorboard := run_tensorboard c;
     output_uri := output_uri c |}.

(** The [update] methods of the three sub-configs, as the concrete classes of
    [model], [solver] and [data] define them.  Each is called with
    [learner=self] and works on the learner it belongs to. *)
Class SubConfigs : Type := {
  model_update : ST LearnerConfig unit;
  solver_update : ST LearnerConfig unit;
  data_update : ST LearnerConfig unit
}.

(** [ModelConfig.update] and [SolverConfig.update]: [pass]. *)
Definition ModelConfig_update : ST LearnerConfig unit := st_ret tt.
Definition SolverConfig_update : ST LearnerConfig unit := st_ret tt.

(** [self.solver.overfit_num_steps = self.solver.test_overfit_num_steps]. *)
Definition assign_overfit_num_steps : ST LearnerConfig unit :=
  (do self <- st_get;
   do v <- st_lift (SolverConfig_getattr (solver self) "test_overfit_num_steps");
   match v with
   | AInt z => st_modify (set_solver (set_overfit_num_steps z))
   | _ => st_raise (TypeError "overfit_num_steps: value is not a valid integer")
   end)%st.

(** [LearnerConfig.update]. *)
Definition LearnerConfig_update `{SubConfigs} : ST LearnerConfig unit :=
  (do _ <- Config_update;
   do self <- st_get;
   do _ <- (if overfit_mode self then
              do _ <- st_modify (set_data (set_img_sz (img_sz (learner_data self) `div` 2)));
              if test_mode self then assign_overfit_num_steps else st_ret tt
            else st_ret tt);
   do self <- st_get;
   do _ <- (if test_mode self then
              do _ <- st_modify (set_solver (set_num_epochs (test_num_epochs (solver self))));
              do self <- st_get;
              do _ <- st_modify (set_solver (set_batch_sz (test_batch_sz (solver self))));
              st_modify (set_data (set_num_workers 0))
            else st_ret tt);
   do _ <- model_update;
   do _ <- solver_update;
   data_update)%st.

(** [LearnerConfig.validate_class_loss_weights]. *)
Definition validate_class_loss_weights (self : LearnerConfig) : res unit :=
  match class_loss_weights (solver self) with
  | None => OK tt
  | Some w =>
      let num_weights := Z.of_nat (length w) in
      let num_classes := num_classes (learner_data self) in
      if negb (num_weights =? num_classes)
      then Raise (ConfigError
             ("class_loss_weights (" +:+ pretty num_weights +:+
              ") must be same length as " +:+
              "the number of classes (" +:+ pretty num_classes +:+ ")"))
      else OK tt
  end.

(** [LearnerConfig.validate_config]. *)
Definition LearnerConfig_validate_config (self : LearnerConfig) : res unit :=
  if run_tensorboard self && negb (log_tensorboard self)
  then Raise (ConfigError "Cannot run_tensorboard if log_tensorboard is False")
  else validate_class_loss_weights self.

(** ** The classification task *)

(** [Box.get_windows] of [rastervision.core], which the task calls on the
    extent and whose result it filters. *)
Class BoxOps : Type := {
  Box : Type;
  get_windows : Box -> Z -> Z -> list Box
}.

(** A chip: rows of pixels, each pixel a list of channel values. *)
Definition ndarray : Type := list (list (list Z)).

(** [chip.ravel()] and [np.sum] on integer pixel values. *)
Definition ravel (chip : ndarray) : list Z := concat (concat chip).
Definition np_sum (xs : list Z) : Z := foldr Z.add 0 xs.

Record RasterSource `{BoxOps} : Type := {
  get_extent : Box;
  get_chip : Box -> ndarray
}.

Record SceneObj `{BoxOps} : Type := {
  scene_id : string;
  raster_source : RasterSource
}.

Record TaskOptions : Type := {
  chip_size : Z
}.

(** [Classification.get_train_windows]. *)
Definition get_train_windows `{BoxOps} (scene : SceneObj) (options : TaskOptions)
  : list Box :=
  let extent := get_extent (raster_source scene) in
  let chip_size := chip_size options in
  let stride := chip_size in
  foldl (fun windows window =>
           let chip := get_chip (raster_source scene) window in
           if 0 <? np_sum (ravel chip) then windows ++ [window] else windows)
        [] (get_windows extent chip_size stride).

(** [Classification.get_predict_windows]. *)
Definition get_predict_windows `{BoxOps} (extent : Box) (options : TaskOptions)
  : list Box :=
  let chip_size := chip_size options in
  let stride := chip_size in
  get_windows extent chip_size stride.

(** * Further code of the two files *)

(** ** ImageDataConfig.get_data_dirs and unzip_data *)

(** [s.endswith(suffix)]. *)
Definition endswith (s suffix : string) : bool :=
  bool_decide (String.list_ascii_of_string suffix
                 `suffix_of` String.list_ascii_of_string s).

(** The file system and the identifier source behind
    [rastervision.pipeline.file_system] and [uuid]: [file_exists] and
    [list_paths] look at the world and may raise, the others may change it
    as well. *)
Class FileSystem : Type := {
  world : Type;
  file_exists : string -> bool -> world -> res bool;
  list_paths : string -> option string -> world -> res (list string);
  get_local_path : string -> string -> string;
  sync_from_dir : string -> string -> ST world unit;
  download_if_needed : string -> string -> ST world string;
  unzip : string -> string -> ST world unit;
  uuid4 : ST world string
}.

(** A call that only looks at the state. *)
Definition st_read {S A : Type} (f : S -> res A) : ST S A := fun s => (f s, s).

(** [enumerate(xs)]. *)
Definition enumerate {A : Type} (xs : list A) : list (nat * A) :=
  zip (seq 0 (length xs)) xs.

(** The body of the loop of [unzip_data]. *)
Definition unzip_one `{FileSystem} (unzip_dir : string) (iz : nat * string)
  : ST world string :=
  let '(i, zip_uri) := iz in
  (do zip_path <- download_if_needed zip_uri unzip_dir;
   let data_dir := join unzip_dir (pretty i) in
   do _ <- unzip zip_path data_dir;
   st_ret data_dir)%st.

(** [ImageDataConfig.unzip_data(zip_uris, unzip_dir)]. *)
Definition unzip_data `{FileSystem} (zip_uris : list string) (unzip_dir : string)
  : ST world (list string) :=
  (do ident <- uuid4;
   let unzip_dir := join (join unzip_dir "data") ident in
   st_for (enumerate zip_uris) (unzip_one unzip_dir))%st.

(** The local function [is_data_dir] of [get_data_dirs]. *)
Definition is_data_dir `{FileSystem} (uri : string) : ST world bool :=
  (do found <- st_read (file_exists uri true);
   if negb found then st_ret false
   else
     do paths <- st_read (list_paths uri None);
     let has_train := bool_decide (join uri "train" ∈ paths) in
     let has_val := bool_decide (join uri "valid" ∈ paths) in
     st_ret (has_train && has_val))%st.

Definition msg_list_of_zips : string :=
  "If uri is a list, all items must be URIs of " +:+ "zip files.".
Definition msg_not_dir_nor_zip : string :=
  "URI is neither a directory nor a zip file.".

(** [ImageDataConfig.get_data_dirs(uri, unzip_dir)]. *)
Definition ImageDataConfig_get_data_dirs `{FileSystem} (uri : uri_t)
    (unzip_dir : string) : ST world (list string) :=
  match uri with
  | UriList zip_uris =>
      if negb (forallb (fun uri => endswith uri ".zip") zip_uris)
      then st_raise (ValueError msg_list_of_zips)
      else unzip_data zip_uris unzip_dir
  | UriStr uri =>
      (do is_file <- st_read (file_exists uri false);
       if is_file then
         if negb (endswith uri ".zip")
         then st_raise (ValueError msg_not_dir_nor_zip)
         else unzip_data [uri] unzip_dir
       else
         do is_dir <- st_read (file_exists uri true);
         if is_dir then
           do data_dir <- is_data_dir uri;
           if data_dir then
             let local_path := get_local_path uri unzip_dir in
             do _ <- (if negb (bool_decide (uri = local_path))
                      then sync_from_dir uri local_path
                      else st_ret tt);
             st_ret [local_path]
           else
             do zip_uris <- st_read (list_paths uri (Some "zip"%string));
             unzip_data zip_uris unzip_dir
         else st_raise (FileNotFoundError uri))%st
  end.

(** ** DataConfig.get_data_transforms *)

(** The module-level list [augmentors]: the names [validate_augmentors]
    admits. *)
Definition augmentors_catalog : list string :=
  [ "Blur"; "RandomRotate90"; "HorizontalFlip"; "VerticalFlip"; "GaussianBlur";
    "GaussNoise"; "RGBShift"; "ToGray" ]%string.

(** What the method needs of [albumentations] and of the subclass: the
    transform that [deserialize_albumentation_transform] builds from a
    serialized one, and [get_bbox_params]. *)
Class Albumentations : Type := {
  BboxParams : Type;
  CustomTransform : Type;
  deserialize_albumentation_transform : dict value -> res CustomTransform;
  get_bbox_params : DataConfig -> option BboxParams
}.

(** The transforms the method puts together. *)
Inductive ATransform `{Albumentations} : Type :=
| A_Resize (height width : Z)
| A_Blur
| A_RandomRotate90
| A_HorizontalFlip
| A_VerticalFlip
| A_GaussianBlur
| A_GaussNoise
| A_RGBShift
| A_ToGray
| A_Custom (tf : CustomTransform)
| A_Compose (transforms : list ATransform) (bbox_params : option BboxParams).

(** The literal [augmentors_dict], in source order. *)
Definition augmentors_dict `{Albumentations} : dict ATransform :=
  [ ("Blur", A_Blur); ("RandomRotate90", A_RandomRotate90);
    ("HorizontalFlip", A_HorizontalFlip); ("VerticalFlip", A_VerticalFlip);
    ("GaussianBlur", A_GaussianBlur); ("GaussNoise", A_GaussNoise);
    ("RGBShift", A_RGBShift); ("ToGray", A_ToGray) ]%string.

(** [d[k]] on a [dict], [None] standing for the [KeyError]. *)
Fixpoint dict_get {V : Type} (k : string) (d : dict V) : option V :=
  match d with
  | [] => None
  | (k', v) :: d' => if decide (k' = k) then Some v else dict_get k d'
  end.

(** [augmentors_dict[augmentor]]. *)
Definition augmentors_dict_lookup `{Albumentations} (augmentor : string)
  : option ATransform :=
  dict_get augmentor augmentors_dict.

(** The loop over [self.augmentors]: a known name is appended, an unknown
    one is logged and passed over. *)
Definition append_augmentors `{Albumentations} (aug_transforms : list ATransform)
    (augmentors : list string) : list ATransform :=
  foldl (fun tfs augmentor =>
           match augmentors_dict_lookup augmentor with
           | Some tf => tfs ++ [tf]
           | None => tfs
           end)
        aug_transforms augmentors.

(** [DataConfig.get_data_transforms]. *)
Definition DataConfig_get_data_transforms `{Albumentations} (self : DataConfig)
  : res (ATransform * ATransform) :=
  let bbox_params := get_bbox_params self in
  let base_tfs := [A_Resize (img_sz self) (img_sz self)] in
  (do base_tfs <-
     match base_transform self with
     | Some d => do tf <- deserialize_albumentation_transform d;
                 OK (base_tfs ++ [A_Custom tf])
     | None => OK base_tfs
     end;
   let base_transform := A_Compose base_tfs bbox_params in
   match aug_transform self with
   | Some d =>
       do aug_transform <- deserialize_albumentation_transform d;
       let aug_transform :=
         A_Compose [base_transform; A_Custom aug_transform] bbox_params in
       OK (base_transform, aug_transform)
   | None =>
       let aug_transforms := append_augmentors [base_transform] (augmentors self) in
       let aug_transform := A_Compose aug_transforms bbox_params in
       OK (base_transform, aug_transform)
   end)%res.

(** ** DataConfig.update *)

(** [color_to_triple()] of [rastervision.pytorch_learner.utils], which draws
    a colour from a source of its own. *)
Class ColorSource : Type := {
  color_world : Type;
  color_to_triple : ST color_world (Z * Z * Z)
}.

Definition set_class_colors (v : option (list color)) (d : DataConfig)
  : DataConfig :=
  {| class_names := class_names d; class_colors := v;
     img_channels := img_channels d; img_sz := img_sz d; train_sz := train_sz d;
     train_sz_rel := train_sz_rel d; num_workers := num_workers d;
     augmentors := augmentors d; base_transform := base_transform d;
     aug_transform := aug_transform d; plot_options := plot_options d;
     preview_batch_limit := preview_batch_limit d |}.

Definition set_plot_options (v : option PlotOptions) (d : DataConfig)
  : DataConfig :=
  {| class_names := class_names d; class_colors := class_colors d;
     img_channels := img_channels d; img_sz := img_sz d; train_sz := train_sz d;
     train_sz_rel := train_sz_rel d; num_workers := num_workers d;
     augmentors := augmentors d; base_transform := base_transform d;
     aug_transform := aug_transform d; plot_options := v;
     preview_batch_limit := preview_batch_limit d |}.

(** [not self.class_colors]: [None] and the empty list are false. *)
Definition no_colors (c : option (list color)) : bool :=
  match c with
  | None | Some [] => true
  | Some (_ :: _) => false
  end.

(** [DataConfig.update], on the configuration and the colour source. *)
Definition DataConfig_update `{ColorSource} : ST (DataConfig * color_world) unit :=
  fun '(self, cw) =>
    let '(colors, self, cw) :=
      if no_colors (class_colors self) then
        match st_for (class_names self) (fun _ => color_to_triple) cw with
        | (OK triples, cw') =>
            (OK tt,
             set_class_colors
               (Some ((fun t => ColorTriple t.1.1 t.1.2 t.2) <$> triples)) self,
             cw')
        | (Raise e, cw') => (Raise e, self, cw')
        end
      else (OK tt, self, cw) in
    match colors with
    | Raise e => (Raise e, (self, cw))
    | OK _ =>
        match plot_options self with
        | None =>
            (Raise (AttributeError "update"), (self, cw))
        | Some options =>
            let '(r, options') := PlotOptions_update (img_channels self) options in
            (r, (set_plot_options (Some options') self, cw))
        end
    end.

(** * Configurations and collaborators used where a statement is evaluated *)

Definition hub_loss : ExternalModuleConfig :=
  {| ext_uri := None; github_repo := Some "azavea/loss-fns"%string;
     ext_name := None; entrypoint := "focal_loss"; entrypoint_args := [];
     entrypoint_kwargs := []; force_reload := false |}.

(** The defaults of [SolverConfig]. *)
Definition default_solver : SolverConfig :=
  {| lr := 0x1.a36e2eb1c432dp-14%float; num_epochs := 10; test_num_epochs := 2;
     test_batch_sz := 4; overfit_num_steps := 1; sync_interval := 1;
     batch_sz := 32; one_cycle := true; multi_stage := [];
     class_loss_weights := None; ignore_last_class := IgnoreBool false;
     external_loss_def := None |}.

Definition with_loss (w : option (list float)) (i : ignore_last_class_t)
    (e : option ExternalModuleConfig) (s : SolverConfig) : SolverConfig :=
  {| lr := lr s; num_epochs := num_epochs s;
     test_num_epochs := test_num_epochs s; test_batch_sz := test_batch_sz s;
     overfit_num_steps := overfit_num_steps s; sync_interval := sync_interval s;
     batch_sz := batch_sz s; one_cycle := one_cycle s;
     multi_stage := multi_stage s; class_loss_weights := w;
     ignore_last_class := i; external_loss_def := e |}.

(** An external loss, [ignore_last_class='force'], and class weights. *)
Definition solver_force_weights : SolverConfig :=
  with_loss (Some [1%float; 2%float]) IgnoreForce (Some hub_loss) default_solver.

Definition solver_force : SolverConfig :=
  with_loss None IgnoreForce (Some hub_loss) default_solver.

Definition solver_ignore_true : SolverConfig :=
  with_loss None (IgnoreBool true) (Some hub_loss) default_solver.

Definition solver_weights : SolverConfig :=
  with_loss (Some [1%float; 2%float]) (IgnoreBool false) (Some hub_loss)
    default_solver.

(** [GeoDataWindowConfig(method=..., size=256)] with the defaults. *)
Definition window_cfg (m : GeoDataWindowMethod) (sz : int_or_pair)
  : GeoDataWindowConfig :=
  {| method := m; size := sz; stride := None; padding := None;
     size_lims := None; h_lims := None; w_lims := None;
     max_windows := 10000; max_sample_attempts := 100;
     efficient_aoi_sampling := true |}.

(** [PlotOptions(channel_display_groups=g)]. *)
Definition plot (g : option channel_groups) : PlotOptions :=
  {| transform := None; channel_display_groups := g |}.

(** A small linear congruential generator, standing in for the generator of
    the [random] module where a statement is evaluated. *)
Definition lcg_step (s : Z) : Z := (s * 1103515245 + 12345) `mod` 2147483648.

Definition lcg_random : PyRandom :=
  {| rng := Z;
     seed := fun a => a;
     randbelow := fun n s =>
       let s' := lcg_step s in (Z.to_nat (s' `mod` Z.of_nat n), s') |}.

Definition chips (name : string) (n : nat) : Dataset := SourceDataset name n.

(** The [float] that the literal [0.7] denotes. *)
Definition seven_tenths : float := 0x1.6666666666666p-1.

(** The defaults of [ModelConfig], [DataConfig] and [LearnerConfig]. *)
Definition default_model : ModelConfig :=
  {| backbone := Backbone.resnet18; pretrained := true; init_weights := None;
     load_strict := true; external_def := None |}.

Definition default_data : DataConfig :=
  {| class_names := []; class_colors := None; img_channels := None;
     img_sz := 256; train_sz := None; train_sz_rel := None; num_workers := 4;
     augmentors := ["RandomRotate90"; "HorizontalFlip"; "VerticalFlip"]%string;
     base_transform := None; aug_transform := None;
     plot_options := Some (plot None); preview_batch_limit := None |}.

Definition learner (test overfit : bool) : LearnerConfig :=
  {| model := default_model; solver := default_solver;
     learner_data := default_data; predict_mode := false; test_mode := test;
     overfit_mode := overfit; eval_train := false; save_model_bundle := true;
     log_tensorboard := true; run_tensorboard := false; output_uri := None |}.

(** Sub-configs whose [update] does nothing, as [ModelConfig] and
    [SolverConfig] have it. *)
Definition pass_sub_configs : SubConfigs :=
  {| model_update := ModelConfig_update;
     solver_update := SolverConfig_update;
     data_update := st_ret tt |}.

(** Modelled from the spec: the extent of a raster and [Box.get_windows],
    which are outside the two files.  The windows are the grid cells of side
    [chip_size] laid over the extent, one every [stride] pixels along each
    axis, rows first. *)
Record GridBox : Type := {
  ymin : Z;
  xmin : Z;
  ymax : Z;
  xmax : Z
}.

Definition make_square (ymin xmin size : Z) : GridBox :=
  {| ymin := ymin; xmin := xmin; ymax := ymin + size; xmax := xmin + size |}.

(** [list(range(0, stop, step))] for a positive [step]. *)
Definition range_step (stop step : Z) : list Z :=
  if step <=? 0 then [] else (fun k => k * step) <$> range ((stop + step - 1) `div` step).

Definition grid_get_windows (b : GridBox) (chip_size stride : Z) : list GridBox :=
  let height := ymax b - ymin b in
  let width := xmax b - xmin b in
  row_start ← range_step height stride;
  col_start ← range_step width stride;
  [make_square row_start col_start chip_size].

Definition grid_boxes : BoxOps :=
  {| Box := GridBox; get_windows := grid_get_windows |}.

(** A raster of two rows and two columns with one channel, holding
    [5 0 / -3 2]; a chip is read pixel by pixel. *)
Definition pixel_at (y x : Z) : Z :=
  if decide (y = 0 /\ x = 0) then 5
  else if decide (y = 1 /\ x = 0) then -3
  else if decide (y = 1 /\ x = 1) then 2
  else 0.

Definition read_chip (w : GridBox) : ndarray :=
  (fun y => (fun x => [pixel_at y x]) <$> ((fun k => xmin w + k) <$> range (xmax w - xmin w)))
    <$> ((fun k => ymin w + k) <$> range (ymax w - ymin w)).

Definition signed_scene : @SceneObj grid_boxes :=
  {| scene_id := "signed";
     raster_source :=
       {| get_extent := ({| ymin := 0; xmin := 0; ymax := 2; xmax := 2 |} : @Box grid_boxes);
          get_chip := read_chip |} |}.

Definition one_pixel_chips : TaskOptions := {| chip_size := 1 |}.

(** The training windows as the design document words them: the cells of
    the tiling whose chip does not sum to zero. *)
Definition train_windows_nonzero_sum `{BoxOps} (scene : SceneObj)
    (options : TaskOptions) : list Box :=
  filter (fun window =>
            np_sum (ravel (get_chip (raster_source scene) window)) <> 0)
         (get_windows (get_extent (raster_source scene))
                      (chip_size options) (chip_size options)).

(** Every pixel value that the source can yield is non-negative, as for
    unsigned imagery. *)
Definition nonneg_pixels `{BoxOps} (scene : SceneObj) : Prop :=
  forall window,
    Forall (fun v => 0 <= v) (ravel (get_chip (raster_source scene) window)).

(** Two boxes whose interiors meet. *)
Definition overlap (a b : GridBox) : Prop :=
  ymin a < ymax b /\ ymin b < ymax a /\ xmin a < xmax b /\ xmin b < xmax a.

(** A scene whose only channel holds the row number of each pixel. *)
Definition row_scene : @SceneObj grid_boxes :=
  {| scene_id := "rows";
     raster_source :=
       {| get_extent := ({| ymin := 0; xmin := 0; ymax := 2; xmax := 2 |} : @Box grid_boxes);
          get_chip := fun w : @Box grid_boxes => [[[Z.abs (ymin w)]]] |} |}.

(** The pixel at row [y] and column [x] lies in the box. *)
Definition covers (w : GridBox) (y x : Z) : Prop :=
  ymin w <= y < ymax w /\ xmin w <= x < xmax w.

(** A file system with two chip directories, [/data/a] with ten training
    chips and [/data/b] with four, each with two validation chips and no
    test directory; a URI is taken to be a local data directory. *)
Definition dir_table : list (string * nat) :=
  [ ("/data/a", 0); ("/data/a/train", 10); ("/data/a/valid", 2);
    ("/data/b", 0); ("/data/b/train", 4); ("/data/b/valid", 2) ]%string%nat.

Definition memory_fs : ImageDataEnv :=
  {| Transform := string;
     get_data_dirs := fun _ uri _ =>
       match uri with
       | Some (UriStr s) =>
           if bool_decide (s ∈ dir_table.*1) then OK [s]
           else Raise (FileNotFoundError s)
       | Some (UriList l) => OK l
       | None => Raise (TypeError "expected str, bytes or os.PathLike object, not NoneType")
       end;
     isdir := fun d => bool_decide (d ∈ dir_table.*1);
     get_data_transforms := fun _ => OK ("base", "aug")%string;
     dir_to_dataset := fun _ d _ =>
       OK (SourceDataset d
             (default 0%nat ((list_to_map dir_table : gmap string nat) !! d))) |}.

Definition image_cfg (uri : option uri_t) (group_uris : option (list uri_t))
    (group_train_sz : option (one_or_many Z)) (train_sz : option Z)
  : ImageDataConfig :=
  {| data := {| class_names := class_names default_data;
                class_colors := class_colors default_data;
                img_channels := img_channels default_data;
                img_sz := img_sz default_data;
                train_sz := train_sz;
                train_sz_rel := None;
                num_workers := num_workers default_data;
                augmentors := augmentors default_data;
                base_transform := None; aug_transform := None;
                plot_options := plot_options default_data;
                preview_batch_limit := None |};
     data_format := None; uri := uri; group_uris := group_uris;
     group_train_sz := group_train_sz; group_train_sz_rel := None |}.

(** Two groups, two chips asked of each, no overall cap. *)
Definition grouped_cfg : ImageDataConfig :=
  image_cfg None (Some [UriStr "/data/a"; UriStr "/data/b"]) (Some (One 2)) None.

(** Two groups and an overall cap of three chips. *)
Definition grouped_capped_cfg : ImageDataConfig :=
  image_cfg None (Some [UriStr "/data/a"; UriStr "/data/b"]) None (Some 3).

(** One URI and an overall cap of three chips. *)
Definition single_capped_cfg : ImageDataConfig :=
  image_cfg (Some (UriStr "/data/a")) None None (Some 3).

(** [ImageDataConfig.build] as the design document words it: in the grouped
    path the caps of [group_train_sz] or [group_train_sz_rel] on each group
    and no overall cap, in the other path the overall cap. *)
Definition ImageDataConfig_build_as_worded `{PyRandom} `{ImageDataEnv}
    (self : ImageDataConfig) (tmp_dir : string) (overfit_mode test_mode : bool)
  : ST rng (Dataset * Dataset * Dataset) :=
  match group_uris self with
  | None =>
      (do dss <- st_lift (get_datasets_from_uri self (uri self) tmp_dir
                            overfit_mode test_mode);
       let '(train_ds, valid_ds, test_ds) := dss in
       do train_ds <- random_subset_dataset train_ds (train_sz (data self))
                        (train_sz_rel (data self));
       st_ret (train_ds, valid_ds, test_ds))%st
  | Some uris =>
      get_datasets_from_group_uris self uris tmp_dir (group_train_sz self)
        (group_train_sz_rel self) overfit_mode test_mode
  end.

(** What the loop of [get_datasets_from_group_uris] appends for one group:
    the three datasets of the group's own URI, the training one replaced by
    the [random_subset_dataset] of it that the size given for the group asks
    for. *)
Definition group_result `{PyRandom} `{ImageDataEnv} (self : ImageDataConfig)
    (tmp_dir : string) (overfit_mode test_mode : bool)
    (us : uri_t * group_size) (dss : Dataset * Dataset * Dataset) : Prop :=
  exists train_ds,
    get_datasets_from_uri self (Some us.1) tmp_dir overfit_mode test_mode
      = OK (train_ds, dss.1.2, dss.2)
    /\ match us.2 with
       | SizeNone => dss.1.1 = train_ds
       | SizeInt n =>
           exists g0 g1,
             random_subset_dataset train_ds (Some n) None g0 = (OK dss.1.1, g1)
       | SizeFloat x =>
           exists g0 g1,
             random_subset_dataset train_ds None (Some x) g0 = (OK dss.1.1, g1)
       end.

(** The environment in which the augmenting transform is the base transform,
    all else equal. *)
Definition without_augmentation (E : ImageDataEnv) : ImageDataEnv :=
  {| Transform := @Transform E;
     get_data_dirs := @get_data_dirs E;
     isdir := @isdir E;
     get_data_transforms := fun self =>
       (do tfs <- @get_data_transforms E self; OK (tfs.1, tfs.1))%res;
     dir_to_dataset := @dir_to_dataset E |}.

(** The lengths that the two group size fields must agree with. *)
Definition group_sizes_consistent (self : ImageDataConfig) : Prop :=
  ~ (is_Some (group_train_sz self) /\ is_Some (group_train_sz_rel self))
  /\ (is_Some (group_train_sz self) -> is_Some (group_uris self))
  /\ (is_Some (group_train_sz_rel self) -> is_Some (group_uris self))
  /\ (forall l, group_train_sz self = Some (Many l) ->
        length l = length (default [] (group_uris self)))
  /\ (forall l, group_train_sz_rel self = Some (Many l) ->
        length l = length (default [] (group_uris self))).

(** A file system in memory, with a log of what was done to it: the file
    [/in/chips.zip], the file [/in/notes.txt], the data directory [/data/a]
    and the directory [/zips] of two archives; every path is local. *)
Definition logged_fs : FileSystem :=
  {| world := list string;
     file_exists := fun uri include_dir _ =>
       OK (bool_decide (uri ∈ ["/in/chips.zip"; "/in/notes.txt"]%string)
           || include_dir && bool_decide (uri ∈ ["/data/a"; "/zips"]%string));
     list_paths := fun uri ext _ =>
       OK (if bool_decide (uri = "/data/a"%string)
           then ["/data/a/train"; "/data/a/valid"]%string
           else if bool_decide (uri = "/zips"%string)
           then ["/zips/x.zip"; "/zips/y.zip"]%string
           else []);
     get_local_path := fun uri _ => uri;
     sync_from_dir := fun src dst log => (OK tt, log ++ ["sync " +:+ src]);
     download_if_needed := fun uri _ log => (OK uri, log);
     unzip := fun zip_path dst log =>
       (OK tt, log ++ ["unzip " +:+ zip_path +:+ " " +:+ dst]);
     uuid4 := fun log => (OK "1b4e28ba"%string, log) |}.

(** A stand-in for [albumentations]: a serialized transform is known by its
    ['transform'] entry and cannot be rebuilt without one; no bounding
    boxes. *)
Definition named_transforms : Albumentations :=
  {| BboxParams := unit;
     CustomTransform := string;
     deserialize_albumentation_transform := fun d =>
       match dict_get "transform" d with
       | Some (VStr name) => OK name
       | _ => Raise (KeyError "'transform'")
       end;
     get_bbox_params := fun _ => None |}.

Definition with_augmentors (names : list string) (d : DataConfig) : DataConfig :=
  {| class_names := class_names d; class_colors := class_colors d;
     img_channels := img_channels d; img_sz := img_sz d; train_sz := train_sz d;
     train_sz_rel := train_sz_rel d; num_workers := num_workers d;
     augmentors := names; base_transform := base_transform d;
     aug_transform := aug_transform d; plot_options := plot_options d;
     preview_batch_limit := preview_batch_limit d |}.

(** A colour source that counts upwards. *)
Definition counting_colors : ColorSource :=
  {| color_world := Z;
     color_to_triple := fun s =>
       (OK (s `mod` 256, (s + 1) `mod` 256, (s + 2) `mod` 256), s + 3) |}.

Definition with_classes (names : list string) (colors : option (list color))
    (d : DataConfig) : DataConfig :=
  {| class_names := names; class_colors := colors;
     img_channels := Some 4; img_sz := img_sz d; train_sz := train_sz d;
     train_sz_rel := train_sz_rel d; num_workers := num_workers d;
     augmentors := augmentors d; base_transform := base_transform d;
     aug_transform := aug_transform d; plot_options := plot_options d;
     preview_batch_limit := preview_batch_limit d |}.

(** Scenes that are known by a name and a number of chips, with a build that
    fails for a scene without a name, and transforms told apart by a flag
    (set for the augmenting one). *)
Definition named_scenes : SceneTypes :=
  {| SceneConfig := string * nat; Scene := string * nat;
     ClassConfig := unit; GeoTransform := bool |}.

Definition named_geo : @GeoDataEnv named_scenes :=
  {| scene_build := fun (s : @SceneConfig named_scenes) _ _ _ =>
       if bool_decide (s.1 = ""%string)
       then Raise (ValueError "scene") else OK (s : @Scene named_scenes);
     geo_get_data_transforms := fun _ => OK (false, true);
     scene_to_dataset :=
       fun _ (s : @Scene named_scenes) (tf : @GeoTransform named_scenes) =>
         OK (SourceDataset (if tf then s.1 +:+ "+aug" else s.1) s.2) |}.

(** [DataConfig(train_sz=size)]. *)
Definition capped_data (size : option Z) : DataConfig :=
  {| class_names := []; class_colors := None; img_channels := None;
     img_sz := 256; train_sz := size; train_sz_rel := None; num_workers := 4;
     augmentors := ["RandomRotate90"; "HorizontalFlip"; "VerticalFlip"]%string;
     base_transform := None; aug_transform := None;
     plot_options := Some (plot None); preview_batch_limit := None |}.

Definition geo_cfg (d : DataConfig) (train val : list (string * nat))
  : @GeoDataConfig named_scenes :=
  {| geo_data := d;
     scene_dataset := {| class_config := tt : @ClassConfig named_scenes;
                         train_scenes := train : list (@SceneConfig named_scenes);
                         validation_scenes := val;
                         test_scenes := [] |};
     window_opts := inl (window_cfg sliding (IntVal 100)) |}.

(** Two training scenes, capped at three chips, and no other scene. *)
Definition two_scenes : @GeoDataConfig named_scenes :=
  geo_cfg (capped_data (Some 3)) [("a"%string, 4%nat); ("b"%string, 2%nat)] [].

(** * Predicates of the statements *)

(** Exactly one of [size_lims], or [h_lims] and [w_lims] together. *)
Definition one_kind_of_lims (c : GeoDataWindowConfig) : Prop :=
  (is_Some (size_lims c) /\ h_lims c = None /\ w_lims c = None)
  \/ (size_lims c = None /\ is_Some (h_lims c) /\ is_Some (w_lims c)).

(** A group that passes the loop: one to three indices, each a channel. *)
Definition group_ok (img_channels : Z) (kv : string * list Z) : Prop :=
  (1 <= length kv.2 <= 3)%nat /\ Forall (fun i => 0 <= i < img_channels) kv.2.

(** A message that names the group [k]. *)
Definition names_group (msg k : string) : Prop :=
  msg = msg_group_len k \/ msg = msg_group_indices k.

(** The error for a group that does not pass: the number of its indices is
    looked at first. *)
Definition group_error (kv : string * list Z) : exn :=
  ConfigError (if bool_decide (1 <= length kv.2 <= 3)%nat
               then msg_group_indices kv.1
               else msg_group_len kv.1).

(** What the validation makes of a mapping: the mapping itself when every
    group is [group_ok], and otherwise the error for the first group that is
    not. *)
Definition validated (img_channels : Z) (groups : dict (list Z))
    (result : res (dict (list Z))) : Prop :=
  (Forall (group_ok img_channels) groups -> result = OK groups)
  /\ (forall pre kv post,
        groups = pre ++ kv :: post ->
        Forall (group_ok img_channels) pre ->
        ~ group_ok img_channels kv ->
        result = Raise (group_error kv)).

(** The three sub-config updates, in the order of the source. *)
Definition propagate `{SubConfigs} : ST LearnerConfig unit :=
  (do _ <- model_update; do _ <- solver_update; data_update)%st.

(** The checks of [GeoDataWindowConfig.validate_config] that follow its call
    of [update]. *)
Definition window_checks (self : GeoDataWindowConfig) : res unit :=
  if is_sliding (method self) then
    if negb (is_not_None (stride self)) then Raise (ConfigError msg_stride)
    else OK tt
  else if is_random (method self) then
    if Bool.eqb (is_not_None (size_lims self))
                (is_not_None (w_lims self) || is_not_None (h_lims self))
    then Raise (ConfigError msg_either_lims)
    else if negb (Bool.eqb (is_not_None (h_lims self)) (is_not_None (w_lims self)))
    then Raise (ConfigError msg_both_lims)
    else OK tt
  else OK tt.

(** * Properties *)

(** ** Backbone upgrade *)

Lemma mapping_dom :
  dom Backbone.mapping = list_to_set (Z.of_nat <$> seq 1 35).
Proof. apply set_eq. intros x. vm_compute. tauto. Qed.

Lemma mapping_lookup_range (x : Z) :
  is_Some (Backbone.mapping !! x) <-> 1 <= x <= 35.
Proof.
  rewrite <- elem_of_dom, mapping_dom, elem_of_list_to_set, list_elem_of_fmap.
  split.
  - intros (n & -> & Hn). apply elem_of_seq in Hn. lia.
  - intros Hx. exists (Z.to_nat x). split; [lia | apply elem_of_seq; lia].
Qed.

(** The values of the table are the names of the members, in order. *)
Lemma mapping_names :
  Backbone.mapping_items.*2 = Backbone.name <$> Backbone.members.
Proof. reflexivity. Qed.

Lemma int_to_str_13 : Backbone.int_to_str (VInt 13) = OK "resnet18"%string.
Proof. reflexivity. Qed.

Lemma int_to_str_VInt (x : Z) :
  Backbone.int_to_str (VInt x) =
    match Backbone.mapping !! x with
    | Some s => OK s
    | None => Raise (KeyError (pretty x))
    end.
Proof. reflexivity. Qed.

Lemma mapping_key_cases (x : Z) (s : string) :
  Backbone.mapping !! x = Some s ->
  (x, s) ∈ Backbone.mapping_items.
Proof. apply elem_of_list_to_map_2. Qed.

Lemma mapping_keys_NoDup : NoDup Backbone.mapping_items.*1.
Proof. apply (bool_decide_unpack _). by vm_compute. Qed.

(** Looking a key up in the table gives the entry written for it. *)
Lemma mapping_lookup_item (x : Z) (s : string) :
  Backbone.mapping !! x = Some s <-> (x, s) ∈ Backbone.mapping_items.
Proof.
  split; [apply mapping_key_cases |].
  apply elem_of_list_to_map_1, mapping_keys_NoDup.
Qed.

(** Every entry of the table sits at the place of its key, and is the name
    of the member of the enumeration at that place. *)
Lemma mapping_entry_place (x : Z) (s : string) :
  Backbone.mapping !! x = Some s ->
  1 <= x <= 35
  /\ Backbone.name <$> (Backbone.members !! Z.to_nat (x - 1)) = Some s.
Proof.
  intros Hx. apply mapping_key_cases in Hx. unfold Backbone.mapping_items in Hx.
  repeat (apply elem_of_cons in Hx as [[= -> ->] | Hx]; [split; [lia | reflexivity] |]).
  by apply elem_of_nil in Hx.
Qed.

(** C7.  The table of [Backbone.int_to_str] has exactly 35 entries, keyed
    1 to 35 in this order, whose values are the names of the members of the
    enumeration in their order.  [int_to_str] maps an integer to the name
    the table holds for it, and raises [KeyError] for an integer that is not
    a key.  A configuration at schema version 0 whose [backbone] is the
    integer [x] is upgraded to one whose [backbone] is the name the table
    holds for [x], every other entry kept, and is not upgraded when [x] is
    not a key; so the stored integer 13 becomes ['resnet18']. *)
Theorem backbone_upgrade_rule (cfg_dict : gmap string value) (x : Z)
    (Hstored : cfg_dict !! "backbone"%string = Some (VInt x)) :
  length Backbone.mapping_items = 35%nat
  /\ base.size Backbone.mapping = 35%nat
  /\ Backbone.mapping_items.*1 = (fun i : nat => Z.of_nat i + 1) <$> seq 0 35
  /\ Backbone.mapping_items.*2 = Backbone.name <$> Backbone.members
  /\ (forall k : Z, is_Some (Backbone.mapping !! k) <-> 1 <= k <= 35)
  /\ (forall k : Z, 1 <= k <= 35 -> is_OK (Backbone.int_to_str (VInt k)))
  /\ (forall (k : Z) (s : string),
        Backbone.int_to_str (VInt k) = OK s <-> (k, s) ∈ Backbone.mapping_items)
  /\ (forall (k : Z) (s : string),
        Backbone.int_to_str (VInt k) = OK s ->
        Backbone.name <$> (Backbone.members !! Z.to_nat (k - 1)) = Some s)
  /\ (forall k : Z, ~ 1 <= k <= 35 ->
        Backbone.int_to_str (VInt k) = Raise (KeyError (pretty k)))
  /\ (forall s : string, (x, s) ∈ Backbone.mapping_items ->
        model_config_upgrader cfg_dict 0
        = OK (<["backbone"%string := VStr s]> cfg_dict))
  /\ (~ 1 <= x <= 35 ->
      model_config_upgrader cfg_dict 0 = Raise (KeyError (pretty x)))
  /\ (x = 13 ->
      model_config_upgrader cfg_dict 0
      = OK (<["backbone"%string := VStr "resnet18"]> cfg_dict)).
Proof.
  assert (forall (k : Z) (s : string),
            Backbone.int_to_str (VInt k) = OK s <-> Backbone.mapping !! k = Some s)
    as Hlookup.
  { intros k s. rewrite int_to_str_VInt.
    destruct (Backbone.mapping !! k) as [s'|]; split; intros Hs;
      by simplify_eq. }
  assert (forall k : Z, ~ 1 <= k <= 35 ->
            Backbone.int_to_str (VInt k) = Raise (KeyError (pretty k)))
    as Hout.
  { intros k Hk. rewrite int_to_str_VInt.
    destruct (Backbone.mapping !! k) as [s|] eqn:Hs; [| done].
    destruct Hk. apply mapping_lookup_range. by eexists. }
  split; [reflexivity |]. split; [by vm_compute |].
  split; [reflexivity |]. split; [reflexivity |].
  split; [exact mapping_lookup_range |]. split; [| split; [| split; [| split]]].
  - intros k Hk. apply mapping_lookup_range in Hk as [s Hs].
    exists s. by apply Hlookup.
  - intros k s. by rewrite Hlookup, mapping_lookup_item.
  - intros k s Hs. apply Hlookup in Hs. by apply mapping_entry_place in Hs as [_ ?].
  - exact Hout.
  - split; [| split].
    + intros s Hs. apply mapping_lookup_item, Hlookup in Hs.
      unfold model_config_upgrader, getitem. rewrite Hstored.
      cbn [Z.eqb res_bind]. by rewrite Hs.
    + intros Hx. unfold model_config_upgrader, getitem. rewrite Hstored.
      cbn [Z.eqb res_bind]. by rewrite (Hout x Hx).
    + intros ->. unfold model_config_upgrader, getitem. rewrite Hstored.
      cbn [Z.eqb res_bind]. by rewrite int_to_str_13.
Qed.

Lemma backbone_upgrade_rule_witness :
  model_config_upgrader {["backbone"%string := VInt 13]} 0
    = OK {["backbone"%string := VStr "resnet18"]}
  /\ model_config_upgrader {["backbone"%string := VInt 35]} 0
     = OK {["backbone"%string := VStr "vgg19"]}
  /\ model_config_upgrader {["backbone"%string := VInt 36]} 0
     = Raise (KeyError "36").
Proof.
  split; [| split].
  - destruct (backbone_upgrade_rule {["backbone"%string := VInt 13]} 13)
      as (_ & _ & _ & _ & _ & _ & _ & _ & _ & _ & _ & Hup).
    + apply lookup_singleton_eq.
    + rewrite (Hup eq_refl). reflexivity.
  - destruct (backbone_upgrade_rule {["backbone"%string := VInt 35]} 35)
      as (_ & _ & _ & _ & _ & _ & _ & _ & _ & Hup & _).
    + apply lookup_singleton_eq.
    + rewrite (Hup "vgg19"%string).
      * reflexivity.
      * apply list_elem_of_lookup_2 with 34%nat. reflexivity.
  - destruct (backbone_upgrade_rule {["backbone"%string := VInt 36]} 36)
      as (_ & _ & _ & _ & _ & _ & _ & _ & _ & _ & Hout & _).
    + apply lookup_singleton_eq.
    + rewrite Hout; [reflexivity | lia].
Defined.

(** ** SolverConfig.validate_config *)

Lemma solver_validate_cases (self : SolverConfig) :
  SolverConfig_validate_config self =
    if is_True (ignore_last_class self) && is_not_None (external_loss_def self)
    then Raise (ConfigError msg_ignore_last_class)
    else if is_not_None (class_loss_weights self)
            && is_not_None (external_loss_def self)
    then Raise (ConfigError msg_class_loss_weights)
    else OK tt.
Proof. reflexivity. Qed.

(** C4, as stated, fails: with an external loss and
    [ignore_last_class='force'], [validate_config] still raises when class
    weights are set. *)
Lemma solver_force_with_weights_raises :
  is_Some (external_loss_def solver_force_weights)
  /\ ignore_last_class solver_force_weights = IgnoreForce
  /\ SolverConfig_validate_config solver_force_weights
     = Raise (ConfigError msg_class_loss_weights).
Proof. split; [by eexists |]. split; reflexivity. Qed.

(** C4, amended.  [validate_config] raises a configuration error when
    [external_loss_def] is set together with [ignore_last_class=True], and
    when it is set together with class weights; with [external_loss_def]
    set, [ignore_last_class='force'] and no class weights it does not
    raise. *)
Theorem solver_validate_config_external_loss (self : SolverConfig)
    (Hext : is_Some (external_loss_def self)) :
  (ignore_last_class self = IgnoreBool true ->
     SolverConfig_validate_config self = Raise (ConfigError msg_ignore_last_class))
  /\ (is_Some (class_loss_weights self) ->
        exists msg, SolverConfig_validate_config self = Raise (ConfigError msg))
  /\ (ignore_last_class self = IgnoreForce ->
      class_loss_weights self = None ->
        SolverConfig_validate_config self = OK tt).
Proof.
  rewrite solver_validate_cases. destruct Hext as [e ->]. simpl.
  repeat split.
  - by intros ->.
  - intros [w ->]. destruct (is_True _); simpl; eauto.
  - by intros -> ->.
Qed.

Lemma solver_validate_config_external_loss_witness :
  SolverConfig_validate_config solver_ignore_true
    = Raise (ConfigError msg_ignore_last_class)
  /\ (exists msg, SolverConfig_validate_config solver_weights
                  = Raise (ConfigError msg))
  /\ SolverConfig_validate_config solver_force = OK tt.
Proof.
  split; [| split].
  - apply (solver_validate_config_external_loss solver_ignore_true);
      [by eexists | reflexivity].
  - apply (solver_validate_config_external_loss solver_weights);
      by eexists.
  - apply (solver_validate_config_external_loss solver_force);
      [by eexists | reflexivity | reflexivity].
Defined.

(** ** GeoDataWindowConfig *)

Lemma window_update_sliding (c : GeoDataWindowConfig) :
  method c = sliding -> GeoDataWindowConfig_update c = (OK tt, c).
Proof.
  intros Hm. unfold GeoDataWindowConfig_update, st_bind, st_get. simpl.
  by rewrite Hm.
Qed.

Lemma is_not_None_Some {A : Type} (x : option A) :
  is_not_None x = true <-> is_Some x.
Proof. destruct x; simpl; split; done. Qed.

Lemma is_not_None_None {A : Type} (x : option A) :
  is_not_None x = false <-> x = None.
Proof. destruct x; simpl; split; done. Qed.

(** The check of [validate_config] on the three flags, for [method=random]. *)
Lemma one_kind_of_lims_flags (c : GeoDataWindowConfig) :
  one_kind_of_lims c <->
  Bool.eqb (is_not_None (size_lims c))
           (is_not_None (w_lims c) || is_not_None (h_lims c)) = false
  /\ Bool.eqb (is_not_None (h_lims c)) (is_not_None (w_lims c)) = true.
Proof.
  unfold one_kind_of_lims.
  rewrite <- !is_not_None_Some, <- !is_not_None_None.
  destruct (is_not_None (size_lims c)), (is_not_None (h_lims c)),
    (is_not_None (w_lims c)); simpl; intuition congruence.
Qed.

Lemma window_validate_random (c : GeoDataWindowConfig) :
  method c = random ->
  GeoDataWindowConfig_validate_config c =
    match GeoDataWindowConfig_update c with
    | (OK _, c') =>
        if Bool.eqb (is_not_None (size_lims c'))
                    (is_not_None (w_lims c') || is_not_None (h_lims c'))
        then (Raise (ConfigError msg_either_lims), c')
        else if negb (Bool.eqb (is_not_None (h_lims c')) (is_not_None (w_lims c')))
        then (Raise (ConfigError msg_both_lims), c')
        else (OK tt, c')
    | (Raise e, c') => (Raise e, c')
    end.
Proof.
  intros Hm. unfold GeoDataWindowConfig_validate_config, st_bind at 1.
  destruct (GeoDataWindowConfig_update c) as [[[]|e] c'] eqn:Hup; [| done].
  assert (method c' = random) as Hm'.
  { revert Hup. unfold GeoDataWindowConfig_update, st_bind, st_get.
    rewrite Hm. simpl.
    destruct (negb _); [destruct (size c) |];
      unfold st_modify, st_raise, st_ret; intros ?; by simplify_eq. }
  unfold st_bind, st_get, st_raise, st_ret. rewrite Hm'. simpl.
  by repeat case_match.
Qed.

Lemma window_update_raises_no_lims (c c' : GeoDataWindowConfig) (e : exn) :
  GeoDataWindowConfig_update c = (Raise e, c') ->
  c' = c /\ size_lims c = None /\ h_lims c = None.
Proof.
  unfold GeoDataWindowConfig_update, st_bind, st_get.
  destruct (is_random (method c)); [| done].
  destruct (size_lims c), (h_lims c); simpl; try done.
  destruct (size c); [done |]. by intros [= _ <-].
Qed.

(** With no limits set and a tuple for [size], [self.size + 1] raises and
    nothing is written. *)
Lemma window_update_tuple_size (c : GeoDataWindowConfig) (a b : Z) :
  method c = random -> size c = PairVal a b ->
  size_lims c = None -> h_lims c = None ->
  GeoDataWindowConfig_update c
  = (Raise (TypeError "can only concatenate tuple (not 'int') to tuple"), c).
Proof.
  intros Hm Hsz Hs Hh.
  unfold GeoDataWindowConfig_update, st_bind, st_get. simpl.
  by rewrite Hm, Hs, Hh, Hsz.
Qed.

(** C6.  With [method=random] and no limits set, [update] sets [size_lims]
    to [(size, size + 1)] when [size] is an integer; when [size] is a pair,
    which the field admits as well, [update] raises [TypeError] and leaves
    [size_lims] unset, and so does [validate_config], which calls it first.
    With [method=sliding] and no stride, [validate_config] raises a
    configuration error; with [method=random], [validate_config] returns
    normally exactly when, after [update], one of [size_lims] or [h_lims]
    with [w_lims] is set, and raises otherwise. *)
Theorem window_config_limits (c : GeoDataWindowConfig) :
  (forall n : Z,
     method c = random -> size c = IntVal n ->
     size_lims c = None -> h_lims c = None -> w_lims c = None ->
     GeoDataWindowConfig_update c = (OK tt, set_size_lims (Some (n, n + 1)) c))
  /\ (forall a b : Z,
        method c = random -> size c = PairVal a b ->
        size_lims c = None -> h_lims c = None -> w_lims c = None ->
        let e := TypeError "can only concatenate tuple (not 'int') to tuple" in
        GeoDataWindowConfig_update c = (Raise e, c)
        /\ GeoDataWindowConfig_validate_config c = (Raise e, c)
        /\ size_lims (GeoDataWindowConfig_update c).2 = None)
  /\ (method c = sliding -> stride c = None ->
      GeoDataWindowConfig_validate_config c = (Raise (ConfigError msg_stride), c))
  /\ (method c = random ->
      let updated := (GeoDataWindowConfig_update c).2 in
      ((GeoDataWindowConfig_validate_config c).1 = OK tt <-> one_kind_of_lims updated)
      /\ (~ one_kind_of_lims updated ->
          raises (GeoDataWindowConfig_validate_config c).1)).
Proof.
  split; [| split; [| split]].
  - intros n Hm Hsz Hs Hh Hw.
    unfold GeoDataWindowConfig_update, st_bind, st_get. simpl.
    by rewrite Hm, Hs, Hh, Hsz.
  - intros a b Hm Hsz Hs Hh Hw e. subst e.
    pose proof (window_update_tuple_size c a b Hm Hsz Hs Hh) as Hup.
    split; [exact Hup |]. split.
    + rewrite (window_validate_random c Hm), Hup. reflexivity.
    + rewrite Hup. exact Hs.
  - intros Hm Hst.
    unfold GeoDataWindowConfig_validate_config, st_bind.
    rewrite (window_update_sliding c Hm). simpl. by rewrite Hm, Hst.
  - intros Hm updated. subst updated.
    rewrite (window_validate_random c Hm), one_kind_of_lims_flags.
    destruct (GeoDataWindowConfig_update c) as [[[]|e] c'] eqn:Hup; simpl.
    + destruct (Bool.eqb (is_not_None (size_lims c')) _); simpl.
      { split; [split; [done | intros [? _]; done] | by eexists]. }
      destruct (Bool.eqb (is_not_None (h_lims c')) _); simpl.
      { split; [done | intros []; done]. }
      split; [split; [done | intros [_ ?]; done] | by eexists].
    + apply window_update_raises_no_lims in Hup as (-> & Hs & Hh).
      rewrite Hs, Hh. simpl. split; [| by eexists].
      split; [done |]. intros [Ha Hb]. revert Ha Hb.
      by destruct (is_not_None (w_lims c)).
Qed.

Lemma window_config_limits_witness :
  GeoDataWindowConfig_update (window_cfg random (IntVal 256))
    = (OK tt, set_size_lims (Some (256, 257)) (window_cfg random (IntVal 256)))
  /\ GeoDataWindowConfig_validate_config (window_cfg random (PairVal 256 256))
     = (Raise (TypeError "can only concatenate tuple (not 'int') to tuple"),
        window_cfg random (PairVal 256 256))
  /\ GeoDataWindowConfig_validate_config (window_cfg sliding (IntVal 256))
     = (Raise (ConfigError msg_stride), window_cfg sliding (IntVal 256))
  /\ (GeoDataWindowConfig_validate_config (window_cfg random (IntVal 256))).1
     = OK tt.
Proof.
  split; [| split; [| split]].
  - apply (window_config_limits (window_cfg random (IntVal 256)));
      reflexivity.
  - destruct (window_config_limits (window_cfg random (PairVal 256 256)))
      as (_ & Htuple & _).
    destruct (Htuple 256 256 eq_refl eq_refl eq_refl eq_refl eq_refl)
      as (_ & Hval & _).
    exact Hval.
  - destruct (window_config_limits (window_cfg sliding (IntVal 256)))
      as (_ & _ & Hsl & _).
    apply Hsl; reflexivity.
  - destruct (window_config_limits (window_cfg random (IntVal 256)))
      as (_ & _ & _ & Hrand).
    apply Hrand; [reflexivity |].
    left. split; [by eexists | split; reflexivity].
Defined.

(** ** PlotOptions.validate_and_update_channel_display_groups *)

Lemma forallb_in_range (img_channels : Z) (v : list Z) :
  forallb (fun i => (0 <=? i) && (i <? img_channels)) v = true
  <-> Forall (fun i => 0 <= i < img_channels) v.
Proof.
  rewrite forallb_forall, Forall_forall.
  split; intros Hv i Hi.
  - apply list_elem_of_In, Hv in Hi. lia.
  - apply list_elem_of_In, Hv in Hi. lia.
Qed.

Lemma check_group_ok (img_channels : Z) (kv : string * list Z) :
  check_group img_channels kv = OK tt <-> group_ok img_channels kv.
Proof.
  destruct kv as [k v]. unfold check_group, group_ok. simpl.
  case_bool_decide as Hlen; simpl.
  - destruct (forallb _ v) eqn:Hall; simpl.
    + apply forallb_in_range in Hall. split; [| done]. split; [lia | done].
    + split; [done |]. intros [_ Hv]. apply forallb_in_range in Hv. congruence.
  - split; [done |]. intros [? _]. lia.
Qed.

Lemma check_group_raise (img_channels : Z) (k : string) (v : list Z) (e : exn) :
  check_group img_channels (k, v) = Raise e ->
  ~ group_ok img_channels (k, v) /\ exists msg, e = ConfigError msg /\ names_group msg k.
Proof.
  intros He. split.
  - intros Hok. apply check_group_ok in Hok. congruence.
  - revert He. unfold check_group, names_group.
    repeat case_match; intros [= <-]; eauto.
Qed.

(** The loop stops at the first group that is not [group_ok]. *)
Lemma check_groups_ok (img_channels : Z) (groups : dict (list Z)) :
  (exists us, res_for groups (check_group img_channels) = OK us)
  <-> Forall (group_ok img_channels) groups.
Proof.
  induction groups as [| kv groups IH]; cbn [res_for].
  - split; [constructor | by eexists].
  - destruct (check_group img_channels kv) as [[]|e] eqn:Hkv; cbn [res_bind].
    + apply check_group_ok in Hkv. rewrite Forall_cons.
      destruct (res_for groups _) as [us|e']; cbn [res_bind].
      * split; [| by eexists]. intros _. split; [done |]. apply IH. by eexists.
      * split; [by intros [? ?] |]. intros [_ Hall].
        apply IH in Hall as [? ?]. done.
    + split; [by intros [? ?] |]. intros Hall. apply Forall_cons in Hall as [Hok _].
      apply check_group_ok in Hok. congruence.
Qed.

Lemma check_groups_raise (img_channels : Z) (groups : dict (list Z)) (e : exn) :
  res_for groups (check_group img_channels) = Raise e ->
  exists k v msg,
    (k, v) ∈ groups /\ ~ group_ok img_channels (k, v)
    /\ e = ConfigError msg /\ names_group msg k.
Proof.
  induction groups as [| [k v] groups IH]; cbn [res_for]; [done |].
  destruct (check_group img_channels (k, v)) as [[]|e'] eqn:Hkv; cbn [res_bind].
  - destruct (res_for groups _) as [us|e'']; cbn [res_bind]; [done |].
    intros [= <-]. destruct IH as (k' & v' & msg & Hin & ?); [done |].
    exists k', v', msg. split; [by right | done].
  - intros [= <-]. apply check_group_raise in Hkv as (Hbad & msg & -> & Hname).
    exists k, v, msg. split; [by left | done].
Qed.

(** Writing a new key appends it. *)
Lemma dict_setitem_fresh {V : Type} (k : string) (v : V) (d : dict V) :
  k ∉ d.*1 -> dict_setitem k v d = d ++ [(k, v)].
Proof.
  induction d as [| [k' v'] d IH]; simpl; [done |].
  intros Hk. apply not_elem_of_cons in Hk as [Hne Hk].
  case_decide; [congruence |]. by rewrite IH.
Qed.

Lemma dict_comprehension_from {A V : Type} (key : A -> string) (val : A -> V)
    (xs : list A) (acc : dict V) :
  NoDup (acc.*1 ++ (key <$> xs)) ->
  foldl (fun d x => dict_setitem (key x) (val x) d) acc xs
  = acc ++ ((fun x => (key x, val x)) <$> xs).
Proof.
  revert acc. induction xs as [| x xs IH]; intros acc Hnd; simpl.
  - by rewrite app_nil_r.
  - rewrite dict_setitem_fresh.
    + rewrite IH.
      * by rewrite <- app_assoc.
      * rewrite fmap_app. simpl. by rewrite <- app_assoc.
    + apply NoDup_app in Hnd as (_ & Hdisj & _). intros Hin.
      apply (Hdisj _ Hin). simpl. by left.
Qed.

(** A [dict] whose keys are distinct is copied as it is. *)
Lemma dict_copy {V : Type} (d : dict V) :
  NoDup d.*1 -> dict_comprehension fst snd d = d.
Proof.
  intros Hnd. unfold dict_comprehension.
  rewrite dict_comprehension_from; simpl; [| done].
  induction d as [| [k v] d IH]; simpl; [done |].
  f_equal. apply IH. by apply NoDup_cons in Hnd as [_ ?].
Qed.

Lemma length_range (n : Z) : length (range n) = Z.to_nat n.
Proof. unfold range. by rewrite length_fmap, length_seq. Qed.

Lemma elem_of_range (n i : Z) : i ∈ range n <-> 0 <= i < n.
Proof.
  unfold range. rewrite list_elem_of_fmap. split.
  - intros (k & -> & Hk). apply elem_of_seq in Hk. lia.
  - intros Hi. exists (Z.to_nat i). split; [lia | apply elem_of_seq; lia].
Qed.

Lemma default_group_ok (img_channels : Z) :
  1 <= img_channels ->
  group_ok img_channels ("Input"%string, range (Z.min 3 img_channels)).
Proof.
  intros Hc. split; simpl.
  - rewrite length_range. lia.
  - apply Forall_forall. intros i Hi. apply elem_of_range in Hi. lia.
Qed.

Lemma validate_groups_cases (self : PlotOptions) (img_channels : Z)
    (groups : dict (list Z)) :
  groups_to_dict (channel_display_groups self) img_channels = OK groups ->
  (Forall (group_ok img_channels) groups ->
     validate_and_update_channel_display_groups self img_channels = OK groups)
  /\ (~ Forall (group_ok img_channels) groups ->
      exists k v msg,
        (k, v) ∈ groups /\ ~ group_ok img_channels (k, v)
        /\ validate_and_update_channel_display_groups self img_channels
           = Raise (ConfigError msg)
        /\ names_group msg k).
Proof.
  intros Hg. unfold validate_and_update_channel_display_groups.
  rewrite Hg. cbn [res_bind].
  destruct (res_for groups (check_group img_channels)) as [us|e] eqn:Hloop;
    cbn [res_bind].
  - split; [done |]. intros Hbad. destruct Hbad.
    apply check_groups_ok. by eexists.
  - apply check_groups_raise in Hloop as (k & v & msg & Hin & Hbad & -> & Hname).
    split.
    + intros Hall. rewrite Forall_forall in Hall. destruct Hbad. by apply Hall.
    + intros _. by exists k, v, msg.
Qed.

Lemma validate_groups_OK (self : PlotOptions) (img_channels : Z)
    (groups : dict (list Z)) :
  validate_and_update_channel_display_groups self img_channels = OK groups ->
  groups_to_dict (channel_display_groups self) img_channels = OK groups
  /\ Forall (group_ok img_channels) groups.
Proof.
  unfold validate_and_update_channel_display_groups.
  destruct (groups_to_dict _ _) as [g|e]; cbn [res_bind]; [| done].
  destruct (res_for g (check_group img_channels)) as [us|e] eqn:Hloop;
    cbn [res_bind]; [| done].
  intros [= <-]. split; [done |]. apply check_groups_ok. by eexists.
Qed.

Lemma check_group_error (img_channels : Z) (kv : string * list Z) :
  ~ group_ok img_channels kv ->
  check_group img_channels kv = Raise (group_error kv).
Proof.
  intros Hbad. destruct (check_group img_channels kv) as [[]|e] eqn:Hkv.
  { destruct Hbad. by apply check_group_ok. }
  revert Hkv. destruct kv as [k v]. unfold check_group, group_error. simpl.
  case_bool_decide as Hlen; simpl.
  - rewrite bool_decide_true by lia. destruct (forallb _ v); simpl; [done |].
    by intros [= <-].
  - rewrite bool_decide_false by lia. by intros [= <-].
Qed.

(** The loop raises for the first group that is not [group_ok]. *)
Lemma check_groups_first (img_channels : Z) (pre post : dict (list Z))
    (kv : string * list Z) :
  Forall (group_ok img_channels) pre -> ~ group_ok img_channels kv ->
  res_for (pre ++ kv :: post) (check_group img_channels) = Raise (group_error kv).
Proof.
  intros Hpre Hbad. induction Hpre as [| kv' pre Hok _ IH]; cbn [app res_for].
  - by rewrite check_group_error.
  - apply check_group_ok in Hok. rewrite Hok. cbn [res_bind]. by rewrite IH.
Qed.

Lemma validated_groups (self : PlotOptions) (img_channels : Z)
    (groups : dict (list Z)) :
  groups_to_dict (channel_display_groups self) img_channels = OK groups ->
  validated img_channels groups
    (validate_and_update_channel_display_groups self img_channels).
Proof.
  intros Hg. split.
  - by apply validate_groups_cases.
  - intros pre kv post -> Hpre Hbad.
    unfold validate_and_update_channel_display_groups. rewrite Hg.
    cbn [res_bind]. by rewrite check_groups_first.
Qed.

Lemma group_error_names (kv : string * list Z) :
  exists msg, group_error kv = ConfigError msg /\ names_group msg kv.1.
Proof.
  unfold group_error, names_group. case_bool_decide; eauto.
Qed.

(** C5.  With no groups set the mapping is the single group ['Input'] of the
    first [min(3, img_channels)] channels; a list or tuple of groups becomes
    a mapping from generated labels to the groups; a mapping is copied with
    its values as lists.  In each case the mapping is returned when every
    group has one to three indices, all in [[0, img_channels)], and
    otherwise a configuration error is raised that names the first group
    out of these bounds; so every mapping that is returned is within
    them.  A value that is set and empty is answered with a configuration
    error of its own, and nothing else is raised. *)
Theorem channel_display_groups_validated (self : PlotOptions) (img_channels : Z) :
  let result := validate_and_update_channel_display_groups self img_channels in
  (channel_display_groups self = None ->
     validated img_channels
       [("Input"%string, range (Z.min 3 img_channels))] result
     /\ (1 <= img_channels ->
         result = OK [("Input"%string, range (Z.min 3 img_channels))])
     /\ (img_channels <= 0 ->
         result = Raise (ConfigError (msg_group_len "Input"))))
  /\ (forall l, channel_display_groups self = Some (GroupsSeq l) -> l <> [] ->
        validated img_channels
          (dict_comprehension channels_label (fun chs => chs) l) result
        /\ (forall groups, result = OK groups ->
              groups = dict_comprehension channels_label (fun chs => chs) l)
        /\ (NoDup (channels_label <$> l) ->
            dict_comprehension channels_label (fun chs => chs) l
            = (fun chs => (channels_label chs, chs)) <$> l))
  /\ (forall d, channel_display_groups self = Some (GroupsDict d) -> d <> [] ->
        validated img_channels (dict_comprehension fst snd d) result
        /\ (forall groups, result = OK groups ->
              groups = dict_comprehension fst snd d)
        /\ (NoDup d.*1 -> dict_comprehension fst snd d = d))
  /\ (forall g, channel_display_groups self = Some g ->
        channel_groups_len g = 0%nat ->
        result = Raise (ConfigError msg_groups_empty))
  /\ (forall groups, result = OK groups ->
        Forall (group_ok img_channels) groups)
  /\ (forall e, result = Raise e ->
        e = ConfigError msg_groups_empty
        \/ exists k v msg,
             ~ group_ok img_channels (k, v)
             /\ e = ConfigError msg /\ names_group msg k)
  /\ (forall kv, exists msg,
        group_error kv = ConfigError msg /\ names_group msg kv.1).
Proof.
  intros result. subst result.
  split; [| split; [| split; [| split; [| split; [| split]]]]].
  - intros Hnone.
    assert (groups_to_dict (channel_display_groups self) img_channels
            = OK [("Input"%string, range (Z.min 3 img_channels))]) as Hg
      by (by rewrite Hnone).
    pose proof (validated_groups self img_channels _ Hg) as [Hok Hbad].
    split; [by split |]. split.
    + intros Hc. apply Hok.
      constructor; [by apply default_group_ok | constructor].
    + intros Hc.
      rewrite (Hbad [] ("Input"%string, range (Z.min 3 img_channels)) []);
        [| done | constructor |].
      * unfold group_error. simpl. rewrite length_range.
        rewrite bool_decide_false by lia. done.
      * intros [Hlen _]. simpl in Hlen. rewrite length_range in Hlen. lia.
  - intros l Hseq Hl.
    assert (groups_to_dict (channel_display_groups self) img_channels
            = OK (dict_comprehension channels_label (fun chs => chs) l)) as Hg.
    { rewrite Hseq. simpl. case_bool_decide as Hlen; [| done].
      destruct l; [done | discriminate Hlen]. }
    split; [by apply validated_groups |]. split.
    + intros groups Hres. apply validate_groups_OK in Hres as [Hg' _].
      rewrite Hg in Hg'. by injection Hg'.
    + intros Hnd. unfold dict_comprehension. by rewrite dict_comprehension_from.
  - intros d Hdict Hd.
    assert (groups_to_dict (channel_display_groups self) img_channels
            = OK (dict_comprehension fst snd d)) as Hg.
    { rewrite Hdict. simpl. case_bool_decide as Hlen; [| done].
      destruct d; [done | discriminate Hlen]. }
    split; [by apply validated_groups |]. split.
    + intros groups Hres. apply validate_groups_OK in Hres as [Hg' _].
      rewrite Hg in Hg'. by injection Hg'.
    + apply dict_copy.
  - intros g Hg Hlen.
    unfold validate_and_update_channel_display_groups, groups_to_dict.
    rewrite Hg. case_bool_decide; done.
  - intros groups Hres. by apply validate_groups_OK in Hres as [_ ?].
  - intros e. unfold validate_and_update_channel_display_groups.
    destruct (groups_to_dict _ _) as [groups|e0] eqn:Hg; cbn [res_bind].
    + destruct (res_for groups _) as [us|e1] eqn:Hloop; cbn [res_bind]; [done |].
      intros [= <-]. right.
      apply check_groups_raise in Hloop as (k & v & msg & _ & Hbad & -> & Hname).
      by exists k, v, msg.
    + intros [= <-]. left. revert Hg. unfold groups_to_dict.
      destruct (channel_display_groups self) as [g|]; [| done].
      case_bool_decide; [by intros [= <-] | by destruct g].
  - apply group_error_names.
Qed.

Lemma channel_display_groups_validated_witness :
  validate_and_update_channel_display_groups (plot None) 4
    = OK [("Input"%string, [0; 1; 2])]
  /\ validate_and_update_channel_display_groups (plot None) 0
     = Raise (ConfigError (msg_group_len "Input"))
  /\ validate_and_update_channel_display_groups
       (plot (Some (GroupsSeq [[0; 1; 2]; [3]]))) 4
     = OK [("Channels: [0, 1, 2]"%string, [0; 1; 2]);
           ("Channels: [3]"%string, [3])]
  /\ validate_and_update_channel_display_groups
       (plot (Some (GroupsSeq [[0; 1; 2]; [4]]))) 4
     = Raise (ConfigError (msg_group_indices "Channels: [4]"))
  /\ validate_and_update_channel_display_groups
       (plot (Some (GroupsDict [("RGB"%string, [0; 1; 2]); ("IR"%string, [3])]))) 4
     = OK [("RGB"%string, [0; 1; 2]); ("IR"%string, [3])]
  /\ validate_and_update_channel_display_groups
       (plot (Some (GroupsDict [("RGB"%string, [0; 1; 2]); ("IR"%string, [4])]))) 4
     = Raise (ConfigError (msg_group_indices "IR"))
  /\ validate_and_update_channel_display_groups
       (plot (Some (GroupsDict [("RGB"%string, [0; 1; 2; 3]); ("IR"%string, [4])]))) 4
     = Raise (ConfigError (msg_group_len "RGB")).
Proof.
  split; [| split; [| split; [| split; [| split; [| split]]]]].
  - destruct (channel_display_groups_validated (plot None) 4) as [Hdef _].
    destruct (Hdef eq_refl) as (_ & Hok & _). apply Hok. lia.
  - destruct (channel_display_groups_validated (plot None) 0) as [Hdef _].
    destruct (Hdef eq_refl) as (_ & _ & Hbad). apply Hbad. lia.
  - destruct (channel_display_groups_validated
                (plot (Some (GroupsSeq [[0; 1; 2]; [3]]))) 4)
      as (_ & Hseq & _).
    destruct (Hseq [[0; 1; 2]; [3]] eq_refl) as ([Hok _] & _); [done |].
    apply Hok. repeat constructor; simpl; lia.
  - destruct (channel_display_groups_validated
                (plot (Some (GroupsSeq [[0; 1; 2]; [4]]))) 4)
      as (_ & Hseq & _).
    destruct (Hseq [[0; 1; 2]; [4]] eq_refl) as ([_ Hbad] & _); [done |].
    apply (Hbad [("Channels: [0, 1, 2]"%string, [0; 1; 2])]
                ("Channels: [4]"%string, [4]) []).
    + reflexivity.
    + repeat constructor; simpl; lia.
    + intros [_ Hidx]. apply Forall_cons in Hidx as [Hidx _]. lia.
  - destruct (channel_display_groups_validated
                (plot (Some (GroupsDict [("RGB"%string, [0; 1; 2]);
                                         ("IR"%string, [3])]))) 4)
      as (_ & _ & Hdict & _).
    destruct (Hdict [("RGB"%string, [0; 1; 2]); ("IR"%string, [3])] eq_refl)
      as ([Hok _] & _); [done |].
    apply Hok. repeat constructor; simpl; lia.
  - destruct (channel_display_groups_validated
                (plot (Some (GroupsDict [("RGB"%string, [0; 1; 2]);
                                         ("IR"%string, [4])]))) 4)
      as (_ & _ & Hdict & _).
    destruct (Hdict [("RGB"%string, [0; 1; 2]); ("IR"%string, [4])] eq_refl)
      as ([_ Hbad] & _); [done |].
    apply (Hbad [("RGB"%string, [0; 1; 2])] ("IR"%string, [4]) []).
    + reflexivity.
    + repeat constructor; simpl; lia.
    + intros [_ Hidx]. apply Forall_cons in Hidx as [Hidx _]. lia.
  - destruct (channel_display_groups_validated
                (plot (Some (GroupsDict [("RGB"%string, [0; 1; 2; 3]);
                                         ("IR"%string, [4])]))) 4)
      as (_ & _ & Hdict & _).
    destruct (Hdict [("RGB"%string, [0; 1; 2; 3]); ("IR"%string, [4])] eq_refl)
      as ([_ Hbad] & _); [done |].
    apply (Hbad [] ("RGB"%string, [0; 1; 2; 3]) [("IR"%string, [4])]).
    + reflexivity.
    + constructor.
    + intros [Hlen _]. simpl in Hlen. lia.
Defined.

(** C9.  A [channel_display_groups] that is set but empty, whether a list,
    a tuple or a mapping, is answered with a configuration error; the
    default group ['Input'] is the answer to an unset value only, and what is
    returned for a value that is set is built from its own, non-empty,
    groups. *)
Theorem empty_channel_display_groups_rejected (self : PlotOptions)
    (img_channels : Z) :
  let result := validate_and_update_channel_display_groups self img_channels in
  (forall g, channel_display_groups self = Some g ->
             channel_groups_len g = 0%nat ->
             (g = GroupsSeq [] \/ g = GroupsDict [])
             /\ result = Raise (ConfigError msg_groups_empty))
  /\ (channel_display_groups self = None -> 1 <= img_channels ->
      result = OK [("Input"%string, range (Z.min 3 img_channels))])
  /\ (forall g groups, channel_display_groups self = Some g ->
        result = OK groups ->
        channel_groups_len g <> 0%nat
        /\ groups = match g with
                    | GroupsSeq l =>
                        dict_comprehension channels_label (fun chs => chs) l
                    | GroupsDict d => dict_comprehension fst snd d
                    end).
Proof.
  intros result. subst result. split; [| split].
  - intros g Hg Hlen. split.
    + destruct g as [[|? ?]|[|? ?]]; simpl in Hlen; try done; auto.
    + unfold validate_and_update_channel_display_groups, groups_to_dict.
      rewrite Hg. case_bool_decide; done.
  - intros Hnone Hc.
    apply (validate_groups_cases self img_channels).
    + by rewrite Hnone.
    + constructor; [by apply default_group_ok | constructor].
  - intros g groups Hg Hres.
    apply validate_groups_OK in Hres as [Hd _]. revert Hd.
    rewrite Hg. simpl. case_bool_decide; [done |].
    destruct g; by intros [= <-].
Qed.

Lemma empty_channel_display_groups_rejected_witness :
  validate_and_update_channel_display_groups (plot (Some (GroupsSeq []))) 4
    = Raise (ConfigError msg_groups_empty)
  /\ validate_and_update_channel_display_groups (plot (Some (GroupsDict []))) 4
     = Raise (ConfigError msg_groups_empty)
  /\ validate_and_update_channel_display_groups (plot None) 4
     = OK [("Input"%string, [0; 1; 2])].
Proof.
  split; [| split].
  - destruct (empty_channel_display_groups_rejected
                (plot (Some (GroupsSeq []))) 4) as [Hempty _].
    apply (Hempty (GroupsSeq [])); reflexivity.
  - destruct (empty_channel_display_groups_rejected
                (plot (Some (GroupsDict []))) 4) as [Hempty _].
    apply (Hempty (GroupsDict [])); reflexivity.
  - destruct (empty_channel_display_groups_rejected (plot None) 4)
      as (_ & Hdef & _).
    apply Hdef; [reflexivity | lia].
Defined.

(** ** DataConfig.random_subset_dataset *)

Lemma int_of_float_finite (x : float) (s : bool) (m : positive) (e : Z) :
  Prim2SF x = S754_finite s m e -> int_of_float x = OK (integer_part s m e).
Proof.
  intros Hx. unfold int_of_float, integer_part. rewrite Hx. f_equal.
  destruct e as [| p | p].
  - simpl Z.max. rewrite Z.pow_0_r, Z.mul_1_r, Z.quot_1_r. done.
  - replace (Z.max (Z.pos p) 0) with (Z.pos p) by lia.
    replace (Z.max (- Z.pos p) 0) with 0 by lia.
    rewrite Z.pow_0_r, Z.quot_1_r, Z.shiftl_mul_pow2 by lia.
    destruct s; lia.
  - replace (Z.max (Z.neg p) 0) with 0 by lia.
    replace (Z.max (- Z.neg p) 0) with (Z.pos p) by lia.
    rewrite Z.pow_0_r, Z.mul_1_r, Z.shiftr_div_pow2 by lia.
    assert (0 < 2 ^ Z.pos p) by (apply Z.pow_pos_nonneg; lia).
    destruct s.
    + rewrite Z.quot_opp_l by lia. f_equal.
      symmetry. apply Z.quot_div_nonneg; lia.
    + symmetry. apply Z.quot_div_nonneg; lia.
Qed.

Lemma swap_Permutation {A : Type} (x : list A) (i j : nat) : swap x i j ≡ₚ x.
Proof.
  unfold swap. destruct (x !! i) as [xi|] eqn:Hi; [| done].
  destruct (x !! j) as [xj|] eqn:Hj; [| done].
  by apply Permutation_insert_swap.
Qed.

(** The loop of [random.shuffle] rearranges the list and loses nothing. *)
Lemma shuffle_from_Permutation `{PyRandom} {A : Type} (n : nat) (x : list A)
    (g : rng) :
  (shuffle_from n x g).1 ≡ₚ x.
Proof.
  revert x g. induction n as [| n IH]; intros x g; simpl; [done |].
  destruct (randbelow (S (S n)) g) as [j g'].
  rewrite IH. apply swap_Permutation.
Qed.

Lemma shuffle_OK `{PyRandom} {A : Type} (x : list A) (g : rng) :
  exists x', (shuffle x g).1 = OK x' /\ x' ≡ₚ x.
Proof.
  unfold shuffle.
  pose proof (shuffle_from_Permutation (length x - 1) x g) as Hp.
  destruct (shuffle_from _ x g) as [x' g']. by exists x'.
Qed.

(** With a size alone: seed, shuffle every index, keep [inds[:size]]. *)
Lemma random_subset_dataset_size `{PyRandom} (ds : Dataset) (n : Z) (g : rng) :
  random_subset_dataset ds (Some n) None g =
    let r := shuffle (range (len ds)) (seed 1234) in
    match r.1 with
    | OK inds => (OK (Subset ds (slice_to inds n)), r.2)
    | Raise e => (Raise e, r.2)
    end.
Proof.
  unfold random_subset_dataset, st_bind, st_ret, random_seed, st_put. simpl.
  destruct (shuffle _ _) as [[inds|e] g']; done.
Qed.

Lemma slice_to_nonneg {A : Type} (xs : list A) (n : Z) :
  0 <= n -> slice_to xs n = take (Z.to_nat n) xs.
Proof. intros Hn. unfold slice_to. case_match; [done | lia]. Qed.

(** C3.  Calling [random_subset_dataset] with both [size] and [fraction] is
    a [ValueError]; a [fraction] is turned into the count
    [int(len(ds) * fraction)], the product rounded toward zero, and the call
    goes on as with that size; the selection seeds the generator with 1234,
    shuffles all of [[0, len(ds))] and keeps [inds[:size]], the first [size]
    of them; so two calls on datasets of one length with one size select the
    same indices, whatever the generator held before. *)
Theorem random_subset_dataset_fixed_seed `{PyRandom} (ds : Dataset) (g : rng) :
  (forall n fr,
     random_subset_dataset ds (Some n) (Some fr) g
     = (Raise (ValueError msg_size_or_fraction), g))
  /\ (forall fr x n,
        int_mul_float (len ds) fr = OK x -> int_of_float x = OK n ->
        random_subset_dataset ds None (Some fr) g
        = random_subset_dataset ds (Some n) None g)
  /\ (forall x s m e,
        Prim2SF x = S754_finite s m e -> int_of_float x = OK (integer_part s m e))
  /\ (forall n, exists inds,
        (shuffle (range (len ds)) (seed 1234)).1 = OK inds
        /\ inds ≡ₚ range (len ds)
        /\ (random_subset_dataset ds (Some n) None g).1
           = OK (Subset ds (slice_to inds n))
        /\ (0 <= n -> slice_to inds n = take (Z.to_nat n) inds))
  /\ (forall ds' g' n,
        len ds' = len ds ->
        is_Some (selected_indices (random_subset_dataset ds (Some n) None g).1)
        /\ selected_indices (random_subset_dataset ds' (Some n) None g').1
           = selected_indices (random_subset_dataset ds (Some n) None g).1
        /\ (random_subset_dataset ds' (Some n) None g').2
           = (random_subset_dataset ds (Some n) None g).2).
Proof.
  split; [| split; [| split; [| split]]].
  - done.
  - intros fr x n Hmul Hint.
    unfold random_subset_dataset, st_bind, st_lift, st_ret. simpl.
    rewrite Hmul. cbn [res_bind]. by rewrite Hint.
  - apply int_of_float_finite.
  - intros n. destruct (shuffle_OK (range (len ds)) (seed 1234)) as (inds & Hsh & Hp).
    exists inds. rewrite random_subset_dataset_size. simpl. rewrite Hsh.
    repeat split; try done. apply slice_to_nonneg.
  - intros ds' g' n Hlen. rewrite !random_subset_dataset_size, Hlen. simpl.
    destruct (shuffle_OK (range (len ds)) (seed 1234)) as (inds & Hsh & _).
    rewrite Hsh. simpl. by split; [eexists |].
Qed.

Lemma random_subset_dataset_fixed_seed_witness :
  @random_subset_dataset lcg_random (chips "a" 10) None (Some seven_tenths) 5
    = @random_subset_dataset lcg_random (chips "a" 10) (Some 7) None 5
  /\ selected_indices
       (@random_subset_dataset lcg_random (chips "b" 10) (Some 3) None 77).1
     = selected_indices
         (@random_subset_dataset lcg_random (chips "a" 10) (Some 3) None 5).1.
Proof.
  split.
  - destruct (@random_subset_dataset_fixed_seed lcg_random (chips "a" 10) 5)
      as (_ & Hfr & _).
    apply (Hfr seven_tenths 7%float 7); reflexivity.
  - destruct (@random_subset_dataset_fixed_seed lcg_random (chips "a" 10) 5)
      as (_ & _ & _ & _ & Hdet).
    apply (Hdet (chips "b" 10) 77 3). reflexivity.
Defined.

(** ** The cap on the training set *)

Lemma random_subset_dataset_None `{PyRandom} (ds : Dataset) (g : rng) :
  random_subset_dataset ds None None g = (OK ds, g).
Proof. reflexivity. Qed.

(** Asking for the cap only when one of the two fields is set is the same as
    asking for it always. *)
Lemma guarded_cap `{PyRandom} (ds : Dataset) (size : option Z)
    (fraction : option float) (g : rng) :
  (if is_not_None size || is_not_None fraction
   then random_subset_dataset ds size fraction
   else st_ret ds) g
  = random_subset_dataset ds size fraction g.
Proof. destruct size, fraction; reflexivity. Qed.

(** C10.  [random_subset_dataset(ds, None, None)] returns [ds] itself, with
    no [Subset] around it and the generator as it was; so the build methods,
    which ask for the cap only when [train_sz] or [train_sz_rel] is set,
    return what they would return if they asked for it always. *)
Theorem random_subset_dataset_identity `{PyRandom} `{GeoDataEnv} `{ImageDataEnv}
    (g : rng) :
  (forall ds, random_subset_dataset ds None None g = (OK ds, g))
  /\ (forall ds size fraction,
        (if is_not_None size || is_not_None fraction
         then random_subset_dataset ds size fraction
         else st_ret ds) g
        = random_subset_dataset ds size fraction g)
  /\ (forall self tmp_dir overfit_mode test_mode,
        GeoDataConfig_build self tmp_dir overfit_mode test_mode g
        = GeoDataConfig_build_unguarded self tmp_dir overfit_mode test_mode g)
  /\ (forall self tmp_dir overfit_mode test_mode,
        ImageDataConfig_build self tmp_dir overfit_mode test_mode g
        = ImageDataConfig_build_unguarded self tmp_dir overfit_mode test_mode g).
Proof.
  split; [| split; [| split]].
  - intros ds. apply random_subset_dataset_None.
  - intros ds size fraction. apply guarded_cap.
  - intros self tmp_dir overfit_mode test_mode.
    unfold GeoDataConfig_build, GeoDataConfig_build_unguarded, st_bind, st_lift.
    destruct (geo_get_data_transforms self) as [[base aug]|e]; [| done].
    destruct (GeoDataConfig_make_datasets _ _ _ _ _) as [[[tr va] te]|e]; [| done].
    by rewrite guarded_cap.
  - intros self tmp_dir overfit_mode test_mode.
    unfold ImageDataConfig_build, ImageDataConfig_build_unguarded, st_bind.
    destruct (group_uris self) as [uris|]; [| done].
    destruct (get_datasets_from_group_uris _ _ _ _ _ _ _ g)
      as [[[[tr va] te]|e] g']; [| done].
    by rewrite guarded_cap.
Qed.

(** ** LearnerConfig.update *)

Lemma getattr_test_overfit_num_steps (s : SolverConfig) :
  SolverConfig_getattr s "test_overfit_num_steps"
  = Raise (AttributeError "test_overfit_num_steps").
Proof. reflexivity. Qed.

(** Test mode alone: the test values of the solver, no workers, then the
    sub-configs. *)
Lemma update_test_mode `{SubConfigs} (cfg : LearnerConfig) :
  overfit_mode cfg = false -> test_mode cfg = true ->
  LearnerConfig_update cfg =
    propagate
      (set_data (set_num_workers 0)
         (set_solver (set_batch_sz (test_batch_sz (solver cfg)))
            (set_solver (set_num_epochs (test_num_epochs (solver cfg))) cfg))).
Proof.
  intros Ho Ht.
  unfold LearnerConfig_update, Config_update, st_bind, st_get, st_ret,
    st_modify, propagate.
  simpl. rewrite Ho, Ht. simpl. reflexivity.
Qed.

(** Overfit mode alone: half the image size, then the sub-configs. *)
Lemma update_overfit_mode `{SubConfigs} (cfg : LearnerConfig) :
  overfit_mode cfg = true -> test_mode cfg = false ->
  LearnerConfig_update cfg =
    propagate (set_data (set_img_sz (img_sz (learner_data cfg) `div` 2)) cfg).
Proof.
  intros Ho Ht.
  unfold LearnerConfig_update, Config_update, st_bind, st_get, st_ret,
    st_modify, propagate.
  simpl. rewrite Ho, Ht. simpl. rewrite Ht. reflexivity.
Qed.

Lemma update_no_mode `{SubConfigs} (cfg : LearnerConfig) :
  overfit_mode cfg = false -> test_mode cfg = false ->
  LearnerConfig_update cfg = propagate cfg.
Proof.
  intros Ho Ht.
  unfold LearnerConfig_update, Config_update, st_bind, st_get, st_ret,
    st_modify, propagate.
  simpl. rewrite Ho, Ht. reflexivity.
Qed.

(** C2.  With [overfit_mode] and [test_mode] both set, [update] does not
    come to an end: after halving [data.img_sz] it reads
    [self.solver.test_overfit_num_steps], which no [SolverConfig] has, and
    the [AttributeError] leaves [overfit_num_steps], [num_epochs],
    [batch_sz] and [num_workers] as they were and the sub-configs without
    their [update]. *)
Theorem update_overfit_and_test_mode `{SubConfigs} (cfg : LearnerConfig)
    (Hoverfit : overfit_mode cfg = true) (Htest : test_mode cfg = true) :
  LearnerConfig_update cfg =
    (Raise (AttributeError "test_overfit_num_steps"),
     set_data (set_img_sz (img_sz (learner_data cfg) `div` 2)) cfg).
Proof.
  unfold LearnerConfig_update, Config_update, assign_overfit_num_steps,
    st_bind, st_get, st_ret, st_modify, st_lift.
  simpl. rewrite Hoverfit, Htest. simpl. reflexivity.
Qed.

Lemma update_overfit_and_test_mode_witness :
  (@LearnerConfig_update pass_sub_configs (learner true true)).1
    = Raise (AttributeError "test_overfit_num_steps")
  /\ num_workers
       (learner_data (@LearnerConfig_update pass_sub_configs (learner true true)).2)
     = 4
  /\ img_sz
       (learner_data (@LearnerConfig_update pass_sub_configs (learner true true)).2)
     = 128.
Proof.
  rewrite (@update_overfit_and_test_mode pass_sub_configs (learner true true)
             eq_refl eq_refl).
  repeat split.
Defined.

(** ** The classification task *)

(** The loop that appends the windows it keeps is a filter. *)
Lemma foldl_append_filter {A : Type} (keep : A -> bool) (xs acc : list A) :
  foldl (fun ws w => if keep w then ws ++ [w] else ws) acc xs
  = acc ++ filter (fun w => keep w = true) xs.
Proof.
  revert acc. induction xs as [| x xs IH]; intros acc; simpl.
  - by rewrite app_nil_r.
  - rewrite IH, filter_cons. destruct (keep x) eqn:Hx.
    + rewrite decide_True by done. by rewrite <- app_assoc.
    + rewrite decide_False by done. done.
Qed.

Lemma np_sum_nonneg (xs : list Z) : Forall (fun v => 0 <= v) xs -> 0 <= np_sum xs.
Proof. induction 1 as [| x xs Hx _ IH]; simpl; lia. Qed.

Lemma train_windows_positive_sum `{BoxOps} (scene : SceneObj)
    (options : TaskOptions) :
  get_train_windows scene options =
    filter (fun window =>
              0 < np_sum (ravel (get_chip (raster_source scene) window)))
           (get_windows (get_extent (raster_source scene))
                        (chip_size options) (chip_size options)).
Proof.
  unfold get_train_windows.
  rewrite (foldl_append_filter
             (fun w => 0 <? np_sum (ravel (get_chip (raster_source scene) w)))).
  simpl. apply list_filter_iff. intros w. apply Z.ltb_lt.
Qed.

(** C8, as stated, fails: a cell whose chip sums to a negative number does
    not sum to zero, and [get_train_windows] leaves it out. *)
Lemma train_windows_drop_negative_sum :
  @get_train_windows grid_boxes signed_scene one_pixel_chips
    = [make_square 0 0 1; make_square 1 1 1]
  /\ @train_windows_nonzero_sum grid_boxes signed_scene one_pixel_chips
     = [make_square 0 0 1; make_square 1 0 1; make_square 1 1 1]
  /\ np_sum (ravel (read_chip (make_square 1 0 1))) = -3
  /\ @get_train_windows grid_boxes signed_scene one_pixel_chips
     <> @train_windows_nonzero_sum grid_boxes signed_scene one_pixel_chips.
Proof. repeat split; try reflexivity. by vm_compute. Qed.

(** C8, amended.  [get_train_windows] returns, in order, the cells of the
    tiling [get_windows(chip_size, chip_size)] of the extent whose chip has a
    positive sum; [get_predict_windows] returns that tiling with no
    filtering; and where no pixel value is negative, the cells kept for
    training are the cells whose chip does not sum to zero. *)
Theorem classification_windows `{BoxOps} (scene : SceneObj)
    (options : TaskOptions) :
  let extent := get_extent (raster_source scene) in
  let tiling := get_windows extent (chip_size options) (chip_size options) in
  get_train_windows scene options =
    filter (fun window =>
              0 < np_sum (ravel (get_chip (raster_source scene) window)))
           tiling
  /\ (forall extent',
        get_predict_windows extent' options
        = get_windows extent' (chip_size options) (chip_size options))
  /\ get_predict_windows extent options = tiling
  /\ get_train_windows scene options ⊆ get_predict_windows extent options
  /\ (nonneg_pixels scene ->
      get_train_windows scene options = train_windows_nonzero_sum scene options).
Proof.
  intros extent tiling. subst extent tiling.
  split; [apply train_windows_positive_sum |].
  split; [done |]. split; [done |]. split.
  - rewrite train_windows_positive_sum. unfold get_predict_windows.
    intros w Hw. by apply list_elem_of_filter in Hw as [_ ?].
  - intros Hpix. rewrite train_windows_positive_sum.
    unfold train_windows_nonzero_sum. apply list_filter_iff. intros w.
    pose proof (np_sum_nonneg _ (Hpix w)). lia.
Qed.

Lemma classification_windows_witness :
  @get_train_windows grid_boxes row_scene one_pixel_chips
    = @train_windows_nonzero_sum grid_boxes row_scene one_pixel_chips
  /\ @get_train_windows grid_boxes row_scene one_pixel_chips
     = [make_square 1 0 1; make_square 1 1 1].
Proof.
  split; [| reflexivity].
  apply (@classification_windows grid_boxes row_scene one_pixel_chips).
  intros w. simpl. constructor; [lia | constructor].
Defined.

(** *** The tiling modelled from the design document *)

Lemma elem_of_range_step (stop step x : Z) :
  x ∈ range_step stop step <->
  0 < step /\ exists k, 0 <= k /\ k * step < stop /\ x = k * step.
Proof.
  unfold range_step. destruct (Z.leb_spec step 0) as [Hs | Hs].
  - split; [by intros ?%elem_of_nil | lia].
  - rewrite list_elem_of_fmap. split.
    + intros (k & -> & Hk). apply elem_of_range in Hk. split; [done |].
      exists k. split; [lia |]. split; [| done].
      assert (k + 1 <= (stop + step - 1) `div` step) as Hle by lia.
      pose proof (Z.mul_div_le (stop + step - 1) step Hs). nia.
    + intros (_ & k & Hk0 & Hk & ->). exists k. split; [done |].
      apply elem_of_range. split; [done |].
      assert (k + 1 <= (stop + step - 1) `div` step) as Hle
        by (apply Z.div_le_lower_bound; nia).
      lia.
Qed.

Lemma elem_of_grid_get_windows (b w : GridBox) (chip_size stride : Z) :
  w ∈ grid_get_windows b chip_size stride <->
  0 < stride /\ exists i j,
    0 <= i /\ i * stride < ymax b - ymin b /\
    0 <= j /\ j * stride < xmax b - xmin b /\
    w = make_square (i * stride) (j * stride) chip_size.
Proof.
  unfold grid_get_windows. rewrite list_elem_of_bind. split.
  - intros (r & Hw & Hr). apply list_elem_of_bind in Hw as (c & Hw & Hc).
    apply list_elem_of_singleton in Hw as ->.
    apply elem_of_range_step in Hr as (Hs & i & ? & ? & ->).
    apply elem_of_range_step in Hc as (_ & j & ? & ? & ->).
    split; [done |]. by exists i, j.
  - intros (Hs & i & j & ? & ? & ? & ? & ->).
    exists (i * stride). split.
    + apply list_elem_of_bind. exists (j * stride). split.
      * by apply list_elem_of_singleton.
      * apply elem_of_range_step. split; [done |]. by exists j.
    + apply elem_of_range_step. split; [done |]. by exists i.
Qed.

(** With the stride equal to the chip size, the windows are squares of that
    side, no two of them overlap, and each pixel of the extent, counted from
    its corner, lies in one of them. *)
Lemma grid_tiling (b : GridBox) (chip_size : Z) :
  let tiling := grid_get_windows b chip_size chip_size in
  (forall w, w ∈ tiling ->
     ymax w - ymin w = chip_size /\ xmax w - xmin w = chip_size)
  /\ (forall w w', w ∈ tiling -> w' ∈ tiling -> overlap w w' -> w = w')
  /\ (forall y x, 0 < chip_size ->
        0 <= y < ymax b - ymin b -> 0 <= x < xmax b - xmin b ->
        exists w, w ∈ tiling /\ covers w y x).
Proof.
  intros tiling. subst tiling. split; [| split].
  - intros w Hw.
    apply elem_of_grid_get_windows in Hw as (_ & i & j & _ & _ & _ & _ & ->).
    simpl. lia.
  - intros w w' Hw Hw'.
    apply elem_of_grid_get_windows in Hw as (Hs & i & j & _ & _ & _ & _ & ->).
    apply elem_of_grid_get_windows in Hw' as (_ & i' & j' & _ & _ & _ & _ & ->).
    unfold overlap. simpl. intros (? & ? & ? & ?).
    assert (i = i') as -> by nia. assert (j = j') as -> by nia. done.
  - intros y x Hs Hy Hx.
    exists (make_square (y `div` chip_size * chip_size)
                        (x `div` chip_size * chip_size) chip_size).
    pose proof (Z.mul_div_le y chip_size Hs).
    pose proof (Z.mul_div_le x chip_size Hs).
    pose proof (Z.mul_succ_div_gt y chip_size Hs).
    pose proof (Z.mul_succ_div_gt x chip_size Hs).
    split.
    + apply elem_of_grid_get_windows. split; [done |].
      exists (y `div` chip_size), (x `div` chip_size).
      repeat split; try (apply Z.div_pos; lia); try lia.
    + unfold covers. simpl. lia.
Qed.

(** ** ImageDataConfig.build *)

(** What a loop that ran to its end has collected. *)
Lemma st_for_OK {S A B : Type} (body : A -> ST S B) (xs : list A) (ys : list B)
    (s s' : S) :
  st_for xs body s = (OK ys, s') ->
  Forall2 (fun x y => exists s0 s1, body x s0 = (OK y, s1)) xs ys.
Proof.
  revert ys s s'. induction xs as [| x xs IH]; intros ys s s'; simpl.
  - unfold st_ret. intros [= <- _]. constructor.
  - unfold st_bind at 1. destruct (body x s) as [[y|e] s1] eqn:Hx; [| done].
    unfold st_bind at 1. destruct (st_for xs body s1) as [[ys'|e] s2] eqn:Hxs;
      [| done].
    unfold st_ret. intros [= <- _]. constructor; [by eauto | by eapply IH].
Qed.

Lemma res_for_OK {A B : Type} (body : A -> res B) (xs : list A) (ys : list B) :
  res_for xs body = OK ys -> Forall2 (fun x y => body x = OK y) xs ys.
Proof.
  revert ys. induction xs as [| x xs IH]; intros ys; cbn [res_for].
  - intros [= <-]. constructor.
  - destruct (body x) as [y|e] eqn:Hx; cbn [res_bind]; [| done].
    destruct (res_for xs body) as [ys'|e]; cbn [res_bind]; [| done].
    intros [= <-]. constructor; [done | by apply IH].
Qed.

Lemma group_datasets_result `{PyRandom} `{ImageDataEnv} (self : ImageDataConfig)
    (tmp_dir : string) (overfit_mode test_mode : bool) (us : uri_t * group_size)
    (dss : Dataset * Dataset * Dataset) (g0 g1 : rng) :
  group_datasets self tmp_dir overfit_mode test_mode us g0 = (OK dss, g1) ->
  group_result self tmp_dir overfit_mode test_mode us dss.
Proof.
  destruct us as [u sz]. unfold group_datasets, group_result, st_bind, st_lift.
  destruct (get_datasets_from_uri _ _ _ _ _) as [[[tr va] te]|e]; [| done].
  destruct (cap_group tr sz g0) as [[tr'|e] g'] eqn:Hcap; [| done].
  unfold st_ret. intros [= <- <-]. exists tr. split; [done |].
  destruct sz; simpl in *.
  - unfold st_ret in Hcap. by injection Hcap as <- _.
  - by exists g0, g'.
  - by exists g0, g'.
Qed.

Lemma new_ConcatDataset_OK (datasets : list Dataset) (ds : Dataset) :
  new_ConcatDataset datasets = OK ds -> ds = ConcatDataset datasets.
Proof. destruct datasets; simpl; [done |]. by intros [= <-]. Qed.

(** The per-group caps come before the concatenation. *)
Lemma group_caps_before_concat `{PyRandom} `{ImageDataEnv}
    (self : ImageDataConfig) (uris : list uri_t) (tmp_dir : string)
    (group_train_sz : option (one_or_many Z))
    (group_train_sz_rel : option (one_or_many float))
    (overfit_mode test_mode : bool) (g g' : rng)
    (train_ds valid_ds test_ds : Dataset) :
  get_datasets_from_group_uris self uris tmp_dir group_train_sz
    group_train_sz_rel overfit_mode test_mode g
  = (OK (train_ds, valid_ds, test_ds), g') ->
  exists per_group,
    Forall2 (group_result self tmp_dir overfit_mode test_mode)
      (zip uris (group_sizes_of (length uris) group_train_sz group_train_sz_rel))
      per_group
    /\ train_ds = ConcatDataset ((fun t => t.1.1) <$> per_group)
    /\ valid_ds = ConcatDataset ((fun t => t.1.2) <$> per_group)
    /\ test_ds = ConcatDataset (snd <$> per_group).
Proof.
  unfold get_datasets_from_group_uris, st_bind at 1.
  destruct (st_for _ _ g) as [[per_group|e] g1] eqn:Hloop; [| done].
  unfold st_bind, st_lift, st_ret.
  destruct (new_ConcatDataset ((fun t => t.1.1) <$> per_group)) as [tr|e] eqn:Htr;
    [| done].
  destruct (new_ConcatDataset ((fun t => t.1.2) <$> per_group)) as [va|e] eqn:Hva;
    [| done].
  destruct (new_ConcatDataset (snd <$> per_group)) as [te|e] eqn:Hte; [| done].
  intros [= <- <- <- _].
  apply new_ConcatDataset_OK in Htr as ->, Hva as ->, Hte as ->.
  exists per_group. split; [| done].
  apply st_for_OK in Hloop.
  eapply Forall2_impl; [exact Hloop |].
  intros us dss (g0 & g1' & Hbody). by eapply group_datasets_result.
Qed.

Lemma length_group_sizes_None (n : nat) :
  length (group_sizes_of n None None) = n.
Proof. apply length_replicate. Qed.

Lemma zip_replicate_r {A B : Type} (xs : list A) (b : B) :
  zip xs (replicate (length xs) b) = (fun x => (x, b)) <$> xs.
Proof. induction xs as [| x xs IH]; simpl; [done |]. by rewrite IH. Qed.

(** A loop whose body leaves the state alone leaves it alone. *)
Lemma st_for_pure {S A B : Type} (body : A -> ST S B) (f : A -> res B)
    (xs : list A) (s : S) :
  Forall (fun x => forall s0, body x s0 = (f x, s0)) xs ->
  st_for xs body s = (res_for xs f, s).
Proof.
  induction 1 as [| x xs Hx _ IH]; cbn [st_for res_for]; [done |].
  unfold st_bind at 1. rewrite Hx.
  destruct (f x) as [y|e]; cbn [res_bind]; [| done].
  unfold st_bind at 1. rewrite IH.
  by destruct (res_for xs f).
Qed.

(** With no size given for any group, the grouped datasets are those of the
    URIs as they are, and the generator is not touched. *)
Lemma groups_uncapped `{PyRandom} `{ImageDataEnv} (self : ImageDataConfig)
    (uris : list uri_t) (tmp_dir : string) (overfit_mode test_mode : bool)
    (g g' : rng) (train_ds valid_ds test_ds : Dataset) :
  get_datasets_from_group_uris self uris tmp_dir None None
    overfit_mode test_mode g
  = (OK (train_ds, valid_ds, test_ds), g') ->
  g' = g
  /\ exists per_group,
       Forall2 (fun u dss =>
                  get_datasets_from_uri self (Some u) tmp_dir overfit_mode test_mode
                  = OK dss) uris per_group
       /\ train_ds = ConcatDataset ((fun t => t.1.1) <$> per_group)
       /\ valid_ds = ConcatDataset ((fun t => t.1.2) <$> per_group)
       /\ test_ds = ConcatDataset (snd <$> per_group).
Proof.
  unfold get_datasets_from_group_uris, st_bind at 1.
  change (group_sizes_of (length uris) None None)
    with (replicate (length uris) SizeNone).
  rewrite zip_replicate_r.
  rewrite (st_for_pure _
             (fun us => get_datasets_from_uri self (Some us.1) tmp_dir
                          overfit_mode test_mode)).
  2:{ apply Forall_fmap, Forall_forall. intros u _ s0. simpl.
      unfold group_datasets, st_bind, st_lift. simpl.
      by destruct (get_datasets_from_uri _ _ _ _ _) as [[[tr va] te]|e]. }
  destruct (res_for _ _) as [per_group|e] eqn:Hloop; [| done].
  unfold st_bind, st_lift, st_ret.
  destruct (new_ConcatDataset ((fun t => t.1.1) <$> per_group)) as [tr|e] eqn:Htr;
    [| done].
  destruct (new_ConcatDataset ((fun t => t.1.2) <$> per_group)) as [va|e] eqn:Hva;
    [| done].
  destruct (new_ConcatDataset (snd <$> per_group)) as [te|e] eqn:Hte; [| done].
  intros [= <- <- <- <-].
  apply new_ConcatDataset_OK in Htr as ->, Hva as ->, Hte as ->.
  split; [done |]. exists per_group. split; [| done].
  apply res_for_OK in Hloop. by apply Forall2_fmap_l in Hloop.
Qed.

(** The grouped path of [build]: the datasets of the groups, then the
    overall cap on the concatenated training set. *)
Lemma image_build_grouped `{PyRandom} `{ImageDataEnv} (self : ImageDataConfig)
    (uris : list uri_t) (tmp_dir : string) (overfit_mode test_mode : bool)
    (g : rng) :
  group_uris self = Some uris ->
  ImageDataConfig_build self tmp_dir overfit_mode test_mode g =
    match get_datasets_from_group_uris self uris tmp_dir None None
            overfit_mode test_mode g with
    | (OK (train_ds, valid_ds, test_ds), g1) =>
        match random_subset_dataset train_ds (train_sz (data self))
                (train_sz_rel (data self)) g1 with
        | (OK train_ds', g2) => (OK (train_ds', valid_ds, test_ds), g2)
        | (Raise e, g2) => (Raise e, g2)
        end
    | (Raise e, g1) => (Raise e, g1)
    end.
Proof.
  intros Hg. unfold ImageDataConfig_build. rewrite Hg. unfold st_bind at 1.
  destruct (get_datasets_from_group_uris _ _ _ _ _ _ _ g)
    as [[[[tr va] te]|e] g1]; [| done].
  unfold st_bind. by rewrite guarded_cap.
Qed.

(** C1, as stated, fails.  With [group_uris] set, [build] hands no group
    size to [get_datasets_from_group_uris], so no group is capped, and it
    applies the overall cap to the concatenated training set; with
    [group_uris] unset it returns what [get_datasets_from_uri] gives, with
    no overall cap. *)
Lemma image_build_not_as_worded :
  ((@ImageDataConfig_build lcg_random memory_fs grouped_cfg "/tmp" false false 5).1
   = OK (ConcatDataset [ConcatDataset [SourceDataset "/data/a/train" 10];
                        ConcatDataset [SourceDataset "/data/b/train" 4]],
         ConcatDataset [ConcatDataset [SourceDataset "/data/a/valid" 2];
                        ConcatDataset [SourceDataset "/data/b/valid" 2]],
         ConcatDataset [ConcatDataset [EmptyList]; ConcatDataset [EmptyList]])
   /\ @ImageDataConfig_build lcg_random memory_fs grouped_cfg "/tmp" false false 5
      <> @ImageDataConfig_build_as_worded lcg_random memory_fs grouped_cfg
           "/tmp" false false 5)
  /\ ((@ImageDataConfig_build lcg_random memory_fs grouped_capped_cfg
         "/tmp" false false 5).1
      = OK (Subset
              (ConcatDataset [ConcatDataset [SourceDataset "/data/a/train" 10];
                              ConcatDataset [SourceDataset "/data/b/train" 4]])
              [0; 4; 10],
            ConcatDataset [ConcatDataset [SourceDataset "/data/a/valid" 2];
                           ConcatDataset [SourceDataset "/data/b/valid" 2]],
            ConcatDataset [ConcatDataset [EmptyList]; ConcatDataset [EmptyList]])
      /\ @ImageDataConfig_build lcg_random memory_fs grouped_capped_cfg
           "/tmp" false false 5
         <> @ImageDataConfig_build_as_worded lcg_random memory_fs
              grouped_capped_cfg "/tmp" false false 5)
  /\ ((@ImageDataConfig_build lcg_random memory_fs single_capped_cfg
         "/tmp" false false 5).1
      = OK (ConcatDataset [SourceDataset "/data/a/train" 10],
            ConcatDataset [SourceDataset "/data/a/valid" 2],
            ConcatDataset [EmptyList])
      /\ @ImageDataConfig_build lcg_random memory_fs single_capped_cfg
           "/tmp" false false 5
         <> @ImageDataConfig_build_as_worded lcg_random memory_fs
              single_capped_cfg "/tmp" false false 5).
Proof.
  repeat split; try (vm_compute; reflexivity);
    intros Heq; vm_compute in Heq; discriminate Heq.
Qed.

(** C1, amended.  In [get_datasets_from_group_uris] the size given for a
    group (one value for all groups or one for each) is applied by
    [random_subset_dataset] to the training dataset of that group's own URI,
    the validation and test datasets of the group are left as they are, and
    the datasets of the groups are then concatenated, in order.  In [build]
    with [group_uris] set, the training set is the concatenation of the
    training datasets of the groups, in order, with the overall cap
    [train_sz] / [train_sz_rel] applied to it by [random_subset_dataset]: as
    it is when neither is set, a [Subset] of it when [train_sz] is; the
    validation and test sets are the concatenations of those of the
    groups. *)
Theorem image_build_group_caps `{PyRandom} `{ImageDataEnv}
    (self : ImageDataConfig) (tmp_dir : string) (overfit_mode test_mode : bool)
    (g : rng) :
  (forall uris group_train_sz group_train_sz_rel train_ds valid_ds test_ds g',
     get_datasets_from_group_uris self uris tmp_dir group_train_sz
       group_train_sz_rel overfit_mode test_mode g
     = (OK (train_ds, valid_ds, test_ds), g') ->
     exists per_group,
       Forall2 (group_result self tmp_dir overfit_mode test_mode)
         (zip uris (group_sizes_of (length uris) group_train_sz
                      group_train_sz_rel))
         per_group
       /\ train_ds = ConcatDataset ((fun t => t.1.1) <$> per_group)
       /\ valid_ds = ConcatDataset ((fun t => t.1.2) <$> per_group)
       /\ test_ds = ConcatDataset (snd <$> per_group))
  /\ (forall n_uris : nat,
        (forall n sizes_rel,
           group_sizes_of n_uris (Some (One n)) sizes_rel
           = replicate n_uris (SizeInt n))
        /\ (forall l sizes_rel,
              group_sizes_of n_uris (Some (Many l)) sizes_rel = SizeInt <$> l)
        /\ (forall x,
              group_sizes_of n_uris None (Some (One x))
              = replicate n_uris (SizeFloat x))
        /\ (forall l,
              group_sizes_of n_uris None (Some (Many l)) = SizeFloat <$> l)
        /\ group_sizes_of n_uris None None = replicate n_uris SizeNone)
  /\ (forall uris train_ds valid_ds test_ds g',
        group_uris self = Some uris ->
        ImageDataConfig_build self tmp_dir overfit_mode test_mode g
        = (OK (train_ds, valid_ds, test_ds), g') ->
        exists per_group,
          Forall2 (fun u dss =>
                     get_datasets_from_uri self (Some u) tmp_dir
                       overfit_mode test_mode = OK dss)
            uris per_group
          /\ random_subset_dataset
               (ConcatDataset ((fun t => t.1.1) <$> per_group))
               (train_sz (data self)) (train_sz_rel (data self)) g
             = (OK train_ds, g')
          /\ valid_ds = ConcatDataset ((fun t => t.1.2) <$> per_group)
          /\ test_ds = ConcatDataset (snd <$> per_group)
          /\ (train_sz (data self) = None -> train_sz_rel (data self) = None ->
              train_ds = ConcatDataset ((fun t => t.1.1) <$> per_group)
              /\ g' = g)
          /\ (forall n, train_sz (data self) = Some n ->
                        train_sz_rel (data self) = None ->
              exists inds,
                train_ds
                = Subset (ConcatDataset ((fun t => t.1.1) <$> per_group)) inds)).
Proof.
  split; [| split].
  - intros uris gsz grel tr va te g'. apply group_caps_before_concat.
  - intros n_uris. repeat split.
  - intros uris tr va te g' Hg. rewrite (image_build_grouped self uris) by done.
    destruct (get_datasets_from_group_uris _ _ _ _ _ _ _ g)
      as [[[[tr0 va0] te0]|e] g1] eqn:Hgroups; [| done].
    apply groups_uncapped in Hgroups
      as (-> & per_group & Hall & -> & -> & ->).
    destruct (random_subset_dataset _ _ _ g) as [[tr1|e] g2] eqn:Hcap;
      [| done].
    intros [= <- <- <- <-].
    exists per_group. split; [done |]. split; [done |].
    split; [done |]. split; [done |]. split.
    + intros Hsz Hrel. rewrite Hsz, Hrel in Hcap.
      rewrite random_subset_dataset_None in Hcap. by injection Hcap as <- <-.
    + intros n Hsz Hrel. rewrite Hsz, Hrel, random_subset_dataset_size in Hcap.
      cbv zeta in Hcap.
      destruct (shuffle_OK (range (len (ConcatDataset ((fun t => t.1.1) <$> per_group))))
                  (seed 1234)) as (inds & Hsh & _).
      rewrite Hsh in Hcap. injection Hcap as <- _. by eexists.
Qed.

Lemma image_build_group_caps_witness :
  (exists per_group g',
     Forall2 (@group_result lcg_random memory_fs grouped_cfg "/tmp" false false)
       [(UriStr "/data/a", SizeInt 3); (UriStr "/data/b", SizeInt 1)] per_group
     /\ @get_datasets_from_group_uris lcg_random memory_fs grouped_cfg
          [UriStr "/data/a"; UriStr "/data/b"] "/tmp" (Some (Many [3; 1])) None
          false false 5
        = (OK (ConcatDataset ((fun t => t.1.1) <$> per_group),
               ConcatDataset ((fun t => t.1.2) <$> per_group),
               ConcatDataset (snd <$> per_group)), g')
     /\ (fun t => t.1.1) <$> per_group
        = [Subset (ConcatDataset [SourceDataset "/data/a/train" 10]) [4; 2; 5];
           Subset (ConcatDataset [SourceDataset "/data/b/train" 4]) [2]])
  /\ (exists per_group inds,
        Forall2 (fun u dss =>
                   @get_datasets_from_uri memory_fs grouped_capped_cfg (Some u)
                     "/tmp" false false = OK dss)
          [UriStr "/data/a"; UriStr "/data/b"] per_group
        /\ (@ImageDataConfig_build lcg_random memory_fs grouped_capped_cfg
              "/tmp" false false 5).1
           = OK (Subset (ConcatDataset ((fun t => t.1.1) <$> per_group)) inds,
                 ConcatDataset ((fun t => t.1.2) <$> per_group),
                 ConcatDataset (snd <$> per_group))
        /\ (fun t => t.1.1) <$> per_group
           = [ConcatDataset [SourceDataset "/data/a/train" 10];
              ConcatDataset [SourceDataset "/data/b/train" 4]]
        /\ inds = [0; 4; 10]).
Proof.
  split.
  - destruct (@image_build_group_caps lcg_random memory_fs grouped_cfg
                "/tmp" false false 5) as [Hgroups _].
    destruct (@get_datasets_from_group_uris lcg_random memory_fs grouped_cfg
                [UriStr "/data/a"; UriStr "/data/b"] "/tmp" (Some (Many [3; 1]))
                None false false 5) as [[[[tr va] te]|e] g'] eqn:Hres;
      [| vm_compute in Hres; discriminate Hres].
    destruct (Hgroups _ _ _ _ _ _ _ Hres) as (per_group & Hall & -> & -> & ->).
    exists per_group, g'. split; [exact Hall |]. split; [reflexivity |].
    vm_compute in Hres. by injection Hres as -> _ _ _.
  - destruct (@image_build_group_caps lcg_random memory_fs grouped_capped_cfg
                "/tmp" false false 5) as (_ & _ & Hbuild).
    destruct (@ImageDataConfig_build lcg_random memory_fs grouped_capped_cfg
                "/tmp" false false 5) as [[[[tr va] te]|e] g'] eqn:Hres;
      [| vm_compute in Hres; discriminate Hres].
    destruct (Hbuild [UriStr "/data/a"; UriStr "/data/b"] tr va te g'
                eq_refl eq_refl)
      as (per_group & Hall & _ & -> & -> & _ & Hsub).
    destruct (Hsub 3 eq_refl eq_refl) as [inds ->].
    exists per_group, inds. split; [exact Hall |]. split; [reflexivity |].
    vm_compute in Hres. by injection Hres as -> -> _ _ _.
Defined.

(** * Further properties of the two files *)

(** ** ExternalModuleConfig.validate_config *)

(** X1.  [validate_config] accepts an [ExternalModuleConfig] exactly when
    one of [uri] and [github_repo] is set and the other is not; with both or
    neither it raises the configuration error of the source. *)
Theorem external_module_one_source (self : ExternalModuleConfig) :
  (ExternalModuleConfig_validate_config self = OK tt <->
     (is_Some (ext_uri self) /\ github_repo self = None)
     \/ (ext_uri self = None /\ is_Some (github_repo self)))
  /\ (ExternalModuleConfig_validate_config self <> OK tt ->
      ExternalModuleConfig_validate_config self
      = Raise (ConfigError "Must specify one of github_repo and uri.")).
Proof.
  unfold ExternalModuleConfig_validate_config.
  destruct (ext_uri self) as [u|], (github_repo self) as [r|]; simpl.
  - split; [| done]. split; [done |]. by intros [[_ ?] | [? _]].
  - split; [| done]. split; [intros _; left; by split | done].
  - split; [| done]. split; [intros _; right; by split | done].
  - split; [| done]. split; [done |]. by intros [[[? ?] _] | [_ [? ?]]].
Qed.

(** ** The upgraders *)

Lemma name_inj : Inj (=) (=) Backbone.name.
Proof. intros a b Hab. destruct a; destruct b; (done || discriminate Hab). Qed.

Lemma member_names_NoDup : NoDup (Backbone.name <$> Backbone.members).
Proof. apply (bool_decide_unpack _). by vm_compute. Qed.

Lemma int_to_str_place (x : Z) (s : string) :
  Backbone.int_to_str (VInt x) = OK s ->
  1 <= x <= 35
  /\ Backbone.name <$> (Backbone.members !! Z.to_nat (x - 1)) = Some s.
Proof.
  rewrite int_to_str_VInt.
  destruct (Backbone.mapping !! x) as [s'|] eqn:Hx; [| done].
  intros [= <-]. by apply mapping_entry_place.
Qed.

Lemma int_to_str_member (v : value) (s : string) :
  Backbone.int_to_str v = OK s -> exists b, Backbone.name b = s.
Proof.
  intros Hv.
  assert (exists x, Backbone.int_to_str (VInt x) = OK s) as [x Hx].
  { destruct v as [| [|] | z | s'].
    - discriminate Hv.
    - by exists 1.
    - by exists 0.
    - by exists z.
    - discriminate Hv. }
  apply int_to_str_place in Hx as [_ Hx].
  destruct (Backbone.members !! _) as [b|]; [| done].
  exists b. by injection Hx.
Qed.

(** X3.  The keys of the table follow the order of the enumeration: key
    [i + 1] gives the name of the member at place [i]; so no two keys give
    one name, and every name the table gives is the name of a member. *)
Theorem int_to_str_enumeration :
  (forall (i : nat) (b : Backbone.t),
     Backbone.members !! i = Some b ->
     Backbone.int_to_str (VInt (Z.of_nat i + 1)) = OK (Backbone.name b))
  /\ (forall x y s,
        Backbone.int_to_str (VInt x) = OK s ->
        Backbone.int_to_str (VInt y) = OK s -> x = y)
  /\ (forall v s,
        Backbone.int_to_str v = OK s -> exists b, Backbone.name b = s).
Proof.
  split; [| split].
  - intros i b Hi.
    assert (i < 35)%nat as Hlt by (apply lookup_lt_Some in Hi; exact Hi).
    destruct (mapping_lookup_range (Z.of_nat i + 1)) as [_ Hsome].
    destruct Hsome as [s Hs]; [lia |].
    rewrite int_to_str_VInt, Hs. f_equal.
    apply mapping_entry_place in Hs as [_ Hs].
    replace (Z.to_nat (Z.of_nat i + 1 - 1)) with i in Hs by lia.
    rewrite Hi in Hs. by injection Hs.
  - intros x y s Hx Hy.
    apply int_to_str_place in Hx as [Hxr Hx].
    apply int_to_str_place in Hy as [Hyr Hy].
    rewrite <- list_lookup_fmap in Hx, Hy.
    pose proof (NoDup_lookup _ _ _ _ member_names_NoDup Hx Hy). lia.
  - apply int_to_str_member.
Qed.

(** X2.  [model_config_upgrader] leaves a configuration of any version but
    0 as it is.  At version 0 it raises [KeyError] when there is no
    [backbone] entry or when the stored integer is not a key of the table;
    when it returns, [backbone] holds the name of a member of the
    enumeration and every other entry is kept; and what it returns cannot be
    upgraded from version 0 a second time. *)
Theorem model_config_upgrader_cases (cfg_dict : gmap string value) :
  (forall version, version <> 0 ->
     model_config_upgrader cfg_dict version = OK cfg_dict)
  /\ (cfg_dict !! "backbone"%string = None ->
      model_config_upgrader cfg_dict 0 = Raise (KeyError "'backbone'"))
  /\ (forall x, cfg_dict !! "backbone"%string = Some (VInt x) ->
        ~ 1 <= x <= 35 ->
        model_config_upgrader cfg_dict 0 = Raise (KeyError (pretty x)))
  /\ (forall cfg_dict', model_config_upgrader cfg_dict 0 = OK cfg_dict' ->
        (exists b, cfg_dict' !! "backbone"%string = Some (VStr (Backbone.name b)))
        /\ (forall k, k <> "backbone"%string -> cfg_dict' !! k = cfg_dict !! k)
        /\ raises (model_config_upgrader cfg_dict' 0)).
Proof.
  split; [| split; [| split]].
  - intros version Hv. unfold model_config_upgrader.
    destruct (Z.eqb_spec version 0); done.
  - intros Hnone. unfold model_config_upgrader, getitem. by rewrite Hnone.
  - intros x Hsome Hx. unfold model_config_upgrader, getitem. rewrite Hsome.
    cbn [Z.eqb res_bind]. rewrite int_to_str_VInt.
    destruct (Backbone.mapping !! x) as [s|] eqn:Hs; [| done].
    destruct Hx. apply mapping_lookup_range. by eexists.
  - intros cfg' Hup. unfold model_config_upgrader, getitem in Hup.
    cbn [Z.eqb] in Hup.
    destruct (cfg_dict !! "backbone"%string) as [v|]; [| done].
    cbn [res_bind] in Hup.
    destruct (Backbone.int_to_str v) as [s|e] eqn:Hs; [| done].
    cbn [res_bind] in Hup. injection Hup as <-.
    destruct (int_to_str_member v s Hs) as [b <-]. split; [| split].
    + exists b. apply lookup_insert_eq.
    + intros k Hk. by apply lookup_insert_ne.
    + unfold model_config_upgrader, getitem. rewrite lookup_insert_eq.
      by eexists.
Qed.

Lemma model_config_upgrader_cases_witness :
  model_config_upgrader {["backbone"%string := VInt 13]} 2
    = OK {["backbone"%string := VInt 13]}
  /\ model_config_upgrader ∅ 0 = Raise (KeyError "'backbone'")
  /\ model_config_upgrader {["backbone"%string := VInt 36]} 0
     = Raise (KeyError "36")
  /\ raises (model_config_upgrader {["backbone"%string := VStr "resnet18"]} 0).
Proof.
  split; [| split; [| split]].
  - destruct (model_config_upgrader_cases {["backbone"%string := VInt 13]})
      as [Hid _].
    apply Hid. lia.
  - destruct (model_config_upgrader_cases ∅) as (_ & Hnone & _).
    apply Hnone. reflexivity.
  - destruct (model_config_upgrader_cases {["backbone"%string := VInt 36]})
      as (_ & _ & Hrange & _).
    apply (Hrange 36); [reflexivity | lia].
  - destruct (model_config_upgrader_cases {["backbone"%string := VInt 13]})
      as (_ & _ & _ & Hok).
    destruct (Hok {["backbone"%string := VStr "resnet18"]}) as (_ & _ & Hagain);
      [reflexivity | exact Hagain].
Defined.

(** X4.  [data_config_upgrader] never raises and touches one entry at most:
    below version 2 it sets [type_hint] to ['image_data'] and nothing else;
    at version 2 it makes sure there is an [img_channels] entry, [None] when
    there was none, and changes nothing when there was one; from version 3
    on it changes nothing.  Upgrading its result again at the same version
    gives the same result. *)
Theorem data_config_upgrader_cases (cfg_dict : gmap string value) (version : Z) :
  exists cfg_dict',
    data_config_upgrader cfg_dict version = OK cfg_dict'
    /\ data_config_upgrader cfg_dict' version = OK cfg_dict'
    /\ (version < 2 ->
        cfg_dict' !! "type_hint"%string = Some (VStr "image_data")
        /\ forall k, k <> "type_hint"%string -> cfg_dict' !! k = cfg_dict !! k)
    /\ (version = 2 ->
        cfg_dict' !! "img_channels"%string
        = Some (default VNone (cfg_dict !! "img_channels"%string))
        /\ (is_Some (cfg_dict !! "img_channels"%string) -> cfg_dict' = cfg_dict)
        /\ forall k, k <> "img_channels"%string -> cfg_dict' !! k = cfg_dict !! k)
    /\ (3 <= version -> cfg_dict' = cfg_dict).
Proof.
  unfold data_config_upgrader.
  destruct (Z.ltb_spec version 2) as [Hv | Hv].
  - eexists. split; [done |]. split.
    { by rewrite insert_insert_eq. }
    split; [| split; [lia | lia]]. intros _. split.
    + apply lookup_insert_eq.
    + intros k Hk. by apply lookup_insert_ne.
  - destruct (Z.ltb_spec version 3) as [Hv' | Hv'].
    + eexists. split; [done |]. split.
      { rewrite lookup_insert_eq. simpl. by rewrite insert_insert_eq. }
      split; [lia |]. split; [| lia]. intros _. split; [| split].
      * apply lookup_insert_eq.
      * intros [v Hsome]. rewrite Hsome. simpl. by apply insert_id.
      * intros k Hk. by apply lookup_insert_ne.
    + exists cfg_dict. split; [done |]. split; [done |].
      split; [lia |]. split; [lia | done].
Qed.

(** ** PlotOptions.update *)

Lemma dict_setitem_keys {V : Type} (k : string) (v : V) (d : dict V) :
  (dict_setitem k v d).*1 = if decide (k ∈ d.*1) then d.*1 else d.*1 ++ [k].
Proof.
  induction d as [| [k' v'] d IH]; [done |].
  cbn [dict_setitem]. rewrite fmap_cons. cbn [fst].
  destruct (decide (k' = k)) as [-> | Hne]; rewrite fmap_cons; cbn [fst].
  - rewrite decide_True by (by left). done.
  - rewrite IH. destruct (decide (k ∈ d.*1)) as [Hin | Hnin].
    + rewrite decide_True by (by right). done.
    + rewrite decide_False; [done |].
      intros [? | ?]%elem_of_cons; congruence.
Qed.

Lemma dict_setitem_NoDup {V : Type} (k : string) (v : V) (d : dict V) :
  NoDup d.*1 -> NoDup (dict_setitem k v d).*1.
Proof.
  intros Hnd. rewrite dict_setitem_keys. case_decide; [done |].
  apply NoDup_app. split; [done |]. split; [| apply NoDup_singleton].
  intros x Hx ->%list_elem_of_singleton. done.
Qed.

Lemma dict_setitem_length {V : Type} (k : string) (v : V) (d : dict V) :
  (1 <= length (dict_setitem k v d))%nat
  /\ (length d <= length (dict_setitem k v d))%nat.
Proof.
  induction d as [| [k' v'] d IH]; simpl; [lia |].
  case_decide; simpl; lia.
Qed.

(** A comprehension builds a [dict] with distinct keys, and not an empty one
    from a list that is not empty. *)
Lemma dict_comprehension_wf {A V : Type} (key : A -> string) (val : A -> V)
    (xs : list A) :
  NoDup (dict_comprehension key val xs).*1
  /\ (xs <> [] -> dict_comprehension key val xs <> []).
Proof.
  unfold dict_comprehension.
  assert (forall acc : dict V,
            NoDup acc.*1 ->
            NoDup (foldl (fun d x => dict_setitem (key x) (val x) d) acc xs).*1
            /\ (length acc <= length (foldl (fun d x => dict_setitem (key x) (val x) d) acc xs))%nat
            /\ (xs <> [] ->
                1 <= length (foldl (fun d x => dict_setitem (key x) (val x) d) acc xs))%nat)
    as Hgen.
  { induction xs as [| x xs IH]; intros acc Hacc; simpl.
    - split; [done |]. split; [lia | done].
    - destruct (IH (dict_setitem (key x) (val x) acc)) as (Hnd & Hlen & _).
      { by apply dict_setitem_NoDup. }
      pose proof (dict_setitem_length (key x) (val x) acc).
      split; [done |]. split; lia. }
  destruct (Hgen []) as (Hnd & _ & Hne); [constructor |].
  split; [done |]. intros Hxs Hnil. apply Hne in Hxs. rewrite Hnil in Hxs.
  simpl in Hxs. lia.
Qed.

Lemma groups_to_dict_wf (groups : option channel_groups) (img_channels : Z)
    (d : dict (list Z)) :
  groups_to_dict groups img_channels = OK d -> NoDup d.*1 /\ d <> [].
Proof.
  unfold groups_to_dict. destruct groups as [[d0 | l] |].
  - case_bool_decide as Hlen; [done |]. intros [= <-].
    destruct (dict_comprehension_wf fst snd d0) as [Hnd Hne].
    split; [done |]. apply Hne. by destruct d0.
  - case_bool_decide as Hlen; [done |]. intros [= <-].
    destruct (dict_comprehension_wf channels_label (fun chs => chs) l)
      as [Hnd Hne].
    split; [done |]. apply Hne. by destruct l.
  - intros [= <-]. split; [| done]. apply NoDup_singleton.
Qed.

(** X5.  [PlotOptions.update] does nothing when the data has no
    [img_channels].  Otherwise, when it returns, [channel_display_groups] is
    a mapping that is not empty, has distinct titles and only groups of one
    to three channels below [img_channels], [transform] is untouched, and a
    second [update] changes nothing more; when it raises, the options are
    as they were. *)
Theorem plot_options_update (self : PlotOptions) (img_channels : Z) :
  PlotOptions_update None self = (OK tt, self)
  /\ (forall self',
        PlotOptions_update (Some img_channels) self = (OK tt, self') ->
        (exists groups,
           channel_display_groups self' = Some (GroupsDict groups)
           /\ groups <> [] /\ NoDup groups.*1
           /\ Forall (group_ok img_channels) groups)
        /\ transform self' = transform self
        /\ PlotOptions_update (Some img_channels) self' = (OK tt, self'))
  /\ (forall e self',
        PlotOptions_update (Some img_channels) self = (Raise e, self') ->
        self' = self).
Proof.
  unfold PlotOptions_update, Config_update, st_bind, st_ret, st_get, st_lift,
    st_put.
  split; [done |].
  destruct (validate_and_update_channel_display_groups self img_channels)
    as [groups|e] eqn:Hval.
  - split; [| done]. intros self' [= <-]. simpl.
    apply validate_groups_OK in Hval as [Hd Hok].
    apply groups_to_dict_wf in Hd as [Hnd Hne].
    split; [by exists groups |]. split; [done |].
    assert (validate_and_update_channel_display_groups
              {| transform := transform self;
                 channel_display_groups := Some (GroupsDict groups) |}
              img_channels = OK groups) as ->; [| done].
    apply validate_groups_cases; [| done]. simpl.
    case_bool_decide as Hlen; [by destruct groups |].
    by rewrite dict_copy.
  - split; [done |]. by intros e' self' [= _ <-].
Qed.

Lemma plot_options_update_witness :
  PlotOptions_update (Some 4) (plot (Some (GroupsSeq [[0; 1; 2]; [3]])))
  = (OK tt, plot (Some (GroupsDict [("Channels: [0, 1, 2]"%string, [0; 1; 2]);
                                    ("Channels: [3]"%string, [3])])))
  /\ PlotOptions_update (Some 4)
       (plot (Some (GroupsDict [("Channels: [0, 1, 2]"%string, [0; 1; 2]);
                                ("Channels: [3]"%string, [3])])))
     = (OK tt, plot (Some (GroupsDict [("Channels: [0, 1, 2]"%string, [0; 1; 2]);
                                       ("Channels: [3]"%string, [3])]))).
Proof.
  split; [reflexivity |].
  destruct (plot_options_update (plot (Some (GroupsSeq [[0; 1; 2]; [3]]))) 4)
    as (_ & Hok & _).
  apply Hok. reflexivity.
Defined.

(** ** The subset that [random_subset_dataset] selects *)

Lemma len_nonneg (ds : Dataset) : 0 <= len ds.
Proof.
  revert ds. fix IH 1. intros [name n | | datasets | dataset indices]; simpl.
  - lia.
  - lia.
  - induction datasets as [| d datasets IHd]; simpl; [lia |].
    pose proof (IH d). lia.
  - lia.
Qed.

Lemma range_NoDup (n : Z) : NoDup (range n).
Proof.
  unfold range. apply NoDup_fmap_2; [| apply NoDup_seq].
  intros a b Hab. lia.
Qed.

Lemma slice_to_sublist {A : Type} (xs : list A) (n : Z) :
  slice_to xs n `sublist_of` xs.
Proof. unfold slice_to. case_match; apply sublist_take. Qed.

Lemma length_slice_to {A : Type} (xs : list A) (n : Z) :
  Z.of_nat (length (slice_to xs n)) =
    if 0 <=? n then Z.min n (Z.of_nat (length xs))
    else Z.max 0 (Z.of_nat (length xs) + n).
Proof.
  unfold slice_to. destruct (Z.leb_spec 0 n); rewrite length_take; lia.
Qed.

(** X6.  With a size alone [random_subset_dataset] always returns a
    [Subset] of the dataset it was given: its indices are distinct, each one
    is an index of the dataset, and there are [min(size, len(ds))] of them
    for a size that is not negative (so a size beyond the length selects the
    whole dataset and raises nothing) and [max(0, len(ds) + size)] for a
    negative one. *)
Theorem random_subset_is_valid `{PyRandom} (ds : Dataset) (n : Z) (g : rng) :
  exists inds g',
    random_subset_dataset ds (Some n) None g = (OK (Subset ds inds), g')
    /\ NoDup inds
    /\ (forall i, i ∈ inds -> 0 <= i < len ds)
    /\ len (Subset ds inds)
       = if 0 <=? n then Z.min n (len ds) else Z.max 0 (len ds + n).
Proof.
  rewrite random_subset_dataset_size. cbv zeta.
  destruct (shuffle_OK (range (len ds)) (seed 1234)) as (inds & Hsh & Hp).
  rewrite Hsh. eexists _, _. split; [done |].
  pose proof (slice_to_sublist inds n) as Hpre.
  split; [| split].
  - eapply sublist_NoDup; [| exact Hpre]. rewrite Hp. apply range_NoDup.
  - intros i Hi. apply elem_of_range. rewrite <- Hp.
    eapply elem_of_sublist; [exact Hi | exact Hpre].
  - assert (Z.of_nat (length inds) = len ds) as Hlen.
    { rewrite Hp, length_range. pose proof (len_nonneg ds). lia. }
    simpl. by rewrite length_slice_to, Hlen.
Qed.

(** ** ImageDataConfig: validation of the groups and assembly of the datasets *)

Lemma res_for_Raise {A B : Type} (body : A -> res B) (xs : list A) (e : exn) :
  res_for xs body = Raise e -> exists x, x ∈ xs /\ body x = Raise e.
Proof.
  induction xs as [| x xs IH]; cbn [res_for]; [done |].
  destruct (body x) as [y|e'] eqn:Hx; cbn [res_bind].
  - destruct (res_for xs body) as [ys'|e'']; cbn [res_bind]; [done |].
    intros [= <-]. destruct IH as (x' & Hin & Hx'); [done |].
    exists x'. split; [by right | done].
  - intros [= <-]. exists x. split; [by left | done].
Qed.

Lemma pad_empty_cases (ds_list : list Dataset) :
  pad_empty ds_list <> []
  /\ (ds_list = [] -> pad_empty ds_list = [EmptyList])
  /\ (ds_list <> [] -> pad_empty ds_list = ds_list).
Proof. destruct ds_list; unfold pad_empty; simpl; done. Qed.

Lemma new_ConcatDataset_pad (ds_list : list Dataset) :
  new_ConcatDataset (pad_empty ds_list) = OK (ConcatDataset (pad_empty ds_list)).
Proof. by destruct ds_list. Qed.

(** X7.  [ImageDataConfig.make_datasets] never trips the assertion of
    [ConcatDataset]: whatever it raises was raised by [dir_to_dataset] on
    one of the directories; and when it returns, each of the three datasets
    is the [ConcatDataset] of what [dir_to_dataset] gave for its
    directories, in order, or of the one empty list when there was no
    directory. *)
Theorem image_make_datasets_total `{ImageDataEnv} (self : ImageDataConfig)
    (train_dirs val_dirs test_dirs : list string)
    (train_tf val_tf test_tf : Transform) :
  let result := ImageDataConfig_make_datasets self train_dirs val_dirs
                  test_dirs train_tf val_tf test_tf in
  (forall e, result = Raise e ->
     exists d tf, d ∈ train_dirs ++ val_dirs ++ test_dirs
                  /\ dir_to_dataset self d tf = Raise e)
  /\ (forall train_ds val_ds test_ds,
        result = OK (train_ds, val_ds, test_ds) ->
        exists train_ds_list val_ds_list test_ds_list,
          Forall2 (fun d ds => dir_to_dataset self d train_tf = OK ds)
            train_dirs train_ds_list
          /\ Forall2 (fun d ds => dir_to_dataset self d val_tf = OK ds)
               val_dirs val_ds_list
          /\ Forall2 (fun d ds => dir_to_dataset self d test_tf = OK ds)
               test_dirs test_ds_list
          /\ train_ds = ConcatDataset (pad_empty train_ds_list)
          /\ val_ds = ConcatDataset (pad_empty val_ds_list)
          /\ test_ds = ConcatDataset (pad_empty test_ds_list))
  /\ (train_dirs = [] -> forall train_ds val_ds test_ds,
        result = OK (train_ds, val_ds, test_ds) ->
        train_ds = ConcatDataset [EmptyList] /\ len train_ds = 0).
Proof.
  intros result. subst result. unfold ImageDataConfig_make_datasets.
  destruct (res_for train_dirs _) as [ltr|e1] eqn:Htr; cbn [res_bind].
  2:{ split; [| done]. intros e [= <-].
      apply res_for_Raise in Htr as (d & Hd & He).
      exists d, train_tf. split; [| done]. apply elem_of_app. by left. }
  destruct (res_for val_dirs _) as [lva|e2] eqn:Hva; cbn [res_bind].
  2:{ split; [| done]. intros e [= <-].
      apply res_for_Raise in Hva as (d & Hd & He).
      exists d, val_tf. split; [| done]. rewrite !elem_of_app. auto. }
  destruct (res_for test_dirs _) as [lte|e3] eqn:Hte; cbn [res_bind].
  2:{ split; [| done]. intros e [= <-].
      apply res_for_Raise in Hte as (d & Hd & He).
      exists d, test_tf. split; [| done]. rewrite !elem_of_app. auto. }
  rewrite !new_ConcatDataset_pad. cbn [res_bind].
  apply res_for_OK in Htr, Hva, Hte.
  split; [done |]. split.
  - intros tr va te [= <- <- <-]. by exists ltr, lva, lte.
  - intros -> tr va te [= <- _ _]. apply Forall2_nil_inv_l in Htr as ->.
    done.
Qed.

(** X8.  [validate_group_uris] accepts a configuration exactly when at most
    one of [group_train_sz] and [group_train_sz_rel] is set, none of them
    is set without [group_uris], and one given as a list has as many
    entries as [group_uris]; what it raises otherwise is a configuration
    error. *)
Theorem validate_group_uris_cases (self : ImageDataConfig) :
  (validate_group_uris self = OK tt <-> group_sizes_consistent self)
  /\ (forall e, validate_group_uris self = Raise e ->
        exists msg, e = ConfigError msg).
Proof.
  split.
  - unfold validate_group_uris, group_sizes_consistent.
    destruct (group_train_sz self) as [gs|], (group_train_sz_rel self) as [gr|],
             (group_uris self) as [uris|]; simpl.
    + split; [done |]. intros [Hboth _]. destruct Hboth. by split; eexists.
    + split; [done |]. intros [Hboth _]. destruct Hboth. by split; eexists.
    + destruct gs as [n | l]; simpl.
      * split; [intros _ | done]. repeat split; try done; by intros [? ?].
      * destruct (Nat.eqb_spec (length l) (length uris)) as [Hl | Hl]; simpl.
        -- split; [intros _ | done].
           repeat split; try done; try (by intros [? ?]).
           by intros l' [= <-].
        -- split; [done |]. intros (_ & _ & _ & Hlen & _).
           by specialize (Hlen l eq_refl).
    + split; [done |]. intros (_ & Hsz & _).
      destruct Hsz as [? ?]; [by eexists | done].
    + destruct gr as [x | l]; simpl.
      * split; [intros _ | done]. repeat split; try done; by intros [? ?].
      * destruct (Nat.eqb_spec (length l) (length uris)) as [Hl | Hl]; simpl.
        -- split; [intros _ | done].
           repeat split; try done; try (by intros [? ?]).
           by intros l' [= <-].
        -- split; [done |]. intros (_ & _ & _ & _ & Hlen).
           by specialize (Hlen l eq_refl).
    + split; [done |]. intros (_ & _ & Hrel & _).
      destruct Hrel as [? ?]; [by eexists | done].
    + split; [intros _ | done]. repeat split; try done; by intros [? ?].
    + split; [intros _ | done]. repeat split; try done; by intros [? ?].
  - intros e. unfold validate_group_uris.
    repeat case_match; intros He; simplify_eq; eauto.
Qed.

Lemma group_sizes_of_length (n_uris : nat)
    (group_train_sz : option (one_or_many Z))
    (group_train_sz_rel : option (one_or_many float)) :
  length (group_sizes_of n_uris group_train_sz group_train_sz_rel) =
    match group_train_sz, group_train_sz_rel with
    | Some (Many l), _ => length l
    | None, Some (Many l) => length l
    | _, _ => n_uris
    end.
Proof.
  unfold group_sizes_of.
  destruct group_train_sz as [[n | l] |]; [| | destruct group_train_sz_rel as [[x | l] |]];
    rewrite ?length_replicate, ?length_fmap; done.
Qed.

(** The three lists of a grouped build have one dataset for each pair of
    the [zip]. *)
Lemma group_datasets_count `{PyRandom} `{ImageDataEnv}
    (self : ImageDataConfig) (uris : list uri_t) (tmp_dir : string)
    (group_train_sz : option (one_or_many Z))
    (group_train_sz_rel : option (one_or_many float))
    (overfit_mode test_mode : bool) (g g' : rng)
    (train_ds valid_ds test_ds : Dataset) :
  get_datasets_from_group_uris self uris tmp_dir group_train_sz
    group_train_sz_rel overfit_mode test_mode g
  = (OK (train_ds, valid_ds, test_ds), g') ->
  exists train_ds_lst valid_ds_lst test_ds_lst,
    train_ds = ConcatDataset train_ds_lst
    /\ valid_ds = ConcatDataset valid_ds_lst
    /\ test_ds = ConcatDataset test_ds_lst
    /\ length train_ds_lst
       = length (zip uris (group_sizes_of (length uris) group_train_sz
                             group_train_sz_rel))
    /\ length valid_ds_lst = length train_ds_lst
    /\ length test_ds_lst = length train_ds_lst
    /\ train_ds_lst <> [].
Proof.
  unfold get_datasets_from_group_uris, st_bind at 1.
  destruct (st_for _ _ g) as [[per_group|e] g1] eqn:Hloop; [| done].
  unfold st_bind, st_lift, st_ret.
  destruct (new_ConcatDataset ((fun t => t.1.1) <$> per_group)) as [tr|e] eqn:Htr;
    [| done].
  destruct (new_ConcatDataset ((fun t => t.1.2) <$> per_group)) as [va|e] eqn:Hva;
    [| done].
  destruct (new_ConcatDataset (snd <$> per_group)) as [te|e] eqn:Hte; [| done].
  intros [= <- <- <- _].
  assert ((fun t : Dataset * Dataset * Dataset => t.1.1) <$> per_group <> [])
    as Hne by (intros Hnil; by rewrite Hnil in Htr).
  apply new_ConcatDataset_OK in Htr as ->, Hva as ->, Hte as ->.
  eexists _, _, _. repeat split; try done.
  - apply st_for_OK, Forall2_length in Hloop. by rewrite length_fmap.
  - by rewrite !length_fmap.
  - by rewrite !length_fmap.
Qed.

(** X9.  When [get_datasets_from_group_uris] returns, each of its three
    datasets concatenates one dataset for each pair of [zip(uris,
    group_sizes)]: as many as there are URIs when the group size is one
    value or is not given, the smaller of the two lengths when it is a
    list, so that a shorter list leaves the last groups out, and at least
    one.  For a configuration that [validate_group_uris] accepts, called
    with its own fields, no group is left out. *)
Theorem group_datasets_per_uri `{PyRandom} `{ImageDataEnv}
    (self : ImageDataConfig) (uris : list uri_t) (tmp_dir : string)
    (sizes : option (one_or_many Z))
    (sizes_rel : option (one_or_many float))
    (overfit_mode test_mode : bool) (g g' : rng)
    (train_ds valid_ds test_ds : Dataset)
    (Hreturns :
       get_datasets_from_group_uris self uris tmp_dir sizes
         sizes_rel overfit_mode test_mode g
       = (OK (train_ds, valid_ds, test_ds), g')) :
  exists train_ds_lst valid_ds_lst test_ds_lst,
    train_ds = ConcatDataset train_ds_lst
    /\ valid_ds = ConcatDataset valid_ds_lst
    /\ test_ds = ConcatDataset test_ds_lst
    /\ length valid_ds_lst = length train_ds_lst
    /\ length test_ds_lst = length train_ds_lst
    /\ (1 <= length train_ds_lst)%nat
    /\ length train_ds_lst =
         match sizes, sizes_rel with
         | Some (Many l), _ => Nat.min (length uris) (length l)
         | None, Some (Many l) => Nat.min (length uris) (length l)
         | _, _ => length uris
         end
    /\ (validate_group_uris self = OK tt ->
        group_uris self = Some uris ->
        sizes = group_train_sz self ->
        sizes_rel = group_train_sz_rel self ->
        length train_ds_lst = length uris).
Proof.
  apply group_datasets_count in Hreturns
    as (ltr & lva & lte & -> & -> & -> & Hlen & Hva & Hte & Hne).
  exists ltr, lva, lte. repeat split; try done.
  - destruct ltr; [done | simpl; lia].
  - rewrite Hlen, length_zip_with, group_sizes_of_length.
    destruct sizes as [[n | l] |];
      [| | destruct sizes_rel as [[x | l] |]]; lia.
  - intros Hvalid Huris -> ->.
    apply validate_group_uris_cases in Hvalid as (_ & _ & _ & Hsz & Hrel).
    rewrite Huris in Hsz, Hrel. simpl in Hsz, Hrel.
    rewrite Hlen, length_zip_with, group_sizes_of_length.
    destruct (group_train_sz self) as [[n | l] |].
    + lia.
    + specialize (Hsz l eq_refl). lia.
    + destruct (group_train_sz_rel self) as [[x | l] |].
      * lia.
      * specialize (Hrel l eq_refl). lia.
      * lia.
Qed.

Lemma group_datasets_per_uri_witness :
  exists train_ds_lst valid_ds test_ds g',
    @get_datasets_from_group_uris lcg_random memory_fs grouped_cfg
      [UriStr "/data/a"; UriStr "/data/b"] "/tmp" (Some (Many [2])) None
      false false 5
    = (OK (ConcatDataset train_ds_lst, valid_ds, test_ds), g')
    /\ length train_ds_lst = 1%nat.
Proof.
  edestruct (@group_datasets_per_uri lcg_random memory_fs grouped_cfg
               [UriStr "/data/a"; UriStr "/data/b"] "/tmp" (Some (Many [2])) None
               false false 5)
    as (ltr & lva & lte & Htr & _ & _ & _ & _ & _ & Hlen & _).
  - vm_compute. reflexivity.
  - injection Htr as <-. eexists _, _, _, _. split; [| exact Hlen].
    vm_compute. reflexivity.
Defined.

Lemma image_make_datasets_total_witness :
  @ImageDataConfig_make_datasets memory_fs grouped_cfg [] ["/data/a/valid"%string] []
    "aug"%string "base"%string "base"%string
  = OK (ConcatDataset [EmptyList],
        ConcatDataset [SourceDataset "/data/a/valid" 2],
        ConcatDataset [EmptyList])
  /\ len (ConcatDataset [EmptyList]) = 0.
Proof.
  split; [reflexivity |].
  destruct (@image_make_datasets_total memory_fs grouped_cfg []
              ["/data/a/valid"%string] [] "aug"%string "base"%string "base"%string)
    as (_ & _ & Hempty).
  apply (Hempty eq_refl (ConcatDataset [EmptyList])
           (ConcatDataset [SourceDataset "/data/a/valid" 2])
           (ConcatDataset [EmptyList])).
  reflexivity.
Defined.

(** X10.  An empty list of groups is an error: with no URI there is nothing
    to concatenate, and [get_datasets_from_group_uris], and so [build] on a
    configuration with [group_uris=[]], raises the assertion error of
    [ConcatDataset] whatever the other fields are, without drawing from the
    generator. *)
Theorem empty_group_uris_raise `{PyRandom} `{ImageDataEnv}
    (self : ImageDataConfig) (tmp_dir : string) (overfit_mode test_mode : bool)
    (g : rng) :
  (forall sizes sizes_rel,
     get_datasets_from_group_uris self [] tmp_dir sizes sizes_rel
       overfit_mode test_mode g
     = (Raise (AssertionError "datasets should not be an empty iterable"), g))
  /\ (group_uris self = Some [] ->
      ImageDataConfig_build self tmp_dir overfit_mode test_mode g
      = (Raise (AssertionError "datasets should not be an empty iterable"), g)).
Proof.
  split.
  - intros sizes sizes_rel. reflexivity.
  - intros Hg. unfold ImageDataConfig_build. rewrite Hg. reflexivity.
Qed.

Lemma empty_group_uris_raise_witness :
  @ImageDataConfig_build lcg_random memory_fs
    (image_cfg None (Some []) None (Some 3)) "/tmp" false false 5
  = (Raise (AssertionError "datasets should not be an empty iterable"), 5).
Proof.
  apply (@empty_group_uris_raise lcg_random memory_fs
           (image_cfg None (Some []) None (Some 3)) "/tmp" false false 5).
  reflexivity.
Defined.

(** ** What the flags of [build] do *)

Lemma st_for_ext {S A B : Type} (body body' : A -> ST S B) (xs : list A) (s : S) :
  (forall x s0, body x s0 = body' x s0) ->
  st_for xs body s = st_for xs body' s.
Proof.
  intros Hext. revert s. induction xs as [| x xs IH]; intros s; simpl; [done |].
  unfold st_bind at 1 3. rewrite Hext.
  destruct (body' x s) as [[y|e] s1]; [| done].
  unfold st_bind. by rewrite IH.
Qed.

Lemma get_datasets_from_uri_overfit (E : ImageDataEnv) (self : ImageDataConfig)
    (uri : option uri_t) (tmp_dir : string) (test_mode test_mode' : bool) :
  @get_datasets_from_uri E self uri tmp_dir true test_mode
  = @get_datasets_from_uri (without_augmentation E) self uri tmp_dir false test_mode'.
Proof.
  unfold get_datasets_from_uri. cbn [get_data_dirs isdir get_data_transforms
    without_augmentation].
  destruct (@get_data_dirs E self uri tmp_dir) as [dirs|e]; cbn [res_bind]; [| done].
  destruct (@get_data_transforms E self) as [[base aug]|e]; cbn [res_bind]; done.
Qed.

(** X11.  [ImageDataConfig.build] does not look at [test_mode]; and
    [overfit_mode] does one thing: with it every training directory is read
    with the base transform, so the build is the build without it in a
    world where the augmenting transform is the base transform. *)
Theorem image_build_flags (E : ImageDataEnv) `{PyRandom} (self : ImageDataConfig)
    (tmp_dir : string) (overfit_mode test_mode test_mode' : bool) (g : rng) :
  @ImageDataConfig_build _ E self tmp_dir overfit_mode test_mode g
  = @ImageDataConfig_build _ E self tmp_dir overfit_mode test_mode' g
  /\ @ImageDataConfig_build _ E self tmp_dir true test_mode g
     = @ImageDataConfig_build _ (without_augmentation E) self tmp_dir false
         test_mode g.
Proof.
  split; [reflexivity |].
  unfold ImageDataConfig_build.
  destruct (group_uris self) as [uris|].
  - unfold st_bind at 1 3.
    assert (@get_datasets_from_group_uris _ E self uris tmp_dir None None true
              test_mode g
            = @get_datasets_from_group_uris _ (without_augmentation E) self uris
                tmp_dir None None false test_mode g) as ->; [| done].
    unfold get_datasets_from_group_uris, st_bind at 1 3.
    erewrite st_for_ext; [reflexivity |].
    intros [u sz] s0. unfold group_datasets, st_bind, st_lift.
    by rewrite (get_datasets_from_uri_overfit E self (Some u) tmp_dir test_mode
                  test_mode).
  - unfold st_lift. by rewrite (get_datasets_from_uri_overfit E self (uri self)
                                  tmp_dir test_mode test_mode).
Qed.

(** ** GeoDataWindowConfig: update and validation, again *)

Lemma window_update_cases (c : GeoDataWindowConfig) :
  GeoDataWindowConfig_update c =
    if is_random (method c) && negb (is_not_None (size_lims c))
       && negb (is_not_None (h_lims c))
    then match size c with
         | IntVal n => (OK tt, set_size_lims (Some (n, n + 1)) c)
         | PairVal _ _ =>
             (Raise (TypeError "can only concatenate tuple (not 'int') to tuple"), c)
         end
    else (OK tt, c).
Proof.
  unfold GeoDataWindowConfig_update, st_bind, st_get, st_modify, st_raise, st_ret.
  destruct (is_random (method c)), (is_not_None (size_lims c)),
    (is_not_None (h_lims c)); simpl; try done.
  by destruct (size c).
Qed.

Lemma window_validate_steps (c : GeoDataWindowConfig) :
  GeoDataWindowConfig_validate_config c =
    match GeoDataWindowConfig_update c with
    | (OK _, c1) => (window_checks c1, c1)
    | (Raise e, c1) => (Raise e, c1)
    end.
Proof.
  unfold GeoDataWindowConfig_validate_config, st_bind at 1.
  destruct (GeoDataWindowConfig_update c) as [[[]|e] c1]; [| done].
  unfold st_bind, st_get, st_raise, st_ret, window_checks.
  by repeat case_match.
Qed.

(** X12.  [GeoDataWindowConfig.update] writes [size_lims] and no other
    field, and a second [update] finds nothing to do; a configuration that
    [validate_config] has accepted, as [validate_config] left it, is
    accepted again and left as it is. *)
Theorem window_update_idempotent (c : GeoDataWindowConfig) :
  (forall r c', GeoDataWindowConfig_update c = (r, c') ->
     c' = set_size_lims (size_lims c') c)
  /\ (forall c', GeoDataWindowConfig_update c = (OK tt, c') ->
        GeoDataWindowConfig_update c' = (OK tt, c'))
  /\ (forall c', GeoDataWindowConfig_validate_config c = (OK tt, c') ->
        GeoDataWindowConfig_update c = (OK tt, c')
        /\ GeoDataWindowConfig_validate_config c' = (OK tt, c')).
Proof.
  assert (forall c', GeoDataWindowConfig_update c = (OK tt, c') ->
            GeoDataWindowConfig_update c' = (OK tt, c')) as Hidem.
  { intros c'. rewrite !window_update_cases.
    destruct (is_random (method c)) eqn:Hm; simpl;
      [| intros [= <-]; by rewrite Hm].
    destruct (is_not_None (size_lims c)) eqn:Hs; simpl;
      [intros [= <-]; by rewrite Hm, Hs |].
    destruct (is_not_None (h_lims c)) eqn:Hh; simpl;
      [intros [= <-]; rewrite Hm, Hs, Hh; done |].
    destruct (size c); [| done]. intros [= <-]. simpl. by rewrite Hm. }
  split; [| split; [done |]].
  - intros r c'. rewrite window_update_cases.
    destruct (_ && _); [destruct (size c) |]; intros [= _ <-]; by destruct c.
  - intros c'. rewrite (window_validate_steps c).
    destruct (GeoDataWindowConfig_update c) as [[[]|e] c1] eqn:Hup; [| done].
    intros [= Hchecks <-]. split; [done |].
    by rewrite (window_validate_steps c1), (Hidem c1 eq_refl), Hchecks.
Qed.

Lemma window_update_idempotent_witness :
  GeoDataWindowConfig_validate_config
    (set_size_lims (Some (256, 257)) (window_cfg random (IntVal 256)))
  = (OK tt, set_size_lims (Some (256, 257)) (window_cfg random (IntVal 256))).
Proof.
  destruct (window_update_idempotent (window_cfg random (IntVal 256)))
    as (_ & _ & Hval).
  apply (Hval (set_size_lims (Some (256, 257)) (window_cfg random (IntVal 256)))).
  reflexivity.
Defined.

(** ** LearnerConfig.validate_config *)

(** X13.  [LearnerConfig.validate_config] accepts a configuration exactly
    when [run_tensorboard] comes with [log_tensorboard] and the class
    weights, if any, are as many as the class names; what it raises
    otherwise is a configuration error. *)
Theorem learner_validate_config_cases (self : LearnerConfig) :
  (LearnerConfig_validate_config self = OK tt <->
     (run_tensorboard self = true -> log_tensorboard self = true)
     /\ (forall w, class_loss_weights (solver self) = Some w ->
           length w = length (class_names (learner_data self))))
  /\ (forall e, LearnerConfig_validate_config self = Raise e ->
        exists msg, e = ConfigError msg).
Proof.
  unfold LearnerConfig_validate_config, validate_class_loss_weights, num_classes.
  split.
  - destruct (run_tensorboard self), (log_tensorboard self); simpl;
      try (split; [done | by intros [Hlog _]; specialize (Hlog eq_refl)]);
      (destruct (class_loss_weights (solver self)) as [w|]; simpl;
       [| split; [intros _; split; [done | by intros ?] | done]];
       destruct (Z.eqb_spec (Z.of_nat (length w))
                   (Z.of_nat (length (class_names (learner_data self)))))
         as [Heq | Hne]; simpl;
       [ split; [intros _; split; [done | intros ? [= <-]; lia] | done]
       | split; [done |]; intros [_ Hw]; specialize (Hw w eq_refl); lia ]).
  - intros e. repeat case_match; intros He; simplify_eq; eauto.
Qed.

(** ** LearnerConfig.update with one mode *)

(** X14.  With [test_mode] alone, [update] gives the solver its test epochs
    and test batch size and the data no workers, leaves the image size and
    the steps of overfit mode alone, and then runs the three sub-config
    updates in the order model, solver, data; with [overfit_mode] alone it
    halves the image size, rounding down, changes nothing else, and runs
    the same three updates. *)
Theorem learner_update_single_mode `{SubConfigs} (cfg : LearnerConfig) :
  (overfit_mode cfg = false -> test_mode cfg = true ->
   exists cfg',
     LearnerConfig_update cfg = propagate cfg'
     /\ num_epochs (solver cfg') = test_num_epochs (solver cfg)
     /\ batch_sz (solver cfg') = test_batch_sz (solver cfg)
     /\ num_workers (learner_data cfg') = 0
     /\ img_sz (learner_data cfg') = img_sz (learner_data cfg)
     /\ overfit_num_steps (solver cfg') = overfit_num_steps (solver cfg)
     /\ model cfg' = model cfg)
  /\ (overfit_mode cfg = true -> test_mode cfg = false ->
      exists cfg',
        LearnerConfig_update cfg = propagate cfg'
        /\ img_sz (learner_data cfg') = img_sz (learner_data cfg) `div` 2
        /\ solver cfg' = solver cfg
        /\ num_workers (learner_data cfg') = num_workers (learner_data cfg)
        /\ model cfg' = model cfg)
  /\ (overfit_mode cfg = false -> test_mode cfg = false ->
      LearnerConfig_update cfg = propagate cfg).
Proof.
  split; [| split].
  - intros Ho Ht. eexists. split; [by apply update_test_mode |]. done.
  - intros Ho Ht. eexists. split; [by apply update_overfit_mode |]. done.
  - apply update_no_mode.
Qed.

Lemma learner_update_single_mode_witness :
  exists cfg',
    @LearnerConfig_update pass_sub_configs (learner true false) = (OK tt, cfg')
    /\ num_epochs (solver cfg') = 2
    /\ batch_sz (solver cfg') = 4
    /\ num_workers (learner_data cfg') = 0
    /\ img_sz (learner_data cfg') = 256.
Proof.
  destruct (@learner_update_single_mode pass_sub_configs (learner true false))
    as [Htest _].
  destruct (Htest eq_refl eq_refl) as (cfg' & Hup & He & Hb & Hw & Hsz & _).
  exists cfg'. rewrite Hup. repeat split; try done.
Defined.

(** ** ImageDataConfig.get_data_dirs and unzip_data *)

Lemma pretty_N_go_no_slash (x : N) (s : string) :
  (forall s', s <> String "/" s') ->
  forall s', pretty_N_go x s <> String "/" s'.
Proof.
  revert s. induction (N.lt_wf_0 x) as [x _ IH]; intros s Hs.
  assert (x = 0 \/ 0 < x)%N as [-> | Hx] by lia.
  - by rewrite pretty_N_go_0.
  - rewrite pretty_N_go_step by done. apply IH.
    + by apply N.div_lt.
    + intros s'. unfold pretty_N_char. by repeat case_match.
Qed.

(** The decimal form of a number does not begin with a slash. *)
Lemma pretty_nat_no_slash (i : nat) (s' : string) : pretty i <> String "/" s'.
Proof.
  unfold pretty, pretty_nat, pretty, pretty_N. case_decide; [done |].
  by apply pretty_N_go_no_slash.
Qed.

Lemma string_app_assoc (s1 s2 s3 : string) :
  (s1 +:+ s2) +:+ s3 = s1 +:+ s2 +:+ s3.
Proof.
  induction s1 as [| c s1 IH]; [done |].
  change (String c ((s1 +:+ s2) +:+ s3) = String c (s1 +:+ s2 +:+ s3)).
  by rewrite IH.
Qed.

Lemma join_number (base : string) (i : nat) :
  join base (pretty i) =
    (if bool_decide (base = ""%string) || ends_with_slash base
     then base else base +:+ "/") +:+ pretty i.
Proof.
  unfold join. pose proof (pretty_nat_no_slash i) as Hi.
  destruct (pretty i) as [| c s] eqn:Hp.
  - destruct (_ || _); [done |]. by rewrite string_app_assoc.
  - destruct (Ascii.ascii_dec c "/") as [-> | Hc]; [by destruct (Hi s) |].
    assert (forall (X : Type) (a b : X),
              match c with
              | "/"%char => a
              | _ => b
              end = b) as Hmatch.
    { intros X a b.
      destruct c as [[] [] [] [] [] [] [] []]; try done. }
    rewrite Hmatch. destruct (_ || _); [done |].
    by rewrite string_app_assoc.
Qed.

Lemma join_number_inj (base : string) : Inj (=) (=) (fun i : nat => join base (pretty i)).
Proof.
  intros i j. rewrite !join_number. intros Heq.
  apply (inj (String.app _)) in Heq. by apply (inj pretty) in Heq.
Qed.

Lemma enumerate_fst {A : Type} (xs : list A) :
  (enumerate xs).*1 = seq 0 (length xs).
Proof. unfold enumerate. apply fst_zip. by rewrite length_seq. Qed.

Lemma enumerate_snd {A : Type} (xs : list A) : (enumerate xs).*2 = xs.
Proof. unfold enumerate. apply snd_zip. by rewrite length_seq. Qed.

Lemma unzip_one_OK `{FileSystem} (unzip_dir : string) (iz : nat * string)
    (d : string) (w0 w2 : world) :
  unzip_one unzip_dir iz w0 = (OK d, w2) ->
  d = join unzip_dir (pretty iz.1)
  /\ exists zip_path w1,
       download_if_needed iz.2 unzip_dir w0 = (OK zip_path, w1)
       /\ unzip zip_path d w1 = (OK tt, w2).
Proof.
  destruct iz as [i z]. unfold unzip_one, st_bind, st_ret. simpl.
  destruct (download_if_needed z unzip_dir w0) as [[zp|e] w1]; [| done].
  destruct (unzip zp _ w1) as [[[]|e] w2'] eqn:Hun; [| done].
  intros [= <- <-]. split; [done |]. by exists zp, w1.
Qed.

(** X16.  When [unzip_data] returns, it has made one directory for each
    archive, in order: under [unzip_dir/data/<uuid>] the archive at place
    [i] was downloaded and then unpacked into the directory named [i]; the
    directories are as many as the archives and no two are the same. *)
Theorem unzip_data_one_dir_per_zip `{FileSystem} (zip_uris : list string)
    (unzip_dir : string) (w w' : world) (data_dirs : list string)
    (Hreturns : unzip_data zip_uris unzip_dir w = (OK data_dirs, w')) :
  exists ident w0,
    uuid4 w = (OK ident, w0)
    /\ let base := join (join unzip_dir "data") ident in
       data_dirs = (fun i : nat => join base (pretty i)) <$> seq 0 (length zip_uris)
       /\ length data_dirs = length zip_uris
       /\ NoDup data_dirs
       /\ Forall2 (fun zip_uri data_dir =>
                     exists w1 zip_path w2 w3,
                       download_if_needed zip_uri base w1 = (OK zip_path, w2)
                       /\ unzip zip_path data_dir w2 = (OK tt, w3))
            zip_uris data_dirs.
Proof.
  revert Hreturns. unfold unzip_data, st_bind at 1.
  destruct (uuid4 w) as [[ident|e] w0]; [| done].
  set (base := join (join unzip_dir "data") ident). intros Hloop.
  exists ident, w0. split; [done |]. cbv zeta.
  apply st_for_OK in Hloop.
  assert (Forall2 (fun iz d => d = join base (pretty iz.1)
                     /\ exists w1 zip_path w2 w3,
                          download_if_needed iz.2 base w1 = (OK zip_path, w2)
                          /\ unzip zip_path d w2 = (OK tt, w3))
            (enumerate zip_uris) data_dirs) as Hall.
  { eapply Forall2_impl; [exact Hloop |].
    intros iz d (w1 & w3 & Hone).
    apply unzip_one_OK in Hone as (-> & zp & w2 & Hd & Hu).
    split; [done |]. by exists w1, zp, w2, w3. }
  assert (data_dirs = (fun i : nat => join base (pretty i))
                        <$> seq 0 (length zip_uris)) as Hdirs.
  { rewrite <- enumerate_fst, <- list_fmap_compose.
    apply list_eq_Forall2, Forall2_fmap_r, Forall2_flip.
    eapply Forall2_impl; [exact Hall |]. by intros iz d [-> _]. }
  split; [done |]. split; [| split].
  - by rewrite Hdirs, length_fmap, length_seq.
  - rewrite Hdirs. apply NoDup_fmap_2; [apply join_number_inj | apply NoDup_seq].
  - rewrite <- (enumerate_snd zip_uris) at 1. apply Forall2_fmap_l.
    eapply Forall2_impl; [exact Hall |]. by intros iz d [_ ?].
Qed.

Lemma unzip_data_one_dir_per_zip_witness :
  exists w',
    @unzip_data logged_fs ["/zips/x.zip"; "/zips/y.zip"]%string "/tmp" []
    = (OK ["/tmp/data/1b4e28ba/0"; "/tmp/data/1b4e28ba/1"]%string, w')
    /\ NoDup ["/tmp/data/1b4e28ba/0"; "/tmp/data/1b4e28ba/1"]%string.
Proof.
  eexists. split; [vm_compute; reflexivity |].
  edestruct (@unzip_data_one_dir_per_zip logged_fs
               ["/zips/x.zip"; "/zips/y.zip"]%string "/tmp" [])
    as (ident & w0 & _ & _ & _ & Hnd & _).
  - vm_compute. reflexivity.
  - exact Hnd.
Defined.

Lemma forallb_endswith (zip_uris : list string) :
  forallb (fun uri => endswith uri ".zip") zip_uris = true
  <-> Forall (fun uri => endswith uri ".zip" = true) zip_uris.
Proof.
  rewrite forallb_forall, Forall_forall.
  split; intros Hall u Hu; apply Hall; by apply list_elem_of_In.
Qed.

Lemma is_data_dir_true `{FileSystem} (uri : string) (paths : list string)
    (w : world) :
  file_exists uri true w = OK true ->
  list_paths uri None w = OK paths ->
  join uri "train" ∈ paths -> join uri "valid" ∈ paths ->
  is_data_dir uri w = (OK true, w).
Proof.
  intros Hdir Hpaths Htrain Hvalid.
  unfold is_data_dir, st_bind, st_read, st_ret. rewrite Hdir. cbn [negb].
  rewrite Hpaths. by rewrite !bool_decide_eq_true_2 by done.
Qed.

(** X15.  [get_data_dirs] turns down what it cannot use before it touches
    anything: a list with an entry that does not end in [.zip] and a file
    that does not end in [.zip] are a [ValueError], a URI that is neither a
    file nor a directory is a [FileNotFoundError] naming it, and in each
    case the file system is as it was.  A directory that lists its [train]
    and [valid] children is returned as the one data directory, at its
    local path, and is synced there only when the local path is another
    path. *)
Theorem get_data_dirs_cases `{FileSystem} (unzip_dir : string) (w : world) :
  (forall zip_uris,
     ~ Forall (fun uri => endswith uri ".zip" = true) zip_uris ->
     ImageDataConfig_get_data_dirs (UriList zip_uris) unzip_dir w
     = (Raise (ValueError msg_list_of_zips), w))
  /\ (forall uri,
        file_exists uri false w = OK true -> endswith uri ".zip" = false ->
        ImageDataConfig_get_data_dirs (UriStr uri) unzip_dir w
        = (Raise (ValueError msg_not_dir_nor_zip), w))
  /\ (forall uri,
        file_exists uri false w = OK false -> file_exists uri true w = OK false ->
        ImageDataConfig_get_data_dirs (UriStr uri) unzip_dir w
        = (Raise (FileNotFoundError uri), w))
  /\ (forall uri paths,
        file_exists uri false w = OK false -> file_exists uri true w = OK true ->
        list_paths uri None w = OK paths ->
        join uri "train" ∈ paths -> join uri "valid" ∈ paths ->
        let local_path := get_local_path uri unzip_dir in
        (uri = local_path ->
         ImageDataConfig_get_data_dirs (UriStr uri) unzip_dir w = (OK [uri], w))
        /\ (uri <> local_path ->
            ImageDataConfig_get_data_dirs (UriStr uri) unzip_dir w =
              match sync_from_dir uri local_path w with
              | (OK _, w') => (OK [local_path], w')
              | (Raise e, w') => (Raise e, w')
              end)).
Proof.
  split; [| split; [| split]].
  - intros zip_uris Hbad. unfold ImageDataConfig_get_data_dirs.
    destruct (forallb _ zip_uris) eqn:Hall; [| done].
    by apply forallb_endswith in Hall.
  - intros uri Hfile Hzip.
    unfold ImageDataConfig_get_data_dirs, st_bind, st_read.
    by rewrite Hfile, Hzip.
  - intros uri Hfile Hdir.
    unfold ImageDataConfig_get_data_dirs, st_bind, st_read.
    by rewrite Hfile, Hdir.
  - intros uri paths Hfile Hdir Hpaths Htrain Hvalid local_path.
    assert (ImageDataConfig_get_data_dirs (UriStr uri) unzip_dir w =
              (do _ <- (if negb (bool_decide (uri = local_path))
                        then sync_from_dir uri local_path
                        else st_ret tt);
               st_ret [local_path])%st w) as ->.
    { unfold ImageDataConfig_get_data_dirs, st_bind at 1, st_read at 1.
      rewrite Hfile. unfold st_bind at 1, st_read at 1. rewrite Hdir.
      unfold st_bind at 1. by rewrite (is_data_dir_true uri paths). }
    unfold st_bind, st_ret. split.
    + intros Heq. rewrite bool_decide_eq_true_2 by done. cbn [negb].
      by rewrite <- Heq.
    + intros Hne. rewrite bool_decide_eq_false_2 by done. cbn [negb].
      by destruct (sync_from_dir uri local_path w) as [[[]|e] w'].
Qed.

Lemma get_data_dirs_cases_witness :
  @ImageDataConfig_get_data_dirs logged_fs
    (UriList ["/in/chips.zip"; "/in/notes.txt"]%string) "/tmp" []
    = (Raise (ValueError msg_list_of_zips), [])
  /\ @ImageDataConfig_get_data_dirs logged_fs (UriStr "/in/notes.txt") "/tmp" []
     = (Raise (ValueError msg_not_dir_nor_zip), [])
  /\ @ImageDataConfig_get_data_dirs logged_fs (UriStr "/nowhere") "/tmp" []
     = (Raise (FileNotFoundError "/nowhere"), [])
  /\ @ImageDataConfig_get_data_dirs logged_fs (UriStr "/data/a") "/tmp" []
     = (OK ["/data/a"%string], []).
Proof.
  destruct (@get_data_dirs_cases logged_fs "/tmp" [])
    as (Hlist & Hfile & Hnone & Hdir).
  split; [| split; [| split]].
  - apply Hlist. intros Hall. apply Forall_cons in Hall as [_ Hall].
    apply Forall_cons in Hall as [Hzip _]. vm_compute in Hzip. discriminate Hzip.
  - apply Hfile; reflexivity.
  - apply Hnone; reflexivity.
  - apply (Hdir "/data/a"%string ["/data/a/train"; "/data/a/valid"]%string);
      try reflexivity.
    + by left.
    + right. by left.
Defined.

(** ** DataConfig.get_data_transforms *)

Lemma append_augmentors_known `{Albumentations} (acc : list ATransform)
    (names : list string) :
  append_augmentors acc names = acc ++ omap augmentors_dict_lookup names.
Proof.
  unfold append_augmentors. revert acc.
  induction names as [| name names IH]; intros acc; simpl.
  - by rewrite app_nil_r.
  - rewrite IH. destruct (augmentors_dict_lookup name); [| done].
    by rewrite <- app_assoc.
Qed.

(** The names that [augmentors_dict] knows are the names of the module-level
    list. *)
Lemma augmentors_dict_keys `{Albumentations} (name : string) :
  is_Some (augmentors_dict_lookup name) <-> name ∈ augmentors_catalog.
Proof.
  unfold augmentors_dict_lookup, augmentors_dict, augmentors_catalog.
  cbn [dict_get]. rewrite !elem_of_cons, elem_of_nil.
  repeat (case_decide;
          [subst; split; [intros _; repeat ((by left) || right) | by eexists] |]).
  split; [by intros [? ?] |]. intros Hin.
  repeat (destruct Hin as [-> | Hin]; [done |]). done.
Qed.

Lemma known_augmentors_count `{Albumentations} (names : list string) :
  (length (omap augmentors_dict_lookup names) <= length names)%nat
  /\ (length (omap augmentors_dict_lookup names) = length names
      <-> Forall (fun name => name ∈ augmentors_catalog) names).
Proof.
  induction names as [| name names [IHle IHeq]].
  - split; [done |]. split; [constructor | done].
  - rewrite Forall_cons, <- augmentors_dict_keys. cbn [omap list_omap].
    destruct (augmentors_dict_lookup name) as [tf|]; simpl.
    + split; [lia |]. rewrite <- IHeq. split.
      * intros Hlen. split; [by eexists | lia].
      * intros [_ Hlen]. lia.
    + split; [lia |]. split; [lia |]. by intros [[? ?] _].
Qed.

(** X17.  [get_data_transforms] raises only what deserializing
    [base_transform] or [aug_transform] raises, so never with neither set.
    The base pipeline always starts by resizing to [img_sz] by [img_sz].
    With [aug_transform] the augmenting pipeline is the base pipeline and
    the deserialized transform, whatever [augmentors] holds; without it, it
    is the base pipeline and then, in order, the transforms of the names in
    [augmentors] that the catalogue knows, the others being passed over:
    all of them exactly when every name is in the module-level list. *)
Theorem data_transforms_pipeline `{Albumentations} (self : DataConfig) :
  (forall e, DataConfig_get_data_transforms self = Raise e ->
     exists d, (base_transform self = Some d \/ aug_transform self = Some d)
               /\ deserialize_albumentation_transform d = Raise e)
  /\ (forall base aug, DataConfig_get_data_transforms self = OK (base, aug) ->
        (exists rest,
           base = A_Compose (A_Resize (img_sz self) (img_sz self) :: rest)
                    (get_bbox_params self)
           /\ (base_transform self = None -> rest = []))
        /\ (forall d, aug_transform self = Some d ->
              exists tf, deserialize_albumentation_transform d = OK tf
                         /\ aug = A_Compose [base; A_Custom tf] (get_bbox_params self))
        /\ (aug_transform self = None ->
            aug = A_Compose (base :: omap augmentors_dict_lookup (augmentors self))
                    (get_bbox_params self)
            /\ (length (omap augmentors_dict_lookup (augmentors self))
                <= length (augmentors self))%nat
            /\ (length (omap augmentors_dict_lookup (augmentors self))
                = length (augmentors self)
                <-> Forall (fun name => name ∈ augmentors_catalog) (augmentors self)))).
Proof.
  unfold DataConfig_get_data_transforms. split.
  - intros e.
    destruct (base_transform self) as [db|] eqn:Hb; cbn [res_bind].
    + destruct (deserialize_albumentation_transform db) as [tfb|eb] eqn:Hdb;
        cbn [res_bind]; [| intros [= <-]; exists db; auto].
      destruct (aug_transform self) as [da|] eqn:Ha; [| done].
      destruct (deserialize_albumentation_transform da) as [tfa|ea] eqn:Hda;
        cbn [res_bind]; [done |]. intros [= <-]. exists da. auto.
    + destruct (aug_transform self) as [da|] eqn:Ha; [| done].
      destruct (deserialize_albumentation_transform da) as [tfa|ea] eqn:Hda;
        cbn [res_bind]; [done |]. intros [= <-]. exists da. auto.
  - intros base aug.
    assert (forall base_tfs,
              match aug_transform self with
              | Some d =>
                  (do tf <- deserialize_albumentation_transform d;
                   OK (A_Compose base_tfs (get_bbox_params self),
                       A_Compose [A_Compose base_tfs (get_bbox_params self);
                                  A_Custom tf] (get_bbox_params self)))%res
              | None =>
                  OK (A_Compose base_tfs (get_bbox_params self),
                      A_Compose
                        (append_augmentors
                           [A_Compose base_tfs (get_bbox_params self)]
                           (augmentors self)) (get_bbox_params self))
              end = OK (base, aug) ->
              base = A_Compose base_tfs (get_bbox_params self)
              /\ (forall d, aug_transform self = Some d ->
                    exists tf, deserialize_albumentation_transform d = OK tf
                               /\ aug = A_Compose [base; A_Custom tf]
                                          (get_bbox_params self))
              /\ (aug_transform self = None ->
                  aug = A_Compose
                          (base :: omap augmentors_dict_lookup (augmentors self))
                          (get_bbox_params self))) as Htail.
    { intros base_tfs. destruct (aug_transform self) as [da|].
      - destruct (deserialize_albumentation_transform da) as [tfa|ea] eqn:Hda;
          cbn [res_bind]; [| done].
        intros [= <- <-]. split; [done |]. split; [| done].
        intros d [= <-]. by exists tfa.
      - intros [= <- <-]. split; [done |]. split; [done |]. intros _.
        by rewrite append_augmentors_known. }
    pose proof (known_augmentors_count (augmentors self)) as Hknown.
    destruct (base_transform self) as [db|] eqn:Hb; cbn [res_bind].
    + destruct (deserialize_albumentation_transform db) as [tfb|eb];
        cbn [res_bind]; [| done].
      intros Hres. apply Htail in Hres as (-> & Haug & Hnone).
      split; [by eexists | ]. split; [done |]. intros Ha. by split; [apply Hnone |].
    + intros Hres. apply Htail in Hres as (-> & Haug & Hnone).
      split; [by exists [] | ]. split; [done |]. intros Ha. by split; [apply Hnone |].
Qed.

Lemma data_transforms_pipeline_witness :
  exists base,
    @DataConfig_get_data_transforms named_transforms
      (with_augmentors ["Blur"; "Sharpen"; "ToGray"]%string default_data)
    = OK (base, A_Compose [base; A_Blur; A_ToGray] None)
    /\ base = A_Compose [A_Resize 256 256] None.
Proof.
  destruct (@data_transforms_pipeline named_transforms
              (with_augmentors ["Blur"; "Sharpen"; "ToGray"]%string default_data))
    as [_ Hok].
  destruct (@DataConfig_get_data_transforms named_transforms
              (with_augmentors ["Blur"; "Sharpen"; "ToGray"]%string default_data))
    as [[base aug]|e] eqn:Hres; [| discriminate Hres].
  destruct (Hok base aug eq_refl) as ((rest & Hbase & Hrest) & _ & Haug).
  destruct (Haug eq_refl) as (-> & _). rewrite (Hrest eq_refl) in Hbase.
  exists base. split; [| exact Hbase]. reflexivity.
Defined.

(** ** DataConfig.update *)

(** X18.  When [DataConfig.update] returns, a configuration that had no
    class colours has one colour for each class name, and one that had some
    keeps them as they are, of whatever number, with no colour drawn; the
    plot options are those that [PlotOptions.update] leaves for the
    [img_channels] of the configuration; and no other field has changed.
    Without plot options [update] cannot return, and raises
    [AttributeError] once the colours are dealt with. *)
Theorem data_config_update_cases `{ColorSource} (self : DataConfig)
    (cw : color_world) :
  (forall self' cw',
     DataConfig_update (self, cw) = (OK tt, (self', cw')) ->
     (no_colors (class_colors self) = true ->
      exists colors, class_colors self' = Some colors
                     /\ length colors = length (class_names self))
     /\ (no_colors (class_colors self) = false ->
         class_colors self' = class_colors self /\ cw' = cw)
     /\ (exists options options',
           plot_options self = Some options
           /\ PlotOptions_update (img_channels self) options = (OK tt, options')
           /\ plot_options self' = Some options')
     /\ set_plot_options (plot_options self)
          (set_class_colors (class_colors self) self') = self)
  /\ (plot_options self = None ->
      raises (DataConfig_update (self, cw)).1
      /\ (no_colors (class_colors self) = false ->
          DataConfig_update (self, cw)
          = (Raise (AttributeError "update"), (self, cw)))).
Proof.
  unfold DataConfig_update. split.
  - intros self' cw'.
    destruct (no_colors (class_colors self)) eqn:Hno.
    + destruct (st_for (class_names self) _ cw) as [[triples|e] cw1] eqn:Hloop;
        [| done].
      cbn [plot_options set_class_colors img_channels].
      destruct (plot_options self) as [po|] eqn:Hpo; [| done].
      destruct (PlotOptions_update (img_channels self) po) as [r po'] eqn:Hup.
      intros [= -> <- <-]. split; [| split; [done | split]].
      * intros _. eexists. split; [done |].
        apply st_for_OK, Forall2_length in Hloop. by rewrite length_fmap.
      * by exists po, po'.
      * destruct self. simpl in *. by subst.
    + destruct (plot_options self) as [po|] eqn:Hpo; [| done].
      destruct (PlotOptions_update (img_channels self) po) as [r po'] eqn:Hup.
      intros [= -> <- <-]. split; [done |]. split; [done |]. split.
      * by exists po, po'.
      * destruct self. simpl in *. by subst.
  - intros Hpo. split.
    + destruct (no_colors (class_colors self)).
      * destruct (st_for (class_names self) _ cw) as [[triples|e] cw1];
          cbn [plot_options set_class_colors]; rewrite ?Hpo; by eexists.
      * rewrite Hpo. by eexists.
    + intros ->. by rewrite Hpo.
Qed.

Lemma data_config_update_cases_witness :
  exists self' colors,
    @DataConfig_update counting_colors
      (with_classes ["building"; "road"]%string None default_data, 10)
    = (OK tt, (self', 16))
    /\ class_colors self' = Some colors /\ length colors = 2%nat
    /\ @DataConfig_update counting_colors
         (with_classes ["building"; "road"]%string (Some [ColorName "red"])
            default_data, 10)
       = (OK tt, (set_plot_options
                    (Some (plot (Some (GroupsDict [("Input"%string, [0; 1; 2])]))))
                    (with_classes ["building"; "road"]%string
                       (Some [ColorName "red"]) default_data), 10)).
Proof.
  destruct (@data_config_update_cases counting_colors
              (with_classes ["building"; "road"]%string None default_data) 10)
    as [Hok _].
  destruct (@DataConfig_update counting_colors
              (with_classes ["building"; "road"]%string None default_data, 10))
    as [[[]|e] [self' cw']] eqn:Hup; [| vm_compute in Hup; discriminate Hup].
  destruct (Hok self' cw' Hup) as (Hcolors & _).
  destruct (Hcolors eq_refl) as (colors & Hc & Hlen).
  exists self', colors. split; [| split; [done | split; [done |]]].
  - vm_compute in Hup. injection Hup as <- <-. reflexivity.
  - reflexivity.
Defined.

(** ** GeoDataConfig.build *)

Lemma build_scenes_OK `{GeoDataEnv} (self : GeoDataConfig) (tmp_dir : string)
    (trs vas tes : list Scene) :
  build_scenes self tmp_dir = OK (trs, vas, tes) ->
  let built c s := scene_build c (class_config (scene_dataset self)) tmp_dir true
                   = OK s in
  Forall2 built (train_scenes (scene_dataset self)) trs
  /\ Forall2 built (validation_scenes (scene_dataset self)) vas
  /\ Forall2 built (test_scenes (scene_dataset self)) tes.
Proof.
  unfold build_scenes. cbv zeta.
  destruct (res_for (train_scenes _) _) as [l1|e] eqn:H1; cbn [res_bind]; [| done].
  destruct (res_for (validation_scenes _) _) as [l2|e] eqn:H2; cbn [res_bind]; [| done].
  destruct (res_for (test_scenes _) _) as [l3|e] eqn:H3; cbn [res_bind]; [| done].
  intros [= <- <- <-]. apply res_for_OK in H1, H2, H3. done.
Qed.

Lemma build_scenes_Raise `{GeoDataEnv} (self : GeoDataConfig) (tmp_dir : string)
    (e : exn) :
  build_scenes self tmp_dir = Raise e ->
  exists c, c ∈ train_scenes (scene_dataset self)
                ++ validation_scenes (scene_dataset self)
                ++ test_scenes (scene_dataset self)
            /\ scene_build c (class_config (scene_dataset self)) tmp_dir true
               = Raise e.
Proof.
  unfold build_scenes. cbv zeta.
  destruct (res_for (train_scenes _) _) as [l1|e1] eqn:H1; cbn [res_bind].
  2:{ intros [= <-]. apply res_for_Raise in H1 as (c & Hc & He).
      exists c. rewrite !elem_of_app. auto. }
  destruct (res_for (validation_scenes _) _) as [l2|e2] eqn:H2; cbn [res_bind].
  2:{ intros [= <-]. apply res_for_Raise in H2 as (c & Hc & He).
      exists c. rewrite !elem_of_app. auto. }
  destruct (res_for (test_scenes _) _) as [l3|e3] eqn:H3; cbn [res_bind]; [done |].
  intros [= <-]. apply res_for_Raise in H3 as (c & Hc & He).
  exists c. rewrite !elem_of_app. auto.
Qed.

Lemma geo_make_datasets_OK `{GeoDataEnv} (self : GeoDataConfig) (tmp_dir : string)
    (train_tf val_tf test_tf : GeoTransform) (tr va te : Dataset) :
  GeoDataConfig_make_datasets self tmp_dir train_tf val_tf test_tf
  = OK (tr, va, te) ->
  exists trs vas tes trl val tel,
    build_scenes self tmp_dir = OK (trs, vas, tes)
    /\ Forall2 (fun s ds => scene_to_dataset self s train_tf = OK ds) trs trl
    /\ Forall2 (fun s ds => scene_to_dataset self s val_tf = OK ds) vas val
    /\ Forall2 (fun s ds => scene_to_dataset self s test_tf = OK ds) tes tel
    /\ tr = ConcatDataset (pad_empty trl)
    /\ va = ConcatDataset (pad_empty val)
    /\ te = ConcatDataset (pad_empty tel).
Proof.
  unfold GeoDataConfig_make_datasets.
  destruct (build_scenes self tmp_dir) as [[[trs vas] tes]|e]; cbn [res_bind];
    [| done].
  destruct (res_for trs _) as [trl|e] eqn:H1; cbn [res_bind]; [| done].
  destruct (res_for vas _) as [val|e] eqn:H2; cbn [res_bind]; [| done].
  destruct (res_for tes _) as [tel|e] eqn:H3; cbn [res_bind]; [| done].
  rewrite !new_ConcatDataset_pad. cbn [res_bind]. intros [= <- <- <-].
  apply res_for_OK in H1, H2, H3. by exists trs, vas, tes, trl, val, tel.
Qed.

Lemma geo_make_datasets_Raise `{GeoDataEnv} (self : GeoDataConfig)
    (tmp_dir : string) (train_tf val_tf test_tf : GeoTransform) (e : exn) :
  GeoDataConfig_make_datasets self tmp_dir train_tf val_tf test_tf = Raise e ->
  build_scenes self tmp_dir = Raise e
  \/ exists s tf, scene_to_dataset self s tf = Raise e.
Proof.
  unfold GeoDataConfig_make_datasets.
  destruct (build_scenes self tmp_dir) as [[[trs vas] tes]|e0]; cbn [res_bind].
  2:{ intros [= <-]. by left. }
  destruct (res_for trs _) as [trl|e1] eqn:H1; cbn [res_bind].
  2:{ intros [= <-]. apply res_for_Raise in H1 as (s & _ & He).
      right. by exists s, train_tf. }
  destruct (res_for vas _) as [val|e2] eqn:H2; cbn [res_bind].
  2:{ intros [= <-]. apply res_for_Raise in H2 as (s & _ & He).
      right. by exists s, val_tf. }
  destruct (res_for tes _) as [tel|e3] eqn:H3; cbn [res_bind].
  2:{ intros [= <-]. apply res_for_Raise in H3 as (s & _ & He).
      right. by exists s, test_tf. }
  rewrite !new_ConcatDataset_pad. cbn [res_bind]. done.
Qed.

(** X19.  [GeoDataConfig.build] does not look at [test_mode].  What it
    raises was raised by [get_data_transforms], by the build of one of the
    scenes, by [scene_to_dataset], or by the cap on the training set: the
    assertion of [ConcatDataset] is never tripped, also with no scene at
    all.  When it returns, every scene was built, the validation and test
    sets are the [ConcatDataset]s of the datasets of their scenes under the
    base transform (never a [Subset]), and the training set is what
    [random_subset_dataset] makes, with [train_sz] and [train_sz_rel], of
    the [ConcatDataset] of the datasets of the training scenes, under the
    augmenting transform, or under the base transform in overfit mode.
    With [train_sz] and [train_sz_rel] both set it never returns. *)
Theorem geo_build_cases `{PyRandom} `{GeoDataEnv} (self : GeoDataConfig)
    (tmp_dir : string) (overfit_mode test_mode : bool) (g : rng) :
  let result := GeoDataConfig_build self tmp_dir overfit_mode test_mode g in
  let size := train_sz (geo_data self) in
  let fraction := train_sz_rel (geo_data self) in
  let class_cfg := class_config (scene_dataset self) in
  result = GeoDataConfig_build self tmp_dir overfit_mode (negb test_mode) g
  /\ (forall e g', result = (Raise e, g') ->
        geo_get_data_transforms self = Raise e
        \/ (exists c, c ∈ train_scenes (scene_dataset self)
                          ++ validation_scenes (scene_dataset self)
                          ++ test_scenes (scene_dataset self)
                      /\ scene_build c class_cfg tmp_dir true = Raise e)
        \/ (exists s tf, scene_to_dataset self s tf = Raise e)
        \/ (exists ds, random_subset_dataset ds size fraction g = (Raise e, g')))
  /\ (forall train_ds val_ds test_ds g',
        result = (OK (train_ds, val_ds, test_ds), g') ->
        exists base aug trs vas tes trl val tel,
          geo_get_data_transforms self = OK (base, aug)
          /\ Forall2 (fun c s => scene_build c class_cfg tmp_dir true = OK s)
               (train_scenes (scene_dataset self)) trs
          /\ Forall2 (fun c s => scene_build c class_cfg tmp_dir true = OK s)
               (validation_scenes (scene_dataset self)) vas
          /\ Forall2 (fun c s => scene_build c class_cfg tmp_dir true = OK s)
               (test_scenes (scene_dataset self)) tes
          /\ Forall2 (fun s ds =>
                        scene_to_dataset self s (if overfit_mode then base else aug)
                        = OK ds) trs trl
          /\ Forall2 (fun s ds => scene_to_dataset self s base = OK ds) vas val
          /\ Forall2 (fun s ds => scene_to_dataset self s base = OK ds) tes tel
          /\ random_subset_dataset (ConcatDataset (pad_empty trl)) size fraction g
             = (OK train_ds, g')
          /\ val_ds = ConcatDataset (pad_empty val)
          /\ test_ds = ConcatDataset (pad_empty tel))
  /\ (is_not_None size && is_not_None fraction = true -> raises result.1).
Proof.
  cbv zeta. split; [done |].
  unfold GeoDataConfig_build, st_bind, st_lift.
  destruct (geo_get_data_transforms self) as [[base aug]|e0] eqn:Htf.
  2:{ split; [| split; [done |]].
      - intros e g' [= <- <-]. by left.
      - intros _. by eexists. }
  destruct (GeoDataConfig_make_datasets self tmp_dir _ base base)
    as [[[tr va] te]|e1] eqn:Hmk.
  2:{ split; [| split; [done |]].
      - intros e g' [= <- <-].
        apply geo_make_datasets_Raise in Hmk as [Hb | Hs].
        + right. left. by apply build_scenes_Raise.
        + right. right. by left.
      - intros _. by eexists. }
  rewrite guarded_cap.
  apply geo_make_datasets_OK in Hmk
    as (trs & vas & tes & trl & val & tel & Hb & Hd1 & Hd2 & Hd3 & -> & -> & ->).
  apply build_scenes_OK in Hb as (Hb1 & Hb2 & Hb3).
  destruct (random_subset_dataset _ _ _ g) as [[tr|e2] g2] eqn:Hcap.
  - split; [done |]. split.
    + intros train_ds val_ds test_ds g' [= <- <- <- <-].
      exists base, aug, trs, vas, tes, trl, val, tel.
      destruct overfit_mode; done.
    + intros Hboth. exfalso. revert Hcap. unfold random_subset_dataset.
      destruct (train_sz (geo_data self)), (train_sz_rel (geo_data self));
        done.
  - split; [| split; [done |]].
    + intros e g' [= <- <-]. right. right. right. by eexists.
    + intros _. by eexists.
Qed.

Lemma geo_build_cases_witness :
  exists train_ds g' trs trl,
    @GeoDataConfig_build lcg_random named_scenes named_geo two_scenes "/tmp" false false 5
    = (OK (train_ds, ConcatDataset [EmptyList], ConcatDataset [EmptyList]), g')
    /\ Forall2 (fun c s => @scene_build _ named_geo c tt "/tmp" true = OK s)
         [("a"%string, 4%nat); ("b"%string, 2%nat)] trs
    /\ Forall2 (fun s ds => @scene_to_dataset _ named_geo two_scenes s true = OK ds)
         trs trl
    /\ @random_subset_dataset lcg_random (ConcatDataset (pad_empty trl))
         (Some 3) None 5
       = (OK train_ds, g').
Proof.
  destruct (@geo_build_cases lcg_random named_scenes named_geo two_scenes "/tmp"
              false false 5) as (_ & _ & Hok & _).
  destruct (@GeoDataConfig_build lcg_random named_scenes named_geo two_scenes "/tmp"
              false false 5) as [[[[tr va] te]|e] g'] eqn:Hb;
    [| vm_compute in Hb; discriminate Hb].
  destruct (Hok tr va te g' eq_refl)
    as (base & aug & trs & vas & tes & trl & val & tel
        & Htf & Hb1 & Hb2 & Hb3 & Hd1 & Hd2 & Hd3 & Hcap & Hva & Hte).
  injection Htf as <- <-.
  exists tr, g', trs, trl. split; [| split; [exact Hb1 | split; [exact Hd1 | exact Hcap]]].
  vm_compute in Hb. injection Hb as <- <- <- <-. reflexivity.
Defined.
